(** * SeleniumBookScraper: a shallow embedding and its checked properties

    The program under study is [src/SeleniumBookScraper.py], one class
    [SeleniumBookScraper] with the methods [get_page],
    [scrape_book_details], [scrape_page], [scrape_multiple_pages],
    [save_to_csv], [save_to_json] and [run].

    Layout of this file:
    - Python text as sequences of code points, [str.strip], [str.replace],
      and the grammar accepted by [float(str)];
    - the values stored in a book record, dicts as insertion-ordered
      association lists;
    - what BeautifulSoup hands back for a listing page and a detail page;
    - the observable events of a run;
    - the JSON encoder of [json.dump(..., indent=4, ensure_ascii=False)];
    - a state-and-exception monad, and the external collaborators (browser
      driver, markup parser, [urljoin], file opening, float printing, the
      csv row formatter) as the class [Env];
    - the seven methods, statement by statement;
    - the vocabulary of the statements and a small site to run the
      program on;
    - the properties, one theorem per claim, and the claims checked on the
      small site. *)

From Stdlib Require Import ZArith QArith String Ascii DecimalString DecimalZ.
From stdpp Require Import gmap list.

Open Scope Z_scope.

(** ** Python text *)

(** A Python [str] is a sequence of Unicode code points. *)
Abbreviation pystr := (list N).

(** An ASCII literal as a Python [str]. *)
Fixpoint str (s : string) : pystr :=
  match s with
  | EmptyString => []
  | String a r => N_of_ascii a :: str r
  end.

(** U+00A3 POUND SIGN and U+00C2 LATIN CAPITAL LETTER A WITH CIRCUMFLEX, the
    two characters [scrape_page] removes from the price text. *)
Definition pound : N := 163%N.
Definition a_circumflex : N := 194%N.

(** [c.isspace()]: the code points [str.strip()] removes. *)
Definition isspace (c : N) : bool :=
  ((9 <=? c) && (c <=? 13) || (28 <=? c) && (c <=? 32)
   || (c =? 133) || (c =? 160) || (c =? 5760)
   || (8192 <=? c) && (c <=? 8202)
   || (c =? 8232) || (c =? 8233) || (c =? 8239) || (c =? 8287)
   || (c =? 12288))%N.

Fixpoint lstrip (s : pystr) : pystr :=
  match s with
  | c :: r => if isspace c then lstrip r else s
  | [] => []
  end.

Definition rstrip (s : pystr) : pystr := rev (lstrip (rev s)).

(** [s.strip()] *)
Definition strip (s : pystr) : pystr := rstrip (lstrip s).

(** [s.replace(old, new)] for a one-character [old], the only form the
    program uses. *)
Definition replace1 (old : N) (new : pystr) (s : pystr) : pystr :=
  flat_map (fun c => if (c =? old)%N then new else [c]) s.

(** [repr(s)] of a text without quotes or escapes in it. *)
Definition quoted (s : pystr) : pystr := str "'" ++ s ++ str "'".

(** [sep.join(l)] *)
Fixpoint join (sep : pystr) (l : list pystr) : pystr :=
  match l with
  | [] => []
  | [x] => x
  | x :: r => x ++ sep ++ join sep r
  end.

(** [part in whole] *)
Definition occurs_in (part whole : pystr) : Prop :=
  exists before after, whole = before ++ part ++ after.

(** [str(n)] for a Python [int]: a minus sign when negative, then the
    decimal digits without leading zeros. *)
Definition str_of_int (n : Z) : pystr := str (NilEmpty.string_of_int (Z.to_int n)).

(** ** Python floats, as far as the program can see them

    A float read from text is kept as the decimal the text denotes,
    [(-1)^neg * mant * 10^exp], together with the two infinities and NaN.
    CPython rounds a finite decimal to the nearest binary64; that rounding
    is monotone and keeps the sign, so comparisons with zero are the same on
    the decimal.  A decimal at or above the binary64 overflow threshold
    reads as infinity, and one that rounds to zero reads as a signed zero,
    as in CPython. *)
Inductive pyfloat :=
  | FNan
  | FInf (neg : bool)
  | FDec (neg : bool) (mant : N) (exp : Z).

(** Python exceptions (subclasses of [Exception]) by class, with the
    message or the key they carry.  [OtherError] stands for an exception
    raised inside a library the program calls (selenium, bs4, lxml, os). *)
Inductive exn :=
  | AttributeError (msg : pystr)
  | TypeError (msg : pystr)
  | KeyError (key : pystr)
  | IndexError (msg : pystr)
  | ValueError (msg : pystr)
  | OtherError (msg : pystr).

(** The outcome of a Python expression: a value or a raised exception. *)
Inductive res (A : Type) :=
  | Ok (a : A)
  | Raise (e : exn).
Arguments Ok {A} a.
Arguments Raise {A} e.

Module PyFloat.

Definition is_digit (c : N) : bool := ((48 <=? c) && (c <=? 57))%N.
Definition digit_val (c : N) : N := (c - 48)%N.
Definition underscore : N := 95%N.
Definition dot : N := 46%N.
Definition plus : N := 43%N.
Definition minus : N := 45%N.

(** ASCII lower-casing, for the case-insensitive words inf, infinity,
    nan. *)
Definition lower (c : N) : N :=
  if ((65 <=? c) && (c <=? 90))%N then (c + 32)%N else c.

(** The rest of a [digitpart] after its first digit:
    [( ["_"] digit )*].  Returns the digit values read and the remaining
    text. *)
Fixpoint digits_tail (s : pystr) : list N * pystr :=
  match s with
  | c :: r =>
      if is_digit c then
        let '(ds, r') := digits_tail r in (digit_val c :: ds, r')
      else if (c =? underscore)%N then
        match r with
        | d :: r2 =>
            if is_digit d then
              let '(ds, r') := digits_tail r2 in (digit_val d :: ds, r')
            else ([], s)
        | [] => ([], s)
        end
      else ([], s)
  | [] => ([], [])
  end.

(** [digitpart ::= digit (["_"] digit)*]; [None] when the text does not
    start with a digit. *)
Definition digitpart (s : pystr) : option (list N * pystr) :=
  match s with
  | c :: r =>
      if is_digit c then
        let '(ds, r') := digits_tail r in Some (digit_val c :: ds, r')
      else None
  | [] => None
  end.

(** Decimal digits, most significant first, to a number. *)
Definition of_digits (ds : list N) : N :=
  fold_left (fun acc d => (10 * acc + d)%N) ds 0%N.

(** An optional sign; [true] for minus. *)
Definition sign (s : pystr) : bool * pystr :=
  match s with
  | c :: r =>
      if (c =? minus)%N then (true, r)
      else if (c =? plus)%N then (false, r)
      else (false, s)
  | [] => (false, [])
  end.

(** [number ::= [digitpart] "." digitpart | digitpart ["."]]: the digits
    before the point, the digits after it, the remaining text. *)
Definition number (s : pystr) : option (list N * list N * pystr) :=
  match digitpart s with
  | Some (ip, r) =>
      match r with
      | c :: r1 =>
          if (c =? dot)%N then
            match digitpart r1 with
            | Some (fp, r2) => Some (ip, fp, r2)
            | None => Some (ip, [], r1)
            end
          else Some (ip, [], r)
      | [] => Some (ip, [], [])
      end
  | None =>
      match s with
      | c :: r1 =>
          if (c =? dot)%N then
            match digitpart r1 with
            | Some (fp, r2) => Some ([], fp, r2)
            | None => None
            end
          else None
      | [] => None
      end
  end.

(** [exponent ::= ("e" | "E") [sign] digitpart], when present; the text
    must end after it. *)
Definition exponent (s : pystr) : option Z :=
  match s with
  | [] => Some 0
  | c :: r =>
      if (lower c =? 101)%N then
        let '(neg, r1) := sign r in
        match digitpart r1 with
        | Some (ds, []) =>
            let e := Z.of_N (of_digits ds) in
            Some (if neg then - e else e)
        | _ => None
        end
      else None
  end.

(** The smallest magnitude that rounds to infinity in binary64:
    [2^1024 - 2^970]. *)
Definition overflow_threshold : Z := 2 ^ 1024 - 2 ^ 970.

Definition overflows (mant : N) (exp : Z) : bool :=
  if 0 <=? exp then overflow_threshold <=? Z.of_N mant * 10 ^ exp
  else overflow_threshold * 10 ^ (- exp) <=? Z.of_N mant.

(** A magnitude at or below half the smallest subnormal, [2^-1075],
    rounds to zero, which keeps its sign. *)
Definition underflows (mant : N) (exp : Z) : bool :=
  if 0 <=? exp then (mant =? 0)%N
  else Z.of_N mant * 2 ^ 1075 <=? 10 ^ (- exp).

Definition finite (neg : bool) (mant : N) (exp : Z) : pyfloat :=
  if overflows mant exp then FInf neg
  else if underflows mant exp then FDec neg 0 0
  else FDec neg mant exp.

(** [absfloatvalue ::= floatnumber | infinity | nan] *)
Definition absfloat (neg : bool) (s : pystr) : option pyfloat :=
  let w := map lower s in
  if decide (w = str "inf" \/ w = str "infinity") then Some (FInf neg)
  else if decide (w = str "nan") then Some FNan
  else
    match number s with
    | Some (ip, fp, r) =>
        match exponent r with
        | Some e =>
            Some (finite neg (of_digits (ip ++ fp)) (e - Z.of_nat (length fp)))
        | None => None
        end
    | None => None
    end.

(** The message of the [ValueError] of a rejected [float(s)]; the
    rejected text is shown between quotes. *)
Definition could_not_convert (s : pystr) : pystr :=
  str "could not convert string to float: '" ++ s ++ str "'".

(** [_PyUnicode_TransformDecimalAndSpaceToASCII], the first thing
    [float(s)] does to a [str] that is not ASCII: a character below 127
    is kept, any other whitespace becomes a space, any other decimal
    digit becomes the ASCII digit of its value, and at the first character
    that is none of these the text is cut and ends in a question mark.
    [decimal] is [Py_UNICODE_TODECIMAL]: the value of a character of the
    Unicode category Nd, [None] for every other character. *)
Fixpoint transform (decimal : N -> option N) (s : pystr) : pystr :=
  match s with
  | [] => []
  | c :: r =>
      if (c <? 127)%N then c :: transform decimal r
      else if isspace c then 32%N :: transform decimal r
      else match decimal c with
           | Some d => (48 + d)%N :: transform decimal r
           | None => [63%N]
           end
  end.

Definition to_ascii (decimal : N -> option N) (s : pystr) : pystr :=
  if forallb (fun c => (c <? 128)%N) s then s else transform decimal s.

(** [Py_ISSPACE]: the ASCII whitespace [float] strips by itself. *)
Definition is_ascii_space (c : N) : bool :=
  ((9 <=? c) && (c <=? 13) || (c =? 32))%N.

Fixpoint lstrip_ascii (s : pystr) : pystr :=
  match s with
  | c :: r => if is_ascii_space c then lstrip_ascii r else s
  | [] => []
  end.

Definition strip_ascii (s : pystr) : pystr :=
  rev (lstrip_ascii (rev (lstrip_ascii s))).

(** [float(s)] for a [str] argument: the text is brought to ASCII, the
    ASCII whitespace around it is dropped, then
    [floatvalue ::= [sign] absfloatvalue] must match all of the rest. *)
Definition of_str (decimal : N -> option N) (s : pystr) : res pyfloat :=
  let '(neg, r) := sign (strip_ascii (to_ascii decimal s)) in
  match absfloat neg r with
  | Some f => Ok f
  | None => Raise (ValueError (could_not_convert s))
  end.

(** [f >= 0] *)
Definition nonneg (f : pyfloat) : bool :=
  match f with
  | FNan => false
  | FInf neg => negb neg
  | FDec neg mant _ => negb neg || (mant =? 0)%N
  end.

(** The rational a finite float was read from. *)
Definition value (f : pyfloat) : option Q :=
  match f with
  | FDec neg mant exp =>
      let m := if neg then - Z.of_N mant else Z.of_N mant in
      Some (if 0 <=? exp then inject_Z (m * 10 ^ exp)
            else Qmake m (Z.to_pos (10 ^ (- exp))))
  | _ => None
  end.

End PyFloat.


(** ** Book records *)

(** The values a book record holds: text, and the float of its price. *)
Inductive pyvalue :=
  | VStr (s : pystr)
  | VFloat (f : pyfloat).

(** A Python [dict] with [str] keys, in insertion order. *)
Definition record := list (pystr * pyvalue).

Module Dict.

(** [d[key] = v]: the value is replaced in place when the key is there,
    the item is appended otherwise. *)
Fixpoint set (key : pystr) (v : pyvalue) (d : record) : record :=
  match d with
  | [] => [(key, v)]
  | (k, x) :: r => if decide (k = key) then (k, v) :: r else (k, x) :: set key v r
  end.

(** [d.update(other)] *)
Definition update (d other : record) : record :=
  fold_left (fun acc kv => set (fst kv) (snd kv) acc) other d.

(** [d.get(key, default)] *)
Fixpoint get (key : pystr) (default : pyvalue) (d : record) : pyvalue :=
  match d with
  | [] => default
  | (k, x) :: r => if decide (k = key) then x else get key default r
  end.

(** [list(d.keys())] *)
Definition keys (d : record) : list pystr := map fst d.

End Dict.

(** ** What the markup parser returns

    The program reads a parsed page only through a handful of BeautifulSoup
    accessors.  Each field below is the outcome of one accessor chain;
    [None] is Python's [None] (no such tag) or an absent attribute. *)

(** The [<a>] inside a block's [<h3>]: its [title] and [href] attributes. *)
Record anchor := {
  a_title : option pystr;
  a_href : option pystr;
}.

(** One [.product_pod] element of a listing page. *)
Record product_pod := {
  (** [book.h3], then [.a] *)
  pod_h3 : option (option anchor);
  (** [book.select_one(".price_color")], its [.text] *)
  pod_price_color : option pystr;
  (** [book.select_one(".availability")], its [.text] *)
  pod_availability : option pystr;
  (** [book.p], then its [class] attribute, a list of tokens *)
  pod_p : option (option (list pystr));
}.

(** The [article.product_page] element of a detail page. *)
Record product_page := {
  (** [find('meta', attrs={'name': 'description'})], then its [content]
      attribute *)
  pp_meta_description : option (option pystr);
  (** [find('th', string=label)], then the [.text] of
      [find_next_sibling('td')] *)
  pp_th : pystr -> option (option pystr);
}.

(** A parsed document, seen through the two queries the program makes. *)
Record soup := {
  (** [soup.select(".product_pod")] *)
  select_product_pod : list product_pod;
  (** [soup.find('article', class_='product_page')] *)
  find_product_page : option product_page;
}.

(** ** Observable events *)

(** One constructor per [logging] call of the program, with the values
    its message is formatted from: "Starting Selenium scraper...",
    "Scraping page n: url", "Failed to fetch url: e", "Error scraping book
    details from url: e", "No books found on page n", "Error processing
    book on page n: e", "No data to save to CSV", "Data successfully saved
    to path", "Failed to save CSV: e", "Failed to save JSON: e", "Scraping
    failed: e", "Scraping complete. Scraped n books in t seconds." (the
    elapsed time is not kept). *)
Inductive log_entry :=
  | LogStarting
  | LogScrapingPage (page_num : Z) (page_url : pystr)
  | LogFetchFailed (url : pystr) (e : exn)
  | LogDetailsFailed (book_url : pystr) (e : exn)
  | LogNoBooks (page_num : Z)
  | LogBookFailed (page_num : Z) (e : exn)
  | LogNoCsvData
  | LogSaved (filepath : pystr)
  | LogCsvFailed (e : exn)
  | LogJsonFailed (e : exn)
  | LogScrapingFailed (e : exn)
  | LogComplete (count : nat).

Inductive level := INFO | WARNING | ERROR.

Definition level_of (l : log_entry) : level :=
  match l with
  | LogStarting | LogScrapingPage _ _ | LogSaved _ | LogComplete _ => INFO
  | LogNoBooks _ | LogNoCsvData => WARNING
  | LogFetchFailed _ _ | LogDetailsFailed _ _ | LogBookFailed _ _
  | LogCsvFailed _ | LogJsonFailed _ | LogScrapingFailed _ => ERROR
  end.

(** What a run does to the outside, in order: log lines, the politeness
    delay, calls on the browser driver, files opened for writing, and the
    two writers being entered with the result set of that moment. *)
Inductive event :=
  | Log (entry : log_entry)
  | Sleep
  | DriverGet (url : pystr)
  | DriverWait (class_name : pystr)
  | DriverPageSource
  | DriverQuit
  | OpenW (filepath : pystr)
  | EnterSaveToCsv (books : list record)
  | EnterSaveToJson (books : list record).

(** The records among the events, in order: what the file handler of
    [logging.basicConfig] appends to [selenium_book_scraper.log] (and the
    stream handler prints), the time stamp and the layout left out. *)
Definition logged (t : list event) : list log_entry :=
  flat_map (fun ev => match ev with
                      | Log entry => [entry]
                      | _ => []
                      end) t.

(** ** Constants of [__init__] *)

Definition base_url : pystr := str "https://books.toscrape.com/".
Definition catalogue_url : pystr := str "https://books.toscrape.com/catalogue/".
Definition output_dir : pystr := str "scraped_data".

(** [os.path.join(a, b)] for a relative [b], POSIX separator. *)
Definition path_join (a b : pystr) : pystr := a ++ str "/" ++ b.

(** ** The JSON encoder

    [json.dump(obj, fp, indent=4, ensure_ascii=False)] writes the chunks of
    [JSONEncoder.iterencode] one by one.  With an indent the pure-Python
    encoder runs: [_iterencode_list] for the result set, [_iterencode_dict]
    for each record. *)
Module Json.

Definition quote : N := 34%N.
Definition backslash : N := 92%N.
Definition newline : N := 10%N.
Definition space : N := 32%N.

Definition hex_digit (d : N) : N :=
  if (d <? 10)%N then (48 + d)%N else (87 + d)%N.

(** [ESCAPE_DCT]: the replacement of a character matched by [ESCAPE]. *)
Definition escape_char (c : N) : pystr :=
  if (c =? backslash)%N then [backslash; backslash]
  else if (c =? quote)%N then [backslash; quote]
  else if (c =? 8)%N then str "\b"
  else if (c =? 12)%N then str "\f"
  else if (c =? 10)%N then str "\n"
  else if (c =? 13)%N then str "\r"
  else if (c =? 9)%N then str "\t"
  else str "\u00" ++ [hex_digit (c / 16); hex_digit (c mod 16)].

(** The characters matched by [ESCAPE]: the control characters below
    U+0020, the backslash and the double quote. *)
Definition needs_escape (c : N) : bool :=
  ((c <? 32) || (c =? backslash) || (c =? quote))%N.

(** [py_encode_basestring], the encoder of strings when [ensure_ascii]
    is false. *)
Definition encode_basestring (s : pystr) : pystr :=
  [quote] ++ flat_map (fun c => if needs_escape c then escape_char c else [c]) s
          ++ [quote].

Section Encoder.

(** [float.__repr__] *)
Variable float_repr : pyfloat -> pystr.

(** [floatstr] with [allow_nan=True] *)
Definition floatstr (o : pyfloat) : pystr :=
  match o with
  | FNan => str "NaN"
  | FInf false => str "Infinity"
  | FInf true => str "-Infinity"
  | FDec _ _ _ => float_repr o
  end.

Definition encode_value (v : pyvalue) : pystr :=
  match v with
  | VStr s => encode_basestring s
  | VFloat f => floatstr f
  end.

(** [_indent]: four spaces *)
Definition indent : pystr := repeat space 4.
Definition item_separator : pystr := str ",".
Definition key_separator : pystr := str ": ".

(** ['\n' + _indent * level] *)
Definition newline_indent (level : nat) : pystr :=
  newline :: concat (repeat indent level).

(** The loop of [_iterencode_dict] over the items. *)
Fixpoint iterencode_items (first : bool) (sep : pystr)
    (items : list (pystr * pyvalue)) : list pystr :=
  match items with
  | [] => []
  | (key, value) :: rest =>
      (if first then [] else [sep])
      ++ [encode_basestring key; key_separator; encode_value value]
      ++ iterencode_items false sep rest
  end.

(** [_iterencode_dict(dct, _current_indent_level)] *)
Definition iterencode_dict (dct : record) (level : nat) : list pystr :=
  match dct with
  | [] => [str "{}"]
  | _ =>
      let level := S level in
      [str "{"; newline_indent level]
      ++ iterencode_items true (item_separator ++ newline_indent level) dct
      ++ [newline_indent (pred level); str "}"]
  end.

(** The loop of [_iterencode_list] over the values, all of them dicts. *)
Fixpoint iterencode_values (buf : pystr) (sep : pystr) (level : nat)
    (lst : list record) : list pystr :=
  match lst with
  | [] => []
  | value :: rest =>
      buf :: iterencode_dict value level
      ++ iterencode_values sep sep level rest
  end.

(** [_iterencode_list(lst, _current_indent_level)] *)
Definition iterencode_list (lst : list record) (level : nat) : list pystr :=
  match lst with
  | [] => [str "[]"]
  | _ =>
      let level := S level in
      iterencode_values (str "[" ++ newline_indent level)
                        (item_separator ++ newline_indent level) level lst
      ++ [newline_indent (pred level); str "]"]
  end.

(** [iterencode(obj)] for the result set *)
Definition iterencode (books : list record) : list pystr :=
  iterencode_list books 0.

(** The three chunks of one item of a dict, put end to end. *)
Definition member (kv : pystr * pyvalue) : pystr :=
  encode_basestring kv.1 ++ key_separator ++ encode_value kv.2.

End Encoder.

(** *** The document in the words of the specification

    What the encoder is compared with: the JSON text of the result set as
    the grammar of JSON has it, written without looking at the encoder. *)

(** The characters with a two-character escape, each with the letter that
    follows the backslash: the double quote, the backslash, backspace, form
    feed, line feed, carriage return, tab. *)
Definition two_char_escapes : list (N * N) :=
  [(34, 34); (92, 92); (8, 98); (12, 102); (10, 110); (13, 114); (9, 116)]%N.

(** One character of a string literal: the double quote, the backslash and
    the control characters below U+0020 escaped, every other character,
    the non-ASCII ones among them, as it is. *)
Definition spec_char (c : N) : pystr :=
  match List.find (fun p => (p.1 =? c)%N) two_char_escapes with
  | Some p => [backslash; p.2]
  | None =>
      if (c <? 32)%N
      then [backslash; 117; 48; 48; hex_digit (c / 16); hex_digit (c mod 16)]%N
      else [c]
  end.

(** The string literal of a text. *)
Definition spec_string (s : pystr) : pystr :=
  [quote] ++ flat_map spec_char s ++ [quote].

(** The value of a hexadecimal digit. *)
Definition hex_val (c : N) : option N :=
  if ((48 <=? c) && (c <=? 57))%N then Some (c - 48)%N
  else if ((97 <=? c) && (c <=? 102))%N then Some (c - 87)%N
  else if ((65 <=? c) && (c <=? 70))%N then Some (c - 55)%N
  else None.

(** The character a two-character escape stands for, from the letter after
    the backslash; the solidus may be escaped too. *)
Definition unescape (e : N) : option N :=
  if (e =? 47)%N then Some 47%N
  else match List.find (fun p => (p.2 =? e)%N) two_char_escapes with
       | Some p => Some p.1
       | None => None
       end.

(** The text a reader of JSON gets from what follows the opening quote of
    a string literal, which must end with the closing quote; [None] when
    the literal is malformed. *)
Fixpoint decode_chars (s : pystr) : option pystr :=
  match s with
  | [] => None
  | c :: r =>
      if (c =? quote)%N then
        match r with
        | [] => Some []
        | _ => None
        end
      else if (c =? backslash)%N then
        match r with
        | e :: r1 =>
            if (e =? 117)%N then
              match r1 with
              | h1 :: h2 :: h3 :: h4 :: r2 =>
                  match hex_val h1, hex_val h2, hex_val h3, hex_val h4 with
                  | Some d1, Some d2, Some d3, Some d4 =>
                      option_map (cons (((d1 * 16 + d2) * 16 + d3) * 16 + d4)%N)
                                 (decode_chars r2)
                  | _, _, _, _ => None
                  end
              | _ => None
              end
            else
              match unescape e with
              | Some c' => option_map (cons c') (decode_chars r1)
              | None => None
              end
        | [] => None
        end
      else if (c <? 32)%N then None
      else option_map (cons c) (decode_chars r)
  end.

(** The text a string literal stands for. *)
Definition decode_string (s : pystr) : option pystr :=
  match s with
  | c :: r => if (c =? quote)%N then decode_chars r else None
  | [] => None
  end.

Section Document.

(** [float.__repr__] *)
Variable float_repr : pyfloat -> pystr.

(** A number as Python prints it; the three values that are no number of
    JSON under the names JavaScript has for them. *)
Definition spec_number (f : pyfloat) : pystr :=
  match f with
  | FDec _ _ _ => float_repr f
  | FInf neg => (if neg then str "-" else []) ++ str "Infinity"
  | FNan => str "NaN"
  end.

Definition spec_value (v : pyvalue) : pystr :=
  match v with
  | VStr s => spec_string s
  | VFloat f => spec_number f
  end.

(** An array of objects, one object per record and one member per field,
    in order; every nesting level indented by four more spaces; an array
    or object without elements written closed on the spot. *)
Definition spec_member (kv : pystr * pyvalue) : pystr :=
  repeat space 8 ++ spec_string kv.1 ++ str ": " ++ spec_value kv.2.

Definition spec_object (r : record) : pystr :=
  repeat space 4 ++
  match r with
  | [] => str "{}"
  | _ =>
      str "{" ++ [newline]
      ++ join (str "," ++ [newline]) (map spec_member r)
      ++ [newline] ++ repeat space 4 ++ str "}"
  end.

Definition spec_document (books : list record) : pystr :=
  match books with
  | [] => str "[]"
  | _ =>
      str "[" ++ [newline]
      ++ join (str "," ++ [newline]) (map spec_object books)
      ++ [newline] ++ str "]"
  end.

End Document.

End Json.

(** ** Execution: state, exceptions, [try] *)

(** A statement run from a state either returns a value or raises, and
    leaves a state behind in both cases. *)
Definition M (S A : Type) : Type := S -> res A * S.

Definition ret {S A} (a : A) : M S A := fun s => (Ok a, s).

Definition bind {S A B} (m : M S A) (k : A -> M S B) : M S B :=
  fun s =>
    match m s with
    | (Ok a, s1) => k a s1
    | (Raise e, s1) => (Raise e, s1)
    end.

(** An expression that only computes: its outcome, the state untouched. *)
Definition of_res {S A} (r : res A) : M S A := fun s => (r, s).

(** [try: body / except Exception as e: handler(e)] *)
Definition try_except {S A} (body : M S A) (handler : exn -> M S A) : M S A :=
  fun s =>
    match body s with
    | (Ok a, s1) => (Ok a, s1)
    | (Raise e, s1) => handler e s1
    end.

(** [try: body / finally: final] *)
Definition try_finally {S A} (body : M S A) (final : M S unit) : M S A :=
  fun s =>
    let '(r, s1) := body s in
    match final s1 with
    | (Ok _, s2) => (r, s2)
    | (Raise e, s2) => (Raise e, s2)
    end.

(** [for x in l: body(x)] *)
Fixpoint for_each {S A} (l : list A) (body : A -> M S unit) : M S unit :=
  match l with
  | [] => ret tt
  | x :: r => bind (body x) (fun _ => for_each r body)
  end.

Declare Scope py_scope.
Delimit Scope py_scope with py.
Notation "x <- m ;; k" := (bind m (fun x => k))
  (at level 100, m at next level, right associativity) : py_scope.
Notation "m ;; k" := (bind m (fun _ => k))
  (at level 100, right associativity) : py_scope.

(** ** The external collaborators

    Everything the program calls and does not define.  [W] is the state of
    the outside: the browser, the site behind it, the operating system.
    Each call may raise; a call on the outside also moves [W]. *)
Class Env := {
  W : Type;
  (** [driver.get(url)] *)
  driver_get : pystr -> W -> res unit * W;
  (** [WebDriverWait(driver, 10).until(
        EC.presence_of_element_located((By.CLASS_NAME, class_name)))] *)
  driver_wait : pystr -> W -> res unit * W;
  (** [driver.page_source] *)
  driver_page_source : W -> res pystr * W;
  (** [driver.quit()] *)
  driver_quit : W -> res unit * W;
  (** [open(filepath, "w", ...)]: whether the file can be opened *)
  open_w : pystr -> W -> res unit * W;
  (** [BeautifulSoup(markup, 'lxml')] *)
  BeautifulSoup : pystr -> res soup;
  (** [urllib.parse.urljoin(base, url)] *)
  urljoin : pystr -> pystr -> res pystr;
  (** [float.__repr__] *)
  float_repr : pyfloat -> pystr;
  (** the text [csv.writer(file).writerow(row)] writes for a row, with the
      quoting and the line terminator of the default dialect *)
  csv_writerow : list pyvalue -> pystr;
  (** [Py_UNICODE_TODECIMAL], the table of decimal digits of the Unicode
      version the interpreter carries *)
  unicode_decimal : N -> option N;
}.

Section Scraper.

Context `{Env}.
Open Scope py_scope.

(** The scraper object and what surrounds it: [self.all_books], the
    files the program opens itself, by path, with the text written to
    them, the outside [W], the events so far, and the records in the log
    file [selenium_book_scraper.log], which the [logging] module keeps
    open. *)
Record state := {
  world : W;
  all_books : list record;
  files : gmap pystr pystr;
  trace : list event;
  log_file : list log_entry;
}.

Local Abbreviation Py := (M state).

(** An event that is no log record. *)
Definition emit (ev : event) : Py unit :=
  fun s => (Ok tt, {| world := world s; all_books := all_books s;
                      files := files s; trace := trace s ++ [ev];
                      log_file := log_file s |}).

(** A [logging.info], [logging.warning] or [logging.error] call: the
    record goes to the console and is appended to the log file. *)
Definition log (entry : log_entry) : Py unit :=
  fun s => (Ok tt, {| world := world s; all_books := all_books s;
                      files := files s; trace := trace s ++ [Log entry];
                      log_file := log_file s ++ [entry] |}).

(** A call on the outside, recorded as [ev] whatever its outcome. *)
Definition call {A} (ev : event) (op : W -> res A * W) : Py A :=
  fun s =>
    let '(r, w') := op (world s) in
    (r, {| world := w'; all_books := all_books s;
           files := files s; trace := trace s ++ [ev];
           log_file := log_file s |}).

(** [time.sleep(random.uniform(0.5, 2.0))] *)
Definition sleep : Py unit := emit Sleep.

(** [pass] *)
Definition pass : Py unit := ret tt.

(** [self.all_books] *)
Definition get_all_books : Py (list record) := fun s => (Ok (all_books s), s).

(** [self.all_books.append(book_data)] *)
Definition append_book (book_data : record) : Py unit :=
  fun s => (Ok tt, {| world := world s; all_books := all_books s ++ [book_data];
                      files := files s; trace := trace s;
                      log_file := log_file s |}).

(** [open(filepath, "w")] entered by a [with]: when the call succeeds the
    file exists and is empty. *)
Definition open_for_writing (filepath : pystr) : Py unit :=
  call (OpenW filepath) (open_w filepath) ;;
  fun s => (Ok tt, {| world := world s; all_books := all_books s;
                      files := <[filepath := []]> (files s); trace := trace s;
                      log_file := log_file s |}).

(** [file.write(text)] on the file opened at [filepath].  The file holds
    the text written to it; the encoding to UTF-8 lies below this model,
    and a write to an open file is taken to succeed. *)
Definition write (filepath : pystr) (text : pystr) : Py unit :=
  fun s => (Ok tt, {| world := world s; all_books := all_books s;
                      files := <[filepath := default [] (files s !! filepath) ++ text]> (files s);
                      trace := trace s; log_file := log_file s |}).

(** *** [get_page] *)
Definition get_page (url : pystr) : Py (option pystr) :=
  try_finally
    (try_except
       (sleep ;;
        call (DriverGet url) (driver_get url) ;;
        call (DriverWait (str "product_pod")) (driver_wait (str "product_pod")) ;;
        page_source <- call DriverPageSource driver_page_source ;;
        ret (Some page_source))
       (fun e =>
          log (LogFetchFailed url e) ;;
          ret None))
    pass.

Definition none_has_no_attribute (name : string) : exn :=
  AttributeError (str "'NoneType' object has no attribute '" ++ str name ++ str "'").

Definition none_not_subscriptable : exn :=
  TypeError (str "'NoneType' object is not subscriptable").

(** [product_page.find('th', string=label).find_next_sibling('td').text] *)
Definition th_value (product_page : product_page) (label : string) : res pystr :=
  match pp_th product_page (str label) with
  | None => Raise (none_has_no_attribute "find_next_sibling")
  | Some None => Raise (none_has_no_attribute "text")
  | Some (Some text) => Ok text
  end.

(** [product_page.find('meta', attrs={'name': 'description'})['content'].strip()] *)
Definition description_of (product_page : product_page) : res pystr :=
  match pp_meta_description product_page with
  | None => Raise none_not_subscriptable
  | Some None => Raise (KeyError (str "content"))
  | Some (Some content) => Ok (strip content)
  end.

(** *** [scrape_book_details] *)
Definition scrape_book_details (book_url : pystr) : Py (option record) :=
  try_finally
    (try_except
       (call (DriverGet book_url) (driver_get book_url) ;;
        call (DriverWait (str "product_page")) (driver_wait (str "product_page")) ;;
        page_source <- call DriverPageSource driver_page_source ;;
        soup <- of_res (BeautifulSoup page_source) ;;
        match find_product_page soup with
        | None => ret None
        | Some product_page =>
            description <- of_res (description_of product_page) ;;
            upc <- of_res (th_value product_page "UPC") ;;
            product_type <- of_res (th_value product_page "Product Type") ;;
            tax <- of_res (th_value product_page "Tax") ;;
            reviews <- of_res (th_value product_page "Number of reviews") ;;
            ret (Some [(str "description", VStr description);
                       (str "upc", VStr upc);
                       (str "product_type", VStr product_type);
                       (str "tax", VStr tax);
                       (str "reviews", VStr reviews)])
        end)
       (fun e =>
          log (LogDetailsFailed book_url e) ;;
          ret None))
    pass.

(** [book.h3.a[attr]] *)
Definition h3_a_attr (book : product_pod) (attr : string)
    (get : anchor -> option pystr) : res pystr :=
  match pod_h3 book with
  | None => Raise (none_has_no_attribute "a")
  | Some None => Raise none_not_subscriptable
  | Some (Some a) =>
      match get a with
      | None => Raise (KeyError (str attr))
      | Some v => Ok v
      end
  end.

(** [element.text] of the result of a [select_one] *)
Definition text_of (element : option pystr) : res pystr :=
  match element with
  | None => Raise (none_has_no_attribute "text")
  | Some text => Ok text
  end.

(** [float(raw_price.replace(pound, '').replace(a_circumflex, '').strip())] *)
Definition parse_price (raw_price : pystr) : res pyfloat :=
  PyFloat.of_str unicode_decimal
    (strip (replace1 a_circumflex [] (replace1 pound [] raw_price))).

(** [book.p["class"][1]] *)
Definition rating_of (book : product_pod) : res pystr :=
  match pod_p book with
  | None => Raise none_not_subscriptable
  | Some None => Raise (KeyError (str "class"))
  | Some (Some tokens) =>
      match tokens !! 1%nat with
      | None => Raise (IndexError (str "list index out of range"))
      | Some token => Ok token
      end
  end.

(** The statements of the loop body up to the detail request: the five
    summary fields of a block, in the order the source reads them. *)
Definition summary_of (book : product_pod) : res record :=
  match h3_a_attr book "title" a_title with
  | Raise e => Raise e
  | Ok title =>
  match text_of (pod_price_color book) with
  | Raise e => Raise e
  | Ok price_text =>
  match parse_price (strip price_text) with
  | Raise e => Raise e
  | Ok price =>
  match text_of (pod_availability book) with
  | Raise e => Raise e
  | Ok availability_text =>
  match rating_of book with
  | Raise e => Raise e
  | Ok rating =>
  match h3_a_attr book "href" a_href with
  | Raise e => Raise e
  | Ok relative_link =>
  match urljoin catalogue_url relative_link with
  | Raise e => Raise e
  | Ok link =>
      Ok [(str "title", VStr title);
          (str "price", VFloat price);
          (str "availability", VStr (strip availability_text));
          (str "rating", VStr rating);
          (str "url", VStr link)]
  end end end end end end end.

(** The [url] entry of a summary record. *)
Definition link_of (book_data : record) : pystr :=
  match Dict.get (str "url") (VStr []) book_data with
  | VStr link => link
  | VFloat _ => []
  end.

(** [if book_details: book_data.update(book_details)]: [None] and the
    empty dict are false. *)
Definition merge_details (book_data : record) (book_details : option record)
    : record :=
  match book_details with
  | Some ((_ :: _) as details) => Dict.update book_data details
  | _ => book_data
  end.

(** The body of the [for book in books] loop, [try] and [except]
    included. *)
Definition scrape_book (page_num : Z) (book : product_pod) : Py unit :=
  try_except
    (book_data <- of_res (summary_of book) ;;
     book_details <- scrape_book_details (link_of book_data) ;;
     append_book (merge_details book_data book_details))
    (fun e => log (LogBookFailed page_num e)).

Definition page_url_of (page_num : Z) : pystr :=
  catalogue_url ++ str "page-" ++ str_of_int page_num ++ str ".html".

(** *** [scrape_page] *)
Definition scrape_page (page_num : Z) : Py bool :=
  let page_url := page_url_of page_num in
  log (LogScrapingPage page_num page_url) ;;
  page_source <- get_page page_url ;;
  match page_source with
  | None | Some [] => ret false
  | Some markup =>
      soup <- of_res (BeautifulSoup markup) ;;
      let books := select_product_pod soup in
      match books with
      | [] =>
          log (LogNoBooks page_num) ;;
          ret false
      | _ =>
          for_each books (scrape_book page_num) ;;
          ret true
      end
  end.

(** [for page_num in range(page_num, page_num + count)] with its
    [break]. *)
Fixpoint scrape_pages (count : nat) (page_num : Z) : Py unit :=
  match count with
  | O => ret tt
  | S count' =>
      ok <- scrape_page page_num ;;
      if ok : bool then scrape_pages count' (page_num + 1) else ret tt
  end.

(** *** [scrape_multiple_pages]: [range(start_page, end_page + 1)] has
    [end_page + 1 - start_page] elements, none when that is negative. *)
Definition scrape_multiple_pages (start_page end_page : Z) : Py unit :=
  scrape_pages (Z.to_nat (end_page + 1 - start_page)) start_page.

(** [DictWriter._dict_to_list] with the defaults [extrasaction="raise"]
    and [restval=""]. *)
Definition dict_to_list (fieldnames : list pystr) (rowdict : record)
    : res (list pyvalue) :=
  match filter (fun k => k ∉ fieldnames) (Dict.keys rowdict) with
  | [] => Ok (map (fun key => Dict.get key (VStr []) rowdict) fieldnames)
  | wrong_fields =>
      Raise (ValueError (str "dict contains fields not in fieldnames: "
                         ++ join (str ", ") (map quoted wrong_fields)))
  end.

(** [DictWriter.writerows]: the rows are converted and written one at a
    time, so the rows before a rejected one are already written. *)
Fixpoint writerows (filepath : pystr) (fieldnames : list pystr)
    (rowdicts : list record) : Py unit :=
  match rowdicts with
  | [] => ret tt
  | rowdict :: rest =>
      row <- of_res (dict_to_list fieldnames rowdict) ;;
      write filepath (csv_writerow row) ;;
      writerows filepath fieldnames rest
  end.

Definition csv_path : pystr := path_join output_dir (str "books_data.csv").
Definition json_path : pystr := path_join output_dir (str "books_data.json").

(** *** [save_to_csv] *)
Definition save_to_csv : Py unit :=
  let filepath := csv_path in
  (fun s => emit (EnterSaveToCsv (all_books s)) s) ;;
  try_except
    (open_for_writing filepath ;;
     books <- get_all_books ;;
     match books with
     | [] => log LogNoCsvData
     | first :: _ =>
         let fieldnames := Dict.keys first in
         write filepath (csv_writerow (map VStr fieldnames)) ;;
         writerows filepath fieldnames books ;;
         log (LogSaved filepath)
     end)
    (fun e => log (LogCsvFailed e)).

(** [for chunk in iterable: fp.write(chunk)] *)
Definition write_chunks (filepath : pystr) (chunks : list pystr) : Py unit :=
  for_each chunks (write filepath).

(** *** [save_to_json] *)
Definition save_to_json : Py unit :=
  let filepath := json_path in
  (fun s => emit (EnterSaveToJson (all_books s)) s) ;;
  try_except
    (open_for_writing filepath ;;
     books <- get_all_books ;;
     write_chunks filepath (Json.iterencode float_repr books) ;;
     log (LogSaved filepath))
    (fun e => log (LogJsonFailed e)).

(** *** [run]; the elapsed time of the last log line is left out. *)
Definition run (start_page end_page : Z) : Py unit :=
  log LogStarting ;;
  try_finally
    (try_except
       (scrape_multiple_pages start_page end_page ;;
        save_to_csv ;;
        save_to_json)
       (fun e => log (LogScrapingFailed e)))
    (call DriverQuit driver_quit) ;;
  books <- get_all_books ;;
  log (LogComplete (length books)).

End Scraper.

(** ** Vocabulary of the statements *)

Section Vocabulary.

Context `{Env}.

(** [s] after the outside moved to [w] and the events [t] happened;
    [self.all_books] and the output files are those of [s], and the log
    file has the records among [t] appended. *)
Definition extend (s : state) (w : W) (t : list event) : state :=
  {| world := w; all_books := all_books s; files := files s;
     trace := trace s ++ t; log_file := log_file s ++ logged t |}.

(** A block whose five summary fields can all be read. *)
Definition summary_ok (book : product_pod) : bool :=
  match summary_of book with
  | Ok _ => true
  | Raise _ => false
  end.

(** The price text as the specification has it read: trimmed, every pound
    sign and every A-circumflex taken out, trimmed again. *)
Definition sanitized (price_text : pystr) : pystr :=
  strip (List.filter (fun c => negb ((c =? pound) || (c =? a_circumflex))%N)
                     (strip price_text)).

(** The required fields of a block in the words of the specification: the
    title attribute of the title link, the sanitized price text read as a
    number, the trimmed availability text, the second class token of the
    rating element, the link resolved against the catalogue.  [None] when
    one of them cannot be had: an element, an attribute or the second token
    is not there, the price text is no number, the link does not resolve. *)
Definition required_fields (book : product_pod) : option record :=
  match pod_h3 book, pod_price_color book, pod_availability book, pod_p book with
  | Some (Some a), Some price_text, Some availability, Some (Some tokens) =>
      match a_title a, PyFloat.of_str unicode_decimal (sanitized price_text),
            tokens !! 1%nat, a_href a with
      | Some title, Ok price, Some rating, Some href =>
          match urljoin catalogue_url href with
          | Ok url =>
              Some [(str "title", VStr title);
                    (str "price", VFloat price);
                    (str "availability", VStr (strip availability));
                    (str "rating", VStr rating);
                    (str "url", VStr url)]
          | Raise _ => None
          end
      | _, _, _, _ => None
      end
  | _, _, _, _ => None
  end.

(** A block with an unparseable required field. *)
Definition unparseable (book : product_pod) : bool :=
  match required_fields book with
  | Some _ => false
  | None => true
  end.

(** A record made of the fields [fields], alone or with detail fields
    merged in. *)
Definition record_of (fields book_data : record) : Prop :=
  exists details, book_data = merge_details fields details.

(** The three driver calls that open [get_page] and
    [scrape_book_details], from the outside [w]: the markup, or the
    exception of the first call that raises; the outside afterwards; the
    driver events. *)
Definition navigate (url class_name : pystr) (w : W)
    : res pystr * W * list event :=
  match driver_get url w with
  | (Raise e, w1) => (Raise e, w1, [DriverGet url])
  | (Ok _, w1) =>
      match driver_wait class_name w1 with
      | (Raise e, w2) => (Raise e, w2, [DriverGet url; DriverWait class_name])
      | (Ok _, w2) =>
          match driver_page_source w2 with
          | (r, w3) => (r, w3, [DriverGet url; DriverWait class_name; DriverPageSource])
          end
      end
  end.

(** The part of [scrape_book_details] after the page source is read. *)
Definition extract_details (markup : pystr) : res (option record) :=
  match BeautifulSoup markup with
  | Raise e => Raise e
  | Ok soup =>
  match find_product_page soup with
  | None => Ok None
  | Some product_page =>
  match description_of product_page with
  | Raise e => Raise e
  | Ok description =>
  match th_value product_page "UPC" with
  | Raise e => Raise e
  | Ok upc =>
  match th_value product_page "Product Type" with
  | Raise e => Raise e
  | Ok product_type =>
  match th_value product_page "Tax" with
  | Raise e => Raise e
  | Ok tax =>
  match th_value product_page "Number of reviews" with
  | Raise e => Raise e
  | Ok reviews =>
      Ok (Some [(str "description", VStr description);
                (str "upc", VStr upc);
                (str "product_type", VStr product_type);
                (str "tax", VStr tax);
                (str "reviews", VStr reviews)])
  end end end end end end end.

(** The events the processing of one block can add. *)
Definition item_event (ev : event) : bool :=
  match ev with
  | DriverGet _ | DriverWait _ | DriverPageSource
  | Log (LogDetailsFailed _ _) | Log (LogBookFailed _ _) => true
  | _ => false
  end.

(** The events [scrape_page] can add for page [page_num]. *)
Definition page_event (page_num : Z) (ev : event) : Prop :=
  item_event ev = true
  \/ ev = Sleep
  \/ ev = Log (LogScrapingPage page_num (page_url_of page_num))
  \/ (exists e, ev = Log (LogFetchFailed (page_url_of page_num) e))
  \/ ev = Log (LogNoBooks page_num).

(** The two log lines that tell a page stopped the range: its fetch
    failed, or it had no blocks. *)
Definition stop_event (ev : event) : bool :=
  match ev with
  | Log (LogFetchFailed _ _) | Log (LogNoBooks _) => true
  | _ => false
  end.


(** Page [page_num] is attempted in the events [t]. *)
Definition attempted (page_num : Z) (t : list event) : Prop :=
  In (Log (LogScrapingPage page_num (page_url_of page_num))) t.

(** The events between two states of one execution. *)
Definition new_events (s s' : state) : list event :=
  drop (length (trace s)) (trace s').

(** [book_data] is what the loop body appends for [book]: its summary
    fields, with the detail fields merged in when there are any. *)
Definition produced (book : product_pod) (book_data : record) : Prop :=
  exists summary details,
    summary_of book = Ok summary /\ book_data = merge_details summary details.

(** [s] with [books] appended to [self.all_books]. *)
Definition with_books (s : state) (books : list record) : state :=
  {| world := world s; all_books := all_books s ++ books; files := files s;
     trace := trace s; log_file := log_file s |}.

(** [s] with the text of the file at [filepath] set to [text]. *)
Definition with_file (s : state) (filepath text : pystr) : state :=
  {| world := world s; all_books := all_books s;
     files := <[filepath := text]> (files s); trace := trace s;
     log_file := log_file s |}.

(** What [DictWriter.writerows] writes for [rowdicts], and the exception
    that stops it, if any. *)
Fixpoint csv_rows (fieldnames : list pystr) (rowdicts : list record)
    : pystr * option exn :=
  match rowdicts with
  | [] => ([], None)
  | rowdict :: rest =>
      match dict_to_list fieldnames rowdict with
      | Raise e => ([], Some e)
      | Ok row =>
          let '(text, stopped) := csv_rows fieldnames rest in
          (csv_writerow row ++ text, stopped)
      end
  end.

(** What the body of the [with] of [save_to_csv] writes for a result set,
    and the exception that stops it, if any. *)
Definition csv_document (books : list record) : pystr * option exn :=
  match books with
  | [] => ([], None)
  | first :: _ =>
      let fieldnames := Dict.keys first in
      let '(text, stopped) := csv_rows fieldnames books in
      (csv_writerow (map VStr fieldnames) ++ text, stopped)
  end.

(** The log line that ends [save_to_csv] once the file is open. *)
Definition csv_log (books : list record) (stopped : option exn) : log_entry :=
  match books, stopped with
  | [], _ => LogNoCsvData
  | _, None => LogSaved csv_path
  | _, Some e => LogCsvFailed e
  end.

(** The events of the two writers. *)
Definition writer_event (ev : event) : bool :=
  match ev with
  | OpenW _ | EnterSaveToCsv _ | EnterSaveToJson _
  | Log LogNoCsvData | Log (LogSaved _) | Log (LogCsvFailed _)
  | Log (LogJsonFailed _) => true
  | _ => false
  end.

(** The scraper right after [__init__], in front of the outside [w]. *)
Definition fresh (w : W) : state :=
  {| world := w; all_books := []; files := ∅; trace := []; log_file := [] |}.

(** The five keys of a summary record, in order. *)
Definition summary_keys : list pystr :=
  [str "title"; str "price"; str "availability"; str "rating"; str "url"].

(** The four labels [scrape_book_details] looks up. *)
Definition detail_labels : list string :=
  ["UPC"; "Product Type"; "Tax"; "Number of reviews"]%string.

(** An event of the scraping loop, for some page. *)
Definition scraping_event (ev : event) : Prop := exists m, page_event m ev.

(** Every key of [rowdict] is a column of the header. *)
Definition fits (fieldnames : list pystr) (rowdict : record) : bool :=
  forallb (fun key => bool_decide (key ∈ fieldnames)) (Dict.keys rowdict).

(** The cells of [rowdict] under the header, empty where it has no such
    key. *)
Definition row_of (fieldnames : list pystr) (rowdict : record) : list pyvalue :=
  map (fun key => Dict.get key (VStr []) rowdict) fieldnames.

(** The records up to the first one that does not fit the header. *)
Fixpoint fitting_prefix (fieldnames : list pystr) (rowdicts : list record)
    : list record :=
  match rowdicts with
  | [] => []
  | rowdict :: rest =>
      if fits fieldnames rowdict then rowdict :: fitting_prefix fieldnames rest
      else []
  end.

(** The tabular output in the words of the specification, to compare the
    writer with: the keys of the first record as header, then one row per
    record, the fields of a record that are not in the header dropped. *)
Definition csv_dropping_extras (books : list record) : pystr :=
  match books with
  | [] => []
  | first :: _ =>
      let fieldnames := Dict.keys first in
      csv_writerow (map VStr fieldnames)
      ++ concat (map (fun r => csv_writerow (row_of fieldnames r)) books)
  end.

End Vocabulary.

(** ** A small site to run the program on

    Seven listing pages and four detail pages, a browser that shows them,
    and simple stand-ins for the remaining collaborators.  Page 1 has a
    good block and a block with a malformed price; the fetch of page 2
    fails; page 4 has one block, with a malformed price; page 5 has a
    block whose detail page has no container, then a good block; page 6
    has a block with a negative price; page 7 has no block; page 8 has the
    two blocks of page 5, then another block whose detail page has no
    container. *)
Module Sample.

Definition detail_a : pystr := catalogue_url ++ str "a-light-in-the-attic_1000/index.html".
Definition detail_c : pystr := catalogue_url ++ str "soumission_998/index.html".
Definition detail_d : pystr := catalogue_url ++ str "sharp-objects_997/index.html".
Definition detail_e : pystr := catalogue_url ++ str "sapiens_996/index.html".

Definition pod (title href : string) (price : pystr) : product_pod :=
  {| pod_h3 := Some (Some {| a_title := Some (str title); a_href := Some (str href) |});
     pod_price_color := Some price;
     pod_availability := Some ([10; 32; 32]%N ++ str "In stock" ++ [10]%N);
     pod_p := Some (Some [str "star-rating"; str "Three"]) |}.

Definition pod_a : product_pod :=
  pod "A Light in the Attic" "a-light-in-the-attic_1000/index.html"
      (pound :: str "51.77").
Definition pod_b : product_pod :=
  pod "Tipping the Velvet" "tipping-the-velvet_999/index.html"
      (pound :: str "n/a").
Definition pod_c : product_pod :=
  pod "Soumission" "soumission_998/index.html"
      (a_circumflex :: pound :: str "50.10").
Definition pod_d : product_pod :=
  pod "Sharp Objects" "sharp-objects_997/index.html"
      (pound :: str "-1.00").

Definition pod_e : product_pod :=
  pod "Sapiens" "sapiens_996/index.html"
      (pound :: str "54.23").

Definition page_a : product_page :=
  {| pp_meta_description := Some (Some (str " A book of poems. "));
     pp_th := fun label =>
       if decide (label = str "UPC") then Some (Some (str "a897fe39b1053632"))
       else if decide (label = str "Product Type") then Some (Some (str "Books"))
       else if decide (label = str "Tax") then Some (Some (pound :: str "0.00"))
       else if decide (label = str "Number of reviews") then Some (Some (str "0"))
       else None |}.

(** The markup the site serves at a URL; [driver.get] raises for the
    others. *)
Definition site (url : pystr) : res pystr :=
  if decide (url = page_url_of 1) then Ok (str "<listing 1>")
  else if decide (url = page_url_of 4) then Ok (str "<listing 4>")
  else if decide (url = page_url_of 5) then Ok (str "<listing 5>")
  else if decide (url = page_url_of 6) then Ok (str "<listing 6>")
  else if decide (url = page_url_of 7) then Ok (str "<listing 7>")
  else if decide (url = page_url_of 8) then Ok (str "<listing 8>")
  else if decide (url = detail_a) then Ok (str "<detail a>")
  else if decide (url = detail_c) then Ok (str "<detail c>")
  else if decide (url = detail_d) then Ok (str "<detail a>")
  else if decide (url = detail_e) then Ok (str "<detail e>")
  else Raise (OtherError (str "net::ERR_CONNECTION_RESET")).

Definition parse (markup : pystr) : res soup :=
  if decide (markup = str "<listing 1>") then
    Ok {| select_product_pod := [pod_a; pod_b]; find_product_page := None |}
  else if decide (markup = str "<listing 4>") then
    Ok {| select_product_pod := [pod_b]; find_product_page := None |}
  else if decide (markup = str "<listing 5>") then
    Ok {| select_product_pod := [pod_c; pod_a]; find_product_page := None |}
  else if decide (markup = str "<listing 6>") then
    Ok {| select_product_pod := [pod_d]; find_product_page := None |}
  else if decide (markup = str "<listing 8>") then
    Ok {| select_product_pod := [pod_c; pod_a; pod_e]; find_product_page := None |}
  else if decide (markup = str "<detail a>") then
    Ok {| select_product_pod := []; find_product_page := Some page_a |}
  else Ok {| select_product_pod := []; find_product_page := None |}.

Definition digits_of (n : N) : pystr := str (NilEmpty.string_of_uint (N.to_uint n)).

(** A printer for the decimals of this site: the digits with the point
    put back. *)
Definition repr (f : pyfloat) : pystr :=
  match f with
  | FDec neg mant exp =>
      let ds := digits_of mant in
      let k := Z.to_nat (- exp) in
      let ds := repeat 48%N (S k - length ds) ++ ds in
      (if neg then str "-" else [])
      ++ take (length ds - k) ds
      ++ (if 0 <=? exp then repeat 48%N (Z.to_nat exp) ++ str ".0"
          else str "." ++ drop (length ds - k) ds)
  | FInf false => str "inf"
  | FInf true => str "-inf"
  | FNan => str "nan"
  end.

(** One csv field: quoted when it holds a comma, a quote or a line
    break, its quotes doubled. *)
Definition field (v : pyvalue) : pystr :=
  match v with
  | VFloat f => repr f
  | VStr s =>
      if existsb (fun c => (c =? 44) || (c =? 34) || (c =? 13) || (c =? 10))%N s
      then [34%N] ++ replace1 34%N [34; 34]%N s ++ [34%N]
      else s
  end.

Definition writerow (row : list pyvalue) : pystr :=
  join (str ",") (map field row) ++ [13; 10]%N.

(** The zero of every run of ten decimal digits in Unicode 14.0. *)
Definition digit_zeros : list N :=
  [48; 1632; 1776; 1984; 2406; 2534; 2662; 2790; 2918; 3046; 3174; 3302;
   3430; 3558; 3664; 3792; 3872; 4160; 4240; 6112; 6160; 6470; 6608;
   6784; 6800; 6992; 7088; 7232; 7248; 42528; 43216; 43264; 43472;
   43504; 43600; 44016; 65296; 66720; 68912; 69734; 69872; 69942; 70096;
   70384; 70736; 70864; 71248; 71360; 71472; 71904; 72016; 72784; 73040;
   73120; 92768; 92864; 93008; 120782; 120792; 120802; 120812; 120822;
   123200; 123632; 125264; 130032]%N.

(** [Py_UNICODE_TODECIMAL] for Unicode 14.0. *)
Definition decimal (c : N) : option N :=
  match List.find (fun z => (z <=? c) && negb (z + 10 <=? c))%N digit_zeros with
  | Some z => Some (c - z)%N
  | None => None
  end.

(** The outside is the address the browser shows. *)
Definition env : Env :=
  {| W := pystr;
     driver_get := fun url w =>
       match site url with
       | Ok _ => (Ok tt, url)
       | Raise e => (Raise e, w)
       end;
     driver_wait := fun _ w => (Ok tt, w);
     driver_page_source := fun w => (site w, w);
     driver_quit := fun w => (Ok tt, w);
     open_w := fun _ w => (Ok tt, w);
     BeautifulSoup := parse;
     urljoin := fun base url => Ok (base ++ url);
     float_repr := repr;
     csv_writerow := writerow;
     unicode_decimal := decimal |}.

(** The same outside on a machine where the lxml parser is missing:
    [BeautifulSoup(markup, 'lxml')] raises [bs4.FeatureNotFound]. *)
Definition env_without_lxml : Env :=
  {| W := pystr;
     driver_get := @driver_get env;
     driver_wait := @driver_wait env;
     driver_page_source := @driver_page_source env;
     driver_quit := @driver_quit env;
     open_w := @open_w env;
     BeautifulSoup := fun _ =>
       Raise (OtherError (str "Couldn't find a tree builder with the features you requested: lxml."));
     urljoin := @urljoin env;
     float_repr := repr;
     csv_writerow := writerow;
     unicode_decimal := decimal |}.

(** The same outside with an output directory the program may not write
    to: [open(filepath, "w")] raises [PermissionError]. *)
Definition permission_denied : exn :=
  OtherError (str "[Errno 13] Permission denied").

Definition env_read_only : Env :=
  {| W := pystr;
     driver_get := @driver_get env;
     driver_wait := @driver_wait env;
     driver_page_source := @driver_page_source env;
     driver_quit := @driver_quit env;
     open_w := fun _ w => (Raise permission_denied, w);
     BeautifulSoup := parse;
     urljoin := @urljoin env;
     float_repr := repr;
     csv_writerow := writerow;
     unicode_decimal := decimal |}.

(** A new scraper, the browser on a blank page. *)
Definition start : @state env := @fresh env (str "about:blank").
Definition start_without_lxml : @state env_without_lxml :=
  @fresh env_without_lxml (str "about:blank").
Definition start_read_only : @state env_read_only :=
  @fresh env_read_only (str "about:blank").

(** A scraper with nothing scraped, in front of an output file left by an
    earlier run. *)
Definition after_earlier_run : @state env :=
  @Build_state env (str "about:blank") []
    {[ csv_path := str "title,price" ++ [13; 10]%N ]} [] [].

(** The scraper after the loop went over page 5 alone: two records, the
    first without detail fields, the second with them. *)
Definition scraped_page_5 : @state env := (@scrape_multiple_pages env 5 5 start).2.

(** What the browser does on the way to page 1. *)
Definition to_page_1 : list event :=
  [DriverGet (page_url_of 1); DriverWait (str "product_pod"); DriverPageSource].
Definition to_page_4 : list event :=
  [DriverGet (page_url_of 4); DriverWait (str "product_pod"); DriverPageSource].

Definition soup_1 : soup :=
  {| select_product_pod := [pod_a; pod_b]; find_product_page := None |}.
Definition soup_4 : soup :=
  {| select_product_pod := [pod_b]; find_product_page := None |}.

(** The scraper after a run over page 8 alone: three records, the first
    and the third without detail fields, the second with them. *)
Definition ran_page_8 : @state env := (@run env 8 8 start).2.

(** The summary record of [pod_e]. *)
Definition summary_e : record :=
  [(str "title", VStr (str "Sapiens"));
   (str "price", VFloat (FDec false 5423 (-2)));
   (str "availability", VStr (str "In stock"));
   (str "rating", VStr (str "Three"));
   (str "url", VStr detail_e)].

(** The summary record of [pod_c]. *)
Definition summary_c : record :=
  [(str "title", VStr (str "Soumission"));
   (str "price", VFloat (FDec false 5010 (-2)));
   (str "availability", VStr (str "In stock"));
   (str "rating", VStr (str "Three"));
   (str "url", VStr detail_c)].


End Sample.

(** ** Further vocabulary: the shape of records and of traces *)

(** The dict literal [book_data] of [scrape_page]. *)
Definition summary_fields (title : pystr) (price : pyfloat)
    (availability rating url : pystr) : record :=
  [(str "title", VStr title);
   (str "price", VFloat price);
   (str "availability", VStr availability);
   (str "rating", VStr rating);
   (str "url", VStr url)].

(** The dict literal [scrape_book_details] returns. *)
Definition detail_fields (description upc product_type tax reviews : pystr)
    : record :=
  [(str "description", VStr description);
   (str "upc", VStr upc);
   (str "product_type", VStr product_type);
   (str "tax", VStr tax);
   (str "reviews", VStr reviews)].

(** The two shapes of a record of the result set: the five summary
    fields, or those followed by the five detail fields. *)
Inductive book_record : record -> Prop :=
  | summary_only title price availability rating url :
      book_record (summary_fields title price availability rating url)
  | with_details title price availability rating url
                 description upc product_type tax reviews :
      book_record (summary_fields title price availability rating url
                   ++ detail_fields description upc product_type tax reviews).

(** The record has the detail fields. *)
Definition has_details (r : record) : bool :=
  bool_decide (str "description" ∈ Dict.keys r).

(** The events that can follow the delay of a page attempt. *)
Definition follow_event (ev : event) : bool := item_event ev || stop_event ev.

(** The page numbers of the "Scraping page" log lines, in order. *)
Definition page_numbers (t : list event) : list Z :=
  flat_map (fun ev => match ev with
                      | Log (LogScrapingPage page_num _) => [page_num]
                      | _ => []
                      end) t.

Definition is_sleep (ev : event) : bool :=
  match ev with
  | Sleep => true
  | _ => false
  end.

(** The events of [run] once the loop over the pages is over. *)
Definition closing_event (ev : event) : bool :=
  writer_event ev
  || match ev with
     | DriverQuit | Log (LogScrapingFailed _) | Log (LogComplete _) => true
     | _ => false
     end.

Section FurtherVocabulary.

Context `{Env}.

(** The end of [run] from the state [s]: [driver.quit()], then the closing
    log line unless the call raised. *)
Definition release_and_report (s : state) : res unit * state :=
  match driver_quit (world s) with
  | (Ok _, w) =>
      (Ok tt, extend s w [DriverQuit; Log (LogComplete (length (all_books s)))])
  | (Raise e, w) => (Raise e, extend s w [DriverQuit])
  end.

(** The two writers, one after the other, as [run] calls them. *)
Definition save_both : state -> res unit * state :=
  bind save_to_csv (fun _ => save_to_json).

End FurtherVocabulary.

(** A scraper that ran over page 1 and then over page 5 of the small
    site: a record with detail fields, then one without, then one with. *)
Definition scraped_pages_1_and_5 : @state Sample.env :=
  (@scrape_multiple_pages Sample.env 5 5
     (@scrape_multiple_pages Sample.env 1 1 Sample.start).2).2.

(** ** Properties *)

Section Properties.

Context `{Env}.
Open Scope py_scope.

Arguments str : simpl never.

Ltac exec :=
  unfold log, sleep, pass in *;
  unfold bind, ret, try_except, try_finally, of_res, call, emit,
    get_all_books, append_book, extend in *;
  cbn [world all_books files trace log_file fst snd] in *.

Lemma state_eq (s s' : state) :
  world s = world s' -> all_books s = all_books s' ->
  files s = files s' -> trace s = trace s' -> log_file s = log_file s' ->
  s = s'.
Proof. destruct s, s'; simpl; intros; subst; reflexivity. Qed.

Ltac same_state :=
  apply state_eq; cbn;
  unfold logged; rewrite ?flat_map_app; cbn [flat_map app];
  rewrite ?app_nil_r, <- ?app_assoc; cbn [app];
  first [reflexivity | apply insert_insert_eq | auto].

Lemma extend_nil (s : state) : extend s (world s) [] = s.
Proof. same_state. Qed.

Lemma extend_extend (s : state) w1 t1 w2 t2 :
  extend (extend s w1 t1) w2 t2 = extend s w2 (t1 ++ t2).
Proof. same_state. Qed.

(** [get_page] is [navigate] between a delay and, on failure, a log
    line. *)
Lemma get_page_navigate (url : pystr) (s : state) :
  get_page url s =
  match navigate url (str "product_pod") (world s) with
  | (Ok markup, w, t) => (Ok (Some markup), extend s w (Sleep :: t))
  | (Raise e, w, t) =>
      (Ok None, extend s w (Sleep :: t ++ [Log (LogFetchFailed url e)]))
  end.
Proof.
  unfold get_page, navigate. exec.
  destruct (driver_get url (world s)) as [[[]|e] w1]; cbn.
  2: { f_equal. same_state. }
  destruct (driver_wait (str "product_pod") w1) as [[[]|e] w2]; cbn.
  2: { f_equal. same_state. }
  destruct (driver_page_source w2) as [[markup|e] w3]; cbn;
    f_equal; same_state.
Qed.

Lemma scrape_book_details_navigate (book_url : pystr) (s : state) :
  scrape_book_details book_url s =
  match navigate book_url (str "product_page") (world s) with
  | (Ok markup, w, t) =>
      match extract_details markup with
      | Ok details => (Ok details, extend s w t)
      | Raise e => (Ok None, extend s w (t ++ [Log (LogDetailsFailed book_url e)]))
      end
  | (Raise e, w, t) =>
      (Ok None, extend s w (t ++ [Log (LogDetailsFailed book_url e)]))
  end.
Proof.
  unfold scrape_book_details, navigate, extract_details. exec.
  destruct (driver_get book_url (world s)) as [[[]|e] w1]; cbn.
  2: { f_equal. same_state. }
  destruct (driver_wait (str "product_page") w1) as [[[]|e] w2]; cbn.
  2: { f_equal. same_state. }
  destruct (driver_page_source w2) as [[markup|e] w3]; cbn.
  2: { f_equal. same_state. }
  destruct (BeautifulSoup markup) as [soup|e]; cbn.
  2: { f_equal. same_state. }
  destruct (find_product_page soup) as [pp|]; cbn.
  2: { f_equal. same_state. }
  destruct (description_of pp); cbn;
    [| f_equal; same_state].
  do 4 (match goal with
        | |- context [th_value pp ?l] =>
            destruct (th_value pp l); cbn;
            [| f_equal; same_state]
        end).
  f_equal; same_state.
Qed.

Lemma with_books_nil (s : state) : with_books s [] = s.
Proof. same_state. Qed.

Lemma with_books_extend (s : state) w t books1 w' t' books2 :
  with_books (extend (with_books (extend s w t) books1) w' t') books2
  = with_books (extend s w' (t ++ t')) (books1 ++ books2).
Proof. same_state. Qed.

(** [scrape_book_details] returns, whatever the outside does; it leaves
    [self.all_books] and the output files alone. *)
Lemma scrape_book_details_returns (book_url : pystr) (s : state) :
  exists details w t,
    scrape_book_details book_url s = (Ok details, extend s w t)
    /\ Forall (fun ev => item_event ev = true) t.
Proof.
  rewrite scrape_book_details_navigate. unfold navigate.
  destruct (driver_get book_url (world s)) as [[[]|e] w1].
  2: { do 3 eexists; split; [reflexivity|]. repeat constructor. }
  destruct (driver_wait (str "product_page") w1) as [[[]|e] w2].
  2: { do 3 eexists; split; [reflexivity|]. repeat constructor. }
  destruct (driver_page_source w2) as [[markup|e] w3].
  2: { do 3 eexists; split; [reflexivity|]. repeat constructor. }
  destruct (extract_details markup) as [details|e];
    do 3 eexists; (split; [reflexivity|]); repeat constructor.
Qed.

(** One turn of the loop over the blocks of a page never raises: a block
    whose summary cannot be read adds a log line and nothing else; any
    other block adds exactly one record. *)
Lemma scrape_book_returns (page_num : Z) (book : product_pod) (s : state) :
  exists w t,
    Forall (fun ev => item_event ev = true) t
    /\ match summary_of book with
       | Ok summary =>
           exists details,
             scrape_book page_num book s
             = (Ok tt, with_books (extend s w t) [merge_details summary details])
       | Raise e =>
           scrape_book page_num book s = (Ok tt, extend s w t)
           /\ w = world s /\ t = [Log (LogBookFailed page_num e)]
       end.
Proof.
  unfold scrape_book. unfold try_except at 1. unfold bind at 1. unfold of_res.
  destruct (summary_of book) as [summary|e].
  - unfold bind at 1.
    destruct (scrape_book_details_returns (link_of summary) s)
      as (details & w & t & -> & Ht).
    exists w, t. split; [exact Ht|]. exists details. reflexivity.
  - exists (world s), [Log (LogBookFailed page_num e)].
    split; [repeat constructor|]. split; [|auto]. reflexivity.
Qed.

(** The loop over the blocks of a page: it never raises, and appends one
    record for each block whose summary can be read, in page order. *)
Lemma scrape_books_returns (page_num : Z) (books : list product_pod) (s : state) :
  exists w t book_data,
    for_each books (scrape_book page_num) s
    = (Ok tt, with_books (extend s w t) book_data)
    /\ Forall (fun ev => item_event ev = true) t
    /\ Forall2 produced (List.filter summary_ok books) book_data.
Proof.
  revert s. induction books as [|book books IH]; intros s.
  - exists (world s), [], []. cbn. unfold ret.
    rewrite extend_nil, with_books_nil. auto.
  - cbn [for_each]. unfold bind.
    destruct (scrape_book_returns page_num book s) as (w & t & Ht & Hb).
    cbn [List.filter]. unfold summary_ok at 1.
    destruct (summary_of book) as [summary|e] eqn:Hsum.
    + destruct Hb as (details & ->).
      destruct (IH (with_books (extend s w t) [merge_details summary details]))
        as (w' & t' & recs & -> & Ht' & Hrecs).
      exists w', (t ++ t'), (merge_details summary details :: recs).
      rewrite with_books_extend. split; [reflexivity|].
      split; [apply Forall_app; auto|].
      constructor; [|exact Hrecs]. exists summary, details. auto.
    + destruct Hb as (-> & -> & ->).
      destruct (IH (extend s (world s) [Log (LogBookFailed page_num e)]))
        as (w' & t' & recs & -> & Ht' & Hrecs).
      exists w', ([Log (LogBookFailed page_num e)] ++ t'), recs.
      rewrite <- (with_books_nil (extend s (world s) _)) at 1.
      rewrite with_books_extend. split; [reflexivity|].
      split; [apply Forall_app; split; [repeat constructor|auto]|].
      exact Hrecs.
Qed.

(** [scrape_page], case by case. *)
Lemma scrape_page_cases (page_num : Z) (s : state) :
  let url := page_url_of page_num in
  let start := [Log (LogScrapingPage page_num url); Sleep] in
  scrape_page page_num s =
  match navigate url (str "product_pod") (world s) with
  | (Raise e, w, t) =>
      (Ok false, extend s w (start ++ t ++ [Log (LogFetchFailed url e)]))
  | (Ok [], w, t) => (Ok false, extend s w (start ++ t))
  | (Ok markup, w, t) =>
      match BeautifulSoup markup with
      | Raise e => (Raise e, extend s w (start ++ t))
      | Ok soup =>
          match select_product_pod soup with
          | [] => (Ok false, extend s w (start ++ t ++ [Log (LogNoBooks page_num)]))
          | books =>
              match for_each books (scrape_book page_num) (extend s w (start ++ t)) with
              | (Ok _, s') => (Ok true, s')
              | (Raise e, s') => (Raise e, s')
              end
          end
      end
  end.
Proof.
  cbn zeta. unfold scrape_page. unfold bind at 1. unfold log, emit.
  unfold bind at 1. rewrite get_page_navigate. cbn [world].
  destruct (navigate _ _ _) as [[[markup|e] w] t].
  - destruct markup as [|c markup].
    + unfold ret. f_equal. same_state.
    + unfold bind at 1. unfold of_res.
      destruct (BeautifulSoup (c :: markup)) as [soup|e].
      * destruct (select_product_pod soup) as [|b books].
        -- exec. f_equal. same_state.
        -- unfold bind at 1.
           replace (extend _ w (Sleep :: t))
             with (extend s w ([Log (LogScrapingPage page_num (page_url_of page_num)); Sleep] ++ t)).
           2: { same_state. }
           destruct (for_each _ _ _) as [[[]|e] s']; reflexivity.
      * f_equal. same_state.
  - f_equal. same_state.
Qed.

Lemma navigate_events (url class_name : pystr) (w : W) :
  Forall (fun ev => item_event ev = true) (navigate url class_name w).2.
Proof.
  unfold navigate.
  destruct (driver_get url w) as [[[]|e] w1]; [|repeat constructor].
  destruct (driver_wait class_name w1) as [[[]|e] w2]; [|repeat constructor].
  destruct (driver_page_source w2) as [r w3]. repeat constructor.
Qed.

Lemma item_event_page_event (page_num : Z) (t : list event) :
  Forall (fun ev => item_event ev = true) t -> Forall (page_event page_num) t.
Proof. intros Ht. eapply Forall_impl; [exact Ht|]. intros ev Hev. left. exact Hev. Qed.

Lemma item_event_not_stop (t : list event) :
  Forall (fun ev => item_event ev = true) t ->
  Forall (fun ev => stop_event ev = false) t.
Proof.
  intros Ht. eapply Forall_impl; [exact Ht|].
  intros [[]| | | | | | | |]; cbn; congruence.
Qed.

(** What one call of [scrape_page] can do: it appends records only when
    it returns [True]; a stop line is logged only when it returns
    [False]. *)
Lemma scrape_page_returns (page_num : Z) (s : state) :
  exists r w t book_data,
    scrape_page page_num s = (r, with_books (extend s w t) book_data)
    /\ Forall (page_event page_num) t
    /\ attempted page_num t
    /\ (r <> Ok false -> Forall (fun ev => stop_event ev = false) t)
    /\ (r <> Ok true -> book_data = []).
Proof.
  pose proof (scrape_page_cases page_num s) as E. cbn zeta in E.
  pose proof (navigate_events (page_url_of page_num) (str "product_pod") (world s)) as Hnav.
  destruct (navigate _ _ _) as [[[markup|e] w] t]. cbn [snd] in Hnav.
  - assert (Hstart : Forall (page_event page_num)
              ([Log (LogScrapingPage page_num (page_url_of page_num)); Sleep] ++ t)).
    { constructor; [right; right; left; reflexivity|].
      constructor; [right; left; reflexivity|].
      apply item_event_page_event, Hnav. }
    assert (Hnostop : Forall (fun ev => stop_event ev = false)
              ([Log (LogScrapingPage page_num (page_url_of page_num)); Sleep] ++ t)).
    { constructor; [reflexivity|]. constructor; [reflexivity|].
      apply item_event_not_stop, Hnav. }
    destruct markup as [|c markup].
    { eexists _, w, _, []. rewrite with_books_nil. split; [exact E|].
      split; [exact Hstart|]. split; [left; reflexivity|]. auto. }
    destruct (BeautifulSoup (c :: markup)) as [soup|e].
    2: { eexists _, w, _, []. rewrite with_books_nil. split; [exact E|].
         split; [exact Hstart|]. split; [left; reflexivity|]. auto. }
    destruct (select_product_pod soup) as [|b books].
    { eexists _, w, _, []. rewrite with_books_nil. split; [exact E|].
      split; [|split; [left; reflexivity|split; [congruence|auto]]].
      rewrite app_assoc. apply Forall_app. split; [exact Hstart|].
      constructor; [|constructor]. do 4 right. reflexivity. }
    destruct (scrape_books_returns page_num (b :: books) (extend s w
               ([Log (LogScrapingPage page_num (page_url_of page_num)); Sleep] ++ t)))
      as (w' & t' & recs & E' & Ht' & _).
    rewrite E' in E. rewrite extend_extend in E.
    eexists _, w', _, recs. split; [exact E|].
    split; [apply Forall_app; split; [exact Hstart|apply item_event_page_event, Ht']|].
    split; [left; reflexivity|].
    split; [intros _; apply Forall_app; split;
            [exact Hnostop|apply item_event_not_stop, Ht']|congruence].
  - cbn [snd] in Hnav.
    eexists _, w, _, []. rewrite with_books_nil. split; [exact E|].
    split; [|split; [left; reflexivity|split; [congruence|auto]]].
    constructor; [right; right; left; reflexivity|].
    constructor; [right; left; reflexivity|].
    apply Forall_app. split; [apply item_event_page_event, Hnav|].
    constructor; [|constructor]. do 3 right. left. eexists. reflexivity.
Qed.









(** *** The writers *)

Lemma with_file_with_file (s : state) (filepath a b : pystr) :
  with_file (with_file s filepath a) filepath b = with_file s filepath b.
Proof. same_state. Qed.

Lemma with_file_same (s : state) (filepath text : pystr) :
  files s !! filepath = Some text -> with_file s filepath text = s.
Proof. intros E. apply state_eq; cbn; auto. apply insert_id, E. Qed.

Lemma write_with_file (s : state) (filepath content text : pystr) :
  files s !! filepath = Some content ->
  write filepath text s = (Ok tt, with_file s filepath (content ++ text)).
Proof. intros E. unfold write, with_file. rewrite E. reflexivity. Qed.

Lemma lookup_with_file (s : state) (filepath text : pystr) :
  files (with_file s filepath text) !! filepath = Some text.
Proof. cbn. apply lookup_insert_eq. Qed.

Lemma writerows_csv_rows (filepath : pystr) (fieldnames : list pystr)
    (rowdicts : list record) (s : state) (content : pystr) :
  files s !! filepath = Some content ->
  writerows filepath fieldnames rowdicts s =
  ((match (csv_rows fieldnames rowdicts).2 with
    | None => Ok tt
    | Some e => Raise e
    end),
   with_file s filepath (content ++ (csv_rows fieldnames rowdicts).1)).
Proof.
  revert s content. induction rowdicts as [|rowdict rest IH]; intros s content E.
  - cbn. unfold ret. rewrite app_nil_r, with_file_same by exact E. reflexivity.
  - cbn [writerows csv_rows]. unfold bind at 1. unfold of_res.
    destruct (dict_to_list fieldnames rowdict) as [row|e].
    + unfold bind at 1. rewrite (write_with_file _ _ _ _ E).
      rewrite (IH _ _ (lookup_with_file _ _ _)), with_file_with_file.
      destruct (csv_rows fieldnames rest) as [text stopped]. cbn [fst snd].
      rewrite <- app_assoc. reflexivity.
    + cbn [fst snd]. rewrite app_nil_r, with_file_same by exact E. reflexivity.
Qed.

Lemma write_chunks_concat (filepath : pystr) (chunks : list pystr)
    (s : state) (content : pystr) :
  files s !! filepath = Some content ->
  write_chunks filepath chunks s
  = (Ok tt, with_file s filepath (content ++ concat chunks)).
Proof.
  unfold write_chunks. revert s content.
  induction chunks as [|chunk chunks IH]; intros s content E.
  - cbn. unfold ret. rewrite app_nil_r, with_file_same by exact E. reflexivity.
  - cbn [for_each concat]. unfold bind. rewrite (write_with_file _ _ _ _ E).
    rewrite (IH _ _ (lookup_with_file _ _ _)), with_file_with_file.
    rewrite <- app_assoc. reflexivity.
Qed.

(** [save_to_csv], case by case: it never raises. *)
Lemma save_to_csv_cases (s : state) :
  let books := all_books s in
  save_to_csv s =
  match open_w csv_path (world s) with
  | (Raise e, w) =>
      (Ok tt, extend s w [EnterSaveToCsv books; OpenW csv_path; Log (LogCsvFailed e)])
  | (Ok _, w) =>
      (Ok tt,
       with_file
         (extend s w [EnterSaveToCsv books; OpenW csv_path;
                      Log (csv_log books (csv_document books).2)])
         csv_path (csv_document books).1)
  end.
Proof.
  cbn zeta. unfold save_to_csv, open_for_writing.
  unfold bind at 1. unfold emit at 1. unfold try_except.
  unfold bind at 1. unfold bind at 1. unfold call. cbn [world all_books files trace].
  destruct (open_w csv_path (world s)) as [[[]|e] w].
  2: { unfold log, emit. cbn [world all_books files trace]. f_equal.
       same_state. }
  unfold bind at 1. unfold get_all_books at 1. cbn [all_books].
  destruct (all_books s) as [|first rest] eqn:Hbooks.
  - unfold log, emit, with_file, extend. cbn. f_equal.
    same_state.
  - unfold bind at 1.
    match goal with |- context [write csv_path ?t ?st] =>
      rewrite (write_with_file st csv_path [] t) by (cbn; apply lookup_insert_eq)
    end.
    unfold bind at 1.
    rewrite (writerows_csv_rows _ _ _ _ _ (lookup_with_file _ _ _)).
    rewrite with_file_with_file. unfold csv_document.
    destruct (csv_rows (Dict.keys first) (first :: rest)) as [text [e|]];
      cbn [fst snd csv_log]; unfold log, emit, with_file, extend; cbn;
      f_equal; same_state.
Qed.

(** [save_to_json], case by case: it never raises. *)
Lemma save_to_json_cases (s : state) :
  let books := all_books s in
  save_to_json s =
  match open_w json_path (world s) with
  | (Raise e, w) =>
      (Ok tt, extend s w [EnterSaveToJson books; OpenW json_path; Log (LogJsonFailed e)])
  | (Ok _, w) =>
      (Ok tt,
       with_file
         (extend s w [EnterSaveToJson books; OpenW json_path; Log (LogSaved json_path)])
         json_path (concat (Json.iterencode float_repr books)))
  end.
Proof.
  cbn zeta. unfold save_to_json, open_for_writing.
  unfold bind at 1. unfold emit at 1. unfold try_except.
  unfold bind at 1. unfold bind at 1. unfold call. cbn [world all_books files trace].
  destruct (open_w json_path (world s)) as [[[]|e] w].
  2: { unfold log, emit. cbn [world all_books files trace]. f_equal.
       same_state. }
  unfold bind at 1. unfold get_all_books at 1. cbn [all_books].
  unfold bind at 1.
  match goal with |- context [write_chunks json_path ?c ?st] =>
    rewrite (write_chunks_concat json_path c st []) by (cbn; apply lookup_insert_eq)
  end.
  unfold log, emit, with_file, extend; cbn.
  f_equal; same_state.
Qed.

(** *** [run] *)

Lemma new_events_app (s s' : state) (t : list event) :
  trace s' = trace s ++ t -> new_events s s' = t.
Proof. unfold new_events. intros ->. apply drop_app_length. Qed.

Lemma log_file_extend (s : state) (w : W) (t : list event) :
  log_file (extend s w t) = log_file s ++ logged (new_events s (extend s w t)).
Proof. rewrite (new_events_app s (extend s w t) t eq_refl). reflexivity. Qed.

Lemma csv_log_writer_event (books : list record) (stopped : option exn) :
  writer_event (Log (csv_log books stopped)) = true.
Proof. destruct books, stopped; reflexivity. Qed.

Lemma save_to_csv_returns (s : state) :
  exists w l text,
    writer_event (Log l) = true
    /\ (save_to_csv s
        = (Ok tt, with_file (extend s w [EnterSaveToCsv (all_books s); OpenW csv_path; Log l])
                    csv_path text)
        \/ save_to_csv s
           = (Ok tt, extend s w [EnterSaveToCsv (all_books s); OpenW csv_path; Log l])).
Proof.
  pose proof (save_to_csv_cases s) as E. cbn zeta in E.
  destruct (open_w csv_path (world s)) as [[[]|e] w].
  - eexists w, _, _. split; [apply csv_log_writer_event|]. left. exact E.
  - exists w, (LogCsvFailed e), []. split; [reflexivity|]. right. exact E.
Qed.

Lemma save_to_json_returns (s : state) :
  exists w l text,
    writer_event (Log l) = true
    /\ (save_to_json s
        = (Ok tt, with_file (extend s w [EnterSaveToJson (all_books s); OpenW json_path; Log l])
                    json_path text)
        \/ save_to_json s
           = (Ok tt, extend s w [EnterSaveToJson (all_books s); OpenW json_path; Log l])).
Proof.
  pose proof (save_to_json_cases s) as E. cbn zeta in E.
  destruct (open_w json_path (world s)) as [[[]|e] w].
  - exists w, (LogSaved json_path). eexists. split; [reflexivity|]. left. exact E.
  - exists w, (LogJsonFailed e), []. split; [reflexivity|]. right. exact E.
Qed.

(** The events of the two writers, run one after the other from [s]: both
    are entered with [self.all_books], which they leave alone; neither
    raises. *)
Lemma writers_return (s : state) :
  exists s' l1 l2,
    bind save_to_csv (fun _ => save_to_json) s = (Ok tt, s')
    /\ writer_event (Log l1) = true /\ writer_event (Log l2) = true
    /\ all_books s' = all_books s
    /\ trace s' = trace s ++ [EnterSaveToCsv (all_books s); OpenW csv_path; Log l1;
                              EnterSaveToJson (all_books s); OpenW json_path; Log l2].
Proof.
  unfold bind.
  destruct (save_to_csv_returns s) as (w1 & l1 & text1 & Hl1 & [E1|E1]); rewrite E1;
    match goal with |- context [save_to_json ?st] =>
      destruct (save_to_json_returns st) as (w2 & l2 & text2 & Hl2 & [E2|E2]); rewrite E2
    end;
    eexists _, l1, l2; (split; [reflexivity|]); cbn; rewrite <- !app_assoc; auto.
Qed.

(** [run], from the outcome of [scrape_multiple_pages]. *)
Lemma run_cases (start_page end_page : Z) (s : state) :
  exists r s2 tail,
    run start_page end_page s = (r, s2)
    /\ match scrape_multiple_pages start_page end_page
               (extend s (world s) [Log LogStarting]) with
       | (Ok _, s1) =>
           exists l1 l2,
             writer_event (Log l1) = true /\ writer_event (Log l2) = true
             /\ all_books s2 = all_books s1
             /\ trace s2 = trace s1
                  ++ [EnterSaveToCsv (all_books s1); OpenW csv_path; Log l1;
                      EnterSaveToJson (all_books s1); OpenW json_path; Log l2]
                  ++ DriverQuit :: tail
       | (Raise e, s1) =>
           all_books s2 = all_books s1
           /\ trace s2 = trace s1 ++ [Log (LogScrapingFailed e)] ++ DriverQuit :: tail
       end
    /\ (r = Ok tt /\ tail = [Log (LogComplete (length (all_books s2)))]
        \/ (exists e, r = Raise e) /\ tail = []).
Proof.
  unfold run. unfold bind at 1. unfold log at 1.
  change {| world := world s; all_books := all_books s; files := files s;
            trace := trace s ++ [Log LogStarting];
            log_file := log_file s ++ [LogStarting] |}
    with (extend s (world s) [Log LogStarting]).
  unfold bind at 1. unfold try_finally. unfold try_except. unfold bind at 1.
  destruct (scrape_multiple_pages start_page end_page _) as [[[]|e] s1].
  - destruct (writers_return s1) as (s' & l1 & l2 & E & Hl1 & Hl2 & Hb & Ht).
    rewrite E. unfold call.
    destruct (driver_quit (world s')) as [[[]|e] w].
    + unfold bind, get_all_books, log, emit. cbn.
      eexists _, _, _. split; [reflexivity|]. split.
      * exists l1, l2. do 3 (split; [assumption|]). cbn [trace]. rewrite Ht.
        rewrite <- !app_assoc. reflexivity.
      * left. split; reflexivity.
    + eexists _, _, []. split; [reflexivity|]. split.
      * exists l1, l2. do 3 (split; [assumption|]). cbn [trace]. rewrite Ht.
        rewrite <- !app_assoc. reflexivity.
      * right. split; [eexists; reflexivity|reflexivity].
  - unfold log at 1. unfold call. cbn [world all_books files trace log_file].
    destruct (driver_quit (world s1)) as [[[]|e'] w].
    + unfold bind, get_all_books, log, emit. cbn.
      eexists _, _, _. split; [reflexivity|]. split.
      * split; [reflexivity|]. rewrite <- !app_assoc. reflexivity.
      * left. split; reflexivity.
    + eexists _, _, []. split; [reflexivity|]. split.
      * split; [reflexivity|]. cbn [trace]. rewrite <- !app_assoc. reflexivity.
      * right. split; [eexists; reflexivity|reflexivity].
Qed.

Lemma scrape_pages_events (count : nat) (p : Z) (s : state) :
  exists r w t book_data,
    scrape_pages count p s = (r, with_books (extend s w t) book_data)
    /\ Forall scraping_event t.
Proof.
  revert p s. induction count as [|count IH]; intros p s.
  - exists (Ok tt), (world s), [], []. cbn. unfold ret.
    rewrite extend_nil, with_books_nil. auto.
  - cbn [scrape_pages]. unfold bind.
    destruct (scrape_page_returns p s) as (r1 & w1 & t1 & b1 & E1 & Hev1 & _).
    rewrite E1.
    assert (Ht1 : Forall scraping_event t1).
    { eapply Forall_impl; [exact Hev1|]. intros ev Hev. exists p. exact Hev. }
    destruct r1 as [[|]|e].
    + destruct (IH (p + 1) (with_books (extend s w1 t1) b1)) as (r & w & t & b & E & Ht).
      rewrite E, with_books_extend. exists r, w, (t1 ++ t), (b1 ++ b).
      split; [reflexivity|]. apply Forall_app. auto.
    + exists (Ok tt), w1, t1, b1. auto.
    + exists (Raise e), w1, t1, b1. auto.
Qed.

Lemma scraping_event_cases (ev : event) :
  scraping_event ev ->
  writer_event ev = false /\ ev <> DriverQuit
  /\ (forall l, ev <> Log (LogScrapingFailed l)) /\ ev <> Log LogStarting
  /\ (forall n, ev <> Log (LogComplete n)).
Proof.
  intros [m [Hi|[Hi|[Hi|[[e Hi]|Hi]]]]]; try subst ev;
    try (repeat split; (discriminate || intros; discriminate)).
  destruct ev as [[]| | | | | | | |]; cbn in Hi; try discriminate;
    repeat split; (discriminate || intros; discriminate).
Qed.



Lemma filter_negb_length {A} (f : A -> bool) (l : list A) :
  (length (List.filter f l) + length (List.filter (fun x => negb (f x)) l))%nat
  = length l.
Proof.
  induction l as [|x l IH]; cbn; [reflexivity|].
  destruct (f x); cbn; lia.
Qed.

(** ** The claims *)

(** C6.  [get_page] never raises, whatever the URL and whatever the browser
    does.  When one of its driver calls raises (the navigation, the wait
    for the readiness marker, the read of the page source) it returns
    [None], and the last thing it did was to log, at level ERROR, the URL
    and that exception; otherwise it returns the markup and logs nothing.
    It leaves the result set and the output files alone. *)
Theorem get_page_never_raises (url : pystr) (s : state) :
  exists result s',
    get_page url s = (Ok result, s')
    /\ all_books s' = all_books s
    /\ files s' = files s
    /\ match navigate url (str "product_pod") (world s) with
       | (Ok markup, _, t) =>
           result = Some markup /\ new_events s s' = Sleep :: t
       | (Raise e, _, t) =>
           result = None
           /\ new_events s s' = Sleep :: t ++ [Log (LogFetchFailed url e)]
           /\ level_of (LogFetchFailed url e) = ERROR
       end.
Proof.
  rewrite get_page_navigate.
  pose proof (navigate_events url (str "product_pod") (world s)) as Hnav.
  destruct (navigate url (str "product_pod") (world s)) as [[[markup|e] w] t];
    eexists _, _; (split; [reflexivity|]); cbn [all_books files extend];
    (split; [reflexivity|]); (split; [reflexivity|]).
  - split; [reflexivity|]. apply new_events_app. reflexivity.
  - split; [reflexivity|]. split; [|reflexivity]. apply new_events_app. reflexivity.
Qed.

(** *** Required fields *)

Lemma replace1_nil_filter (old : N) (s : pystr) :
  replace1 old [] s = List.filter (fun c => negb (c =? old)%N) s.
Proof.
  unfold replace1. induction s as [|c s IH]; [reflexivity|].
  cbn [flat_map List.filter]. rewrite IH. destruct (c =? old)%N; reflexivity.
Qed.

Lemma filter_filter_bool {A} (f g : A -> bool) (l : list A) :
  List.filter g (List.filter f l) = List.filter (fun x => f x && g x) l.
Proof.
  induction l as [|x l IH]; [reflexivity|].
  cbn [List.filter]. destruct (f x); cbn [List.filter andb]; rewrite IH; reflexivity.
Qed.

(** The two [replace] calls of the program and the trimming around them
    give the sanitized price text. *)
Lemma parse_price_sanitized (price_text : pystr) :
  parse_price (strip price_text) = PyFloat.of_str unicode_decimal (sanitized price_text).
Proof.
  unfold parse_price, sanitized. do 2 f_equal.
  rewrite !replace1_nil_filter, filter_filter_bool.
  apply filter_ext. intros c. destruct (c =? pound)%N, (c =? a_circumflex)%N; reflexivity.
Qed.

(** The statements of the loop body read the required fields: they give
    the record of the five fields when all can be had, and raise when one
    cannot. *)
Lemma summary_of_required_fields (book : product_pod) :
  match required_fields book with
  | Some fields => summary_of book = Ok fields
  | None => exists e, summary_of book = Raise e
  end.
Proof.
  unfold required_fields, summary_of, h3_a_attr, text_of, rating_of.
  destruct (pod_h3 book) as [[a|]|], (pod_price_color book) as [price_text|],
    (pod_availability book) as [availability|], (pod_p book) as [[tokens|]|];
    rewrite ?parse_price_sanitized;
    repeat match goal with
           | |- context [match ?x with _ => _ end] =>
               lazymatch x with
               | context [match _ with _ => _ end] => fail
               | _ => destruct x
               end
           end;
    first [reflexivity | eexists; reflexivity].
Qed.

Lemma summary_ok_unparseable (book : product_pod) :
  summary_ok book = negb (unparseable book).
Proof.
  unfold summary_ok, unparseable.
  pose proof (summary_of_required_fields book) as Hb.
  destruct (required_fields book); [rewrite Hb; reflexivity|].
  destruct Hb as [e ->]. reflexivity.
Qed.

Lemma produced_record_of (books : list product_pod) (book_data : list record) :
  Forall2 produced (List.filter summary_ok books) book_data ->
  Forall2 record_of (omap required_fields books) book_data.
Proof.
  revert book_data. induction books as [|book books IH]; intros book_data.
  { cbn. intros Hnil. inversion Hnil. constructor. }
  cbn [List.filter]. unfold summary_ok at 1.
  pose proof (summary_of_required_fields book) as Hb.
  change (omap required_fields (book :: books))
    with (match required_fields book with
          | Some fields => fields :: omap required_fields books
          | None => omap required_fields books
          end).
  destruct (required_fields book) as [fields|].
  - rewrite Hb. intros Hall.
    apply Forall2_cons_inv_l in Hall as (b & rest & Hp & Hrest & ->).
    constructor; [|apply IH, Hrest].
    destruct Hp as (summary & details & Hs & ->).
    rewrite Hb in Hs. injection Hs as <-. exists details. reflexivity.
  - destruct Hb as [e ->]. apply IH.
Qed.

(** C8.  On a listing page that is fetched and parsed, [scrape_page] does
    not raise, whatever its blocks are like.  It appends one record for
    each block whose required fields can all be had, in page order: the
    title of the title link, the price read from the sanitized price text,
    the trimmed availability, the second class token of the rating element
    and the resolved link, alone or with detail fields merged in.  For a
    block with an unparseable required field it appends nothing, so the
    number of records appended is the number of blocks minus the number of
    such blocks. *)
Theorem scrape_page_record_count (page_num : Z) (s : state)
    (markup : pystr) (w : W) (t : list event) (soup : soup) :
  navigate (page_url_of page_num) (str "product_pod") (world s) = (Ok markup, w, t) ->
  markup <> [] ->
  BeautifulSoup markup = Ok soup ->
  let books := select_product_pod soup in
  exists ok s' book_data,
    scrape_page page_num s = (Ok ok, s')
    /\ all_books s' = all_books s ++ book_data
    /\ Forall2 record_of (omap required_fields books) book_data
    /\ length book_data
       = (length books - length (List.filter unparseable books))%nat.
Proof.
  intros Hnav Hmarkup Hsoup. cbn zeta.
  pose proof (scrape_page_cases page_num s) as E. cbn zeta in E.
  rewrite Hnav in E. destruct markup as [|c markup]; [congruence|].
  rewrite Hsoup in E.
  destruct (scrape_books_returns page_num (select_product_pod soup) (extend s w
             ([Log (LogScrapingPage page_num (page_url_of page_num)); Sleep] ++ t)))
    as (w' & t' & recs & E' & _ & Hrecs).
  pose proof (filter_negb_length summary_ok (select_product_pod soup)) as Hlen.
  pose proof (Forall2_length _ _ _ Hrecs) as Hlen'.
  assert (Hun : List.filter (fun b => negb (summary_ok b)) (select_product_pod soup)
                = List.filter unparseable (select_product_pod soup)).
  { apply filter_ext. intros b. rewrite summary_ok_unparseable. apply negb_involutive. }
  rewrite Hun in Hlen. apply produced_record_of in Hrecs.
  destruct (select_product_pod soup) as [|b books].
  - exists false. eexists _, []. split; [exact E|]. cbn. rewrite app_nil_r.
    split; [reflexivity|]. split; [constructor|reflexivity].
  - rewrite E' in E. exists true. eexists _, recs. split; [exact E|].
    split; [reflexivity|]. split; [exact Hrecs|]. lia.
Qed.

(** C10.  A listing page that is fetched and has at least one block makes
    [scrape_page] return [True], also when no block yields a record: the
    result set is then unchanged and the loop goes on with the next page
    number.  [scrape_page] returns [False] only when the fetch gave no
    markup (it failed, or the markup is empty) or the page has no block. *)
Theorem scrape_page_true_without_records :
  (forall (page_num : Z) (s : state) (markup : pystr) (w : W) (t : list event)
          (soup : soup),
      navigate (page_url_of page_num) (str "product_pod") (world s) = (Ok markup, w, t) ->
      markup <> [] ->
      BeautifulSoup markup = Ok soup ->
      select_product_pod soup <> [] ->
      exists s',
        scrape_page page_num s = (Ok true, s')
        /\ (Forall (fun b => summary_ok b = false) (select_product_pod soup) ->
            all_books s' = all_books s)
        /\ forall count,
             scrape_pages (S count) page_num s = scrape_pages count (page_num + 1) s')
  /\ (forall (page_num : Z) (s s' : state),
        scrape_page page_num s = (Ok false, s') ->
        match navigate (page_url_of page_num) (str "product_pod") (world s) with
        | (Raise _, _, _) => True
        | (Ok markup, _, _) =>
            markup = []
            \/ exists soup, BeautifulSoup markup = Ok soup /\ select_product_pod soup = []
        end).
Proof.
  split.
  - intros page_num s markup w t soup Hnav Hmarkup Hsoup Hbooks.
    pose proof (scrape_page_cases page_num s) as E. cbn zeta in E.
    rewrite Hnav in E. destruct markup as [|c markup]; [congruence|].
    rewrite Hsoup in E.
    destruct (scrape_books_returns page_num (select_product_pod soup) (extend s w
               ([Log (LogScrapingPage page_num (page_url_of page_num)); Sleep] ++ t)))
      as (w' & t' & recs & E' & _ & Hrecs).
    destruct (select_product_pod soup) as [|b books] eqn:Hsel; [congruence|].
    rewrite E' in E. eexists. split; [exact E|]. split.
    + intros Hall. cbn [all_books with_books extend].
      replace (List.filter summary_ok (b :: books)) with (@nil product_pod) in Hrecs.
      { inversion Hrecs. apply app_nil_r. }
      symmetry. clear -Hall. induction Hall as [|x l Hx _ IH]; cbn; [reflexivity|].
      rewrite Hx. exact IH.
    + intros count. cbn [scrape_pages]. unfold bind. rewrite E. reflexivity.
  - intros page_num s s' E0.
    pose proof (scrape_page_cases page_num s) as E. cbn zeta in E. rewrite E0 in E.
    destruct (navigate _ _ _) as [[[markup|e] w] t]; [|exact I].
    destruct markup as [|c markup]; [left; reflexivity|]. right.
    destruct (BeautifulSoup (c :: markup)) as [soup|e]; [|discriminate].
    exists soup. split; [reflexivity|].
    destruct (select_product_pod soup) as [|b books]; [reflexivity|].
    destruct (for_each _ _ _) as [[[]|e] s'']; discriminate.
Qed.

(** C1, as the program has it.  [run] always calls [driver.quit()], once,
    after everything else except the closing log line.  When
    [scrape_multiple_pages] returns, whether it went through the whole
    range or stopped early, [save_to_csv] and then [save_to_json] are
    entered with the result set before the driver is released.  When an
    exception escapes [scrape_multiple_pages], it is logged, neither writer
    is entered, and the driver is still released. *)
Theorem run_releases_driver (start_page end_page : Z) (s : state) :
  exists r s' t tail,
    run start_page end_page s = (r, s')
    /\ Forall scraping_event t
    /\ (r = Ok tt /\ tail = [Log (LogComplete (length (all_books s')))]
        \/ (exists e, r = Raise e) /\ tail = [])
    /\ match scrape_multiple_pages start_page end_page
               (extend s (world s) [Log LogStarting]) with
       | (Ok _, s1) =>
           exists l1 l2,
             writer_event (Log l1) = true /\ writer_event (Log l2) = true
             /\ new_events s s'
             = Log LogStarting :: t
               ++ [EnterSaveToCsv (all_books s1); OpenW csv_path; Log l1;
                   EnterSaveToJson (all_books s1); OpenW json_path; Log l2;
                   DriverQuit] ++ tail
       | (Raise e, s1) =>
           new_events s s'
           = Log LogStarting :: t ++ [Log (LogScrapingFailed e); DriverQuit] ++ tail
       end.
Proof.
  destruct (run_cases start_page end_page s) as (r & s2 & tail & E & Hcase & Htail).
  unfold scrape_multiple_pages in *.
  destruct (scrape_pages_events (Z.to_nat (end_page + 1 - start_page)) start_page
              (extend s (world s) [Log LogStarting]))
    as (r1 & w & t & bd & E1 & Ht).
  rewrite E1 in Hcase |- *.
  exists r, s2, t, tail. split; [exact E|]. split; [exact Ht|]. split; [exact Htail|].
  destruct r1 as [[]|e].
  - destruct Hcase as (l1 & l2 & Hl1 & Hl2 & _ & Htr). exists l1, l2.
    do 2 (split; [assumption|]).
    apply new_events_app. rewrite Htr. cbn. rewrite <- !app_assoc. reflexivity.
  - destruct Hcase as (_ & Htr).
    apply new_events_app. rewrite Htr. cbn. rewrite <- !app_assoc. reflexivity.
Qed.


(** *** The tabular writer *)

Lemma dict_to_list_fits (fieldnames : list pystr) (rowdict : record) :
  if fits fieldnames rowdict
  then dict_to_list fieldnames rowdict = Ok (row_of fieldnames rowdict)
  else exists msg, dict_to_list fieldnames rowdict = Raise (ValueError msg).
Proof.
  unfold fits, dict_to_list, row_of.
  assert (Hfilter : forall keys,
            if forallb (fun key => bool_decide (key ∈ fieldnames)) keys
            then filter (fun k => k ∉ fieldnames) keys = []
            else exists k ks, filter (fun k => k ∉ fieldnames) keys = k :: ks).
  { induction keys as [|key keys IH]; [reflexivity|].
    cbn [forallb]. rewrite filter_cons.
    destruct (bool_decide_reflect (key ∈ fieldnames)) as [Hin|Hin]; cbn [andb].
    - rewrite decide_False by auto. exact IH.
    - rewrite decide_True by auto. eauto. }
  specialize (Hfilter (Dict.keys rowdict)).
  destruct (forallb _ _).
  - rewrite Hfilter. reflexivity.
  - destruct Hfilter as (k & ks & ->). eauto.
Qed.

Lemma csv_rows_fitting_prefix (fieldnames : list pystr) (rowdicts : list record) :
  (csv_rows fieldnames rowdicts).1
  = concat (map (fun r => csv_writerow (row_of fieldnames r))
                (fitting_prefix fieldnames rowdicts))
  /\ if decide (length (fitting_prefix fieldnames rowdicts) = length rowdicts)
     then (csv_rows fieldnames rowdicts).2 = None
     else exists msg, (csv_rows fieldnames rowdicts).2 = Some (ValueError msg).
Proof.
  induction rowdicts as [|rowdict rest [IH1 IH2]]; [split; reflexivity|].
  cbn [csv_rows fitting_prefix].
  pose proof (dict_to_list_fits fieldnames rowdict) as Hfit.
  destruct (fits fieldnames rowdict).
  - rewrite Hfit. destruct (csv_rows fieldnames rest) as [text stopped].
    cbn [fst snd map concat length] in *. split; [congruence|].
    destruct (decide (length (fitting_prefix fieldnames rest) = length rest)) as [Hl|Hl].
    + rewrite decide_True by congruence. exact IH2.
    + rewrite decide_False by congruence. exact IH2.
  - destruct Hfit as [msg ->]. cbn. split; [reflexivity|].
    rewrite decide_False by discriminate. eauto.
Qed.

Lemma fits_own_keys (rowdict : record) : fits (Dict.keys rowdict) rowdict = true.
Proof.
  unfold fits. apply forallb_forall. intros key Hin.
  apply bool_decide_eq_true, list_elem_of_In, Hin.
Qed.

(** C3, as the program has it.  With an empty result set [save_to_csv]
    does not raise and first opens the output file for writing.  When that
    succeeds, the output file is there and empty afterwards, whatever it
    held before, and the one log record, which also goes to the log file,
    is the warning that there is no data.  When the file cannot be opened
    the output file is as it was and the one log record is the error that
    tells the failure. *)
Theorem save_to_csv_empty (s : state) :
  all_books s = [] ->
  exists s',
    save_to_csv s = (Ok tt, s')
    /\ all_books s' = []
    /\ match open_w csv_path (world s) with
       | (Ok _, _) =>
           files s' !! csv_path = Some []
           /\ new_events s s' = [EnterSaveToCsv []; OpenW csv_path; Log LogNoCsvData]
           /\ log_file s' = log_file s ++ [LogNoCsvData]
           /\ level_of LogNoCsvData = WARNING
       | (Raise e, _) =>
           files s' !! csv_path = files s !! csv_path
           /\ new_events s s' = [EnterSaveToCsv []; OpenW csv_path; Log (LogCsvFailed e)]
           /\ log_file s' = log_file s ++ [LogCsvFailed e]
           /\ level_of (LogCsvFailed e) = ERROR
       end.
Proof.
  intros Hbooks. pose proof (save_to_csv_cases s) as E. cbn zeta in E.
  rewrite Hbooks in E. cbn [csv_document csv_log fst snd] in E.
  destruct (open_w csv_path (world s)) as [[[]|e] w];
    eexists; (split; [exact E|]); (split; [exact Hbooks|]).
  - split; [apply lookup_with_file|].
    split; [apply new_events_app; reflexivity|].
    split; [|reflexivity]. cbn. reflexivity.
  - split; [reflexivity|].
    split; [apply new_events_app; reflexivity|].
    split; [|reflexivity]. cbn. reflexivity.
Qed.

(** What [save_to_csv] leaves in the file.  With a non-empty result set and
    the output file opened, it writes the keys of the first record
    as header row, then one data row for each record up to the first
    record that has a key which is not in the header, a record without
    some header key getting an empty cell there.  The first record is
    always among them.  When every record fits the header there is one
    data row per record and the save is logged; otherwise the writer stops
    with a [ValueError] at the first record that does not fit, which it
    logs, and neither that record nor any later one is in the file. *)
Lemma save_to_csv_rows (s : state) (first : record) (rest : list record) (w : W) :
  all_books s = first :: rest ->
  open_w csv_path (world s) = (Ok tt, w) ->
  let fieldnames := Dict.keys first in
  let written := fitting_prefix fieldnames (first :: rest) in
  exists s' l more,
    save_to_csv s = (Ok tt, s')
    /\ written = first :: more
    /\ files s' !! csv_path
       = Some (csv_writerow (map VStr fieldnames)
               ++ concat (map (fun r => csv_writerow (row_of fieldnames r)) written))
    /\ new_events s s' = [EnterSaveToCsv (first :: rest); OpenW csv_path; Log l]
    /\ if decide (length written = length (first :: rest))
       then l = LogSaved csv_path
       else exists msg, l = LogCsvFailed (ValueError msg).
Proof.
  intros Hbooks Hopen. cbn zeta.
  pose proof (save_to_csv_cases s) as E. cbn zeta in E.
  rewrite Hbooks, Hopen in E. unfold csv_document in E.
  destruct (csv_rows_fitting_prefix (Dict.keys first) (first :: rest)) as [H1 H2].
  destruct (csv_rows (Dict.keys first) (first :: rest)) as [text stopped].
  cbn [fst snd] in *. subst text.
  eexists _, _, (fitting_prefix (Dict.keys first) rest).
  split; [exact E|]. split.
  { cbn [fitting_prefix]. rewrite fits_own_keys. reflexivity. }
  split; [apply lookup_with_file|].
  split; [apply new_events_app; reflexivity|].
  destruct (decide _).
  - rewrite H2. reflexivity.
  - destruct H2 as [msg ->]. eauto.
Qed.

(** *** Prices *)

Lemma lstrip_In (c : N) (s : pystr) : In c (lstrip s) -> In c s.
Proof.
  induction s as [|d s IH]; cbn; [auto|].
  destruct (isspace d); cbn; auto.
Qed.

Lemma strip_In (c : N) (s : pystr) : In c (strip s) -> In c s.
Proof.
  unfold strip, rstrip. intros Hc%in_rev%lstrip_In%in_rev%lstrip_In. exact Hc.
Qed.

Lemma replace1_nil_In (old c : N) (s : pystr) : In c (replace1 old [] s) -> In c s.
Proof.
  unfold replace1. intros (d & Hd & Hc)%in_flat_map.
  destruct (d =? old)%N; cbn in Hc; [tauto|]. destruct Hc as [<-|[]]. exact Hd.
Qed.

Lemma lstrip_ascii_In (c : N) (s : pystr) : In c (PyFloat.lstrip_ascii s) -> In c s.
Proof.
  induction s as [|d s IH]; cbn; [auto|].
  destruct (PyFloat.is_ascii_space d); cbn; auto.
Qed.

Lemma strip_ascii_In (c : N) (s : pystr) : In c (PyFloat.strip_ascii s) -> In c s.
Proof.
  unfold PyFloat.strip_ascii.
  intros Hc%in_rev%lstrip_ascii_In%in_rev%lstrip_ascii_In. exact Hc.
Qed.

(** Bringing a text to ASCII puts in spaces, digits and a question mark
    only, so it brings in no minus sign. *)
Lemma transform_minus (decimal : N -> option N) (s : pystr) :
  In PyFloat.minus (PyFloat.transform decimal s) -> In PyFloat.minus s.
Proof.
  unfold PyFloat.minus.
  induction s as [|c s IH]; cbn [PyFloat.transform]; [auto|].
  destruct (c <? 127)%N.
  { intros [->|Hc]; [left; reflexivity|right; auto]. }
  destruct (isspace c).
  { intros [Hc|Hc]; [discriminate Hc|right; auto]. }
  destruct (decimal c) as [d|].
  - intros [Hc|Hc]; [lia|right; auto].
  - intros [Hc|[]]. discriminate Hc.
Qed.

Lemma to_ascii_minus (decimal : N -> option N) (s : pystr) :
  In PyFloat.minus (PyFloat.to_ascii decimal s) -> In PyFloat.minus s.
Proof.
  unfold PyFloat.to_ascii. destruct (forallb _ s); [auto|apply transform_minus].
Qed.

Lemma sign_without_minus (s : pystr) : ~ In PyFloat.minus s -> (PyFloat.sign s).1 = false.
Proof.
  destruct s as [|c s]; [reflexivity|]. cbn. intros Hc.
  destruct (N.eqb_spec c PyFloat.minus) as [->|_]; [tauto|].
  destruct (c =? PyFloat.plus)%N; reflexivity.
Qed.

Lemma absfloat_nonneg (s : pystr) (f : pyfloat) :
  PyFloat.absfloat false s = Some f -> f <> FNan -> PyFloat.nonneg f = true.
Proof.
  unfold PyFloat.absfloat. cbn zeta.
  destruct (decide _); [intros [= <-]; reflexivity|].
  destruct (decide _); [intros [= <-]; congruence|].
  destruct (PyFloat.number s) as [[[ip fp] r]|]; [|discriminate].
  destruct (PyFloat.exponent r) as [e|]; [|discriminate].
  unfold PyFloat.finite. intros [= <-] _.
  destruct (PyFloat.overflows _ _); [reflexivity|].
  destruct (PyFloat.underflows _ _); reflexivity.
Qed.

(** A price text without a minus sign reads as a number that is not
    negative, or as NaN. *)
Lemma parse_price_nonneg (raw_price : pystr) (f : pyfloat) :
  parse_price raw_price = Ok f ->
  ~ In PyFloat.minus raw_price ->
  f <> FNan ->
  PyFloat.nonneg f = true.
Proof.
  unfold parse_price, PyFloat.of_str. intros E Hminus Hnan.
  pose proof (sign_without_minus
                (PyFloat.strip_ascii
                   (PyFloat.to_ascii unicode_decimal
                      (strip (replace1 a_circumflex [] (replace1 pound [] raw_price))))))
    as Hsign.
  destruct (PyFloat.sign _) as [neg r]. cbn [fst] in Hsign.
  rewrite Hsign in E.
  2: { intros Hc%strip_ascii_In%to_ascii_minus%strip_In%replace1_nil_In%replace1_nil_In.
       auto. }
  destruct (PyFloat.absfloat false r) as [f'|] eqn:Ef; [|discriminate].
  injection E as <-. eapply absfloat_nonneg; eauto.
Qed.

Lemma filter_app_bool {A} (f : A -> bool) (l1 l2 : list A) :
  List.filter f (l1 ++ l2) = List.filter f l1 ++ List.filter f l2.
Proof.
  induction l1 as [|x l1 IH]; cbn; [reflexivity|].
  destruct (f x); cbn; congruence.
Qed.

(** C5, as the program has it.  The price text of a pound sign and 51.77
    reads as the decimal 51.77, with or without the stray A-circumflex in
    front.  A price text reads as a number that is not negative whenever it
    holds no minus sign and does not spell NaN.  A block whose price text
    cannot be read as a number is skipped alone: the loop over the blocks
    does not raise and appends the records of all the other readable
    blocks of the page. *)
Theorem price_parsing :
  parse_price (pound :: str "51.77") = Ok (FDec false 5177 (-2))
  /\ parse_price (a_circumflex :: pound :: str "51.77") = Ok (FDec false 5177 (-2))
  /\ PyFloat.value (FDec false 5177 (-2)) = Some (5177 # 100)
  /\ (forall raw_price f,
        parse_price raw_price = Ok f ->
        ~ In PyFloat.minus raw_price ->
        f <> FNan ->
        PyFloat.nonneg f = true)
  /\ (forall page_num before bad after price_text e (s : state),
        pod_price_color bad = Some price_text ->
        parse_price (strip price_text) = Raise e ->
        exists w t book_data,
          for_each (before ++ bad :: after) (scrape_book page_num) s
          = (Ok tt, with_books (extend s w t) book_data)
          /\ Forall2 produced (List.filter summary_ok (before ++ after)) book_data).
Proof.
  split; [vm_compute; reflexivity|].
  split; [vm_compute; reflexivity|].
  split; [vm_compute; reflexivity|].
  split; [exact parse_price_nonneg|].
  intros page_num before bad after price_text e s Hprice Hparse.
  destruct (scrape_books_returns page_num (before ++ bad :: after) s)
    as (w & t & recs & E & _ & Hrecs).
  exists w, t, recs. split; [exact E|].
  rewrite filter_app_bool in Hrecs |- *. cbn [List.filter] in Hrecs.
  replace (summary_ok bad) with false in Hrecs; [exact Hrecs|].
  unfold summary_ok, summary_of.
  destruct (h3_a_attr bad "title" a_title); [|reflexivity].
  rewrite Hprice. cbn [text_of]. rewrite Hparse. reflexivity.
Qed.

(** *** Detail pages *)

Lemma summary_of_keys (book : product_pod) (summary : record) :
  summary_of book = Ok summary -> Dict.keys summary = summary_keys.
Proof.
  unfold summary_of.
  destruct (h3_a_attr book "title" a_title); [|discriminate].
  destruct (text_of (pod_price_color book)); [|discriminate].
  destruct (parse_price _); [|discriminate].
  destruct (text_of (pod_availability book)); [|discriminate].
  destruct (rating_of book); [|discriminate].
  destruct (h3_a_attr book "href" a_href); [|discriminate].
  destruct (urljoin _ _); [|discriminate].
  intros [= <-]. reflexivity.
Qed.

Lemma th_value_missing (product_page : product_page) (label : string) :
  pp_th product_page (str label) = None
  \/ pp_th product_page (str label) = Some None ->
  exists e, th_value product_page label = Raise e.
Proof. unfold th_value. intros [->| ->]; eauto. Qed.

(** A detail page with its container but without one of the four labelled
    rows, or without the value cell next to one, makes the extraction
    raise. *)
Lemma extract_details_missing_row (markup : pystr) (soup : soup)
    (product_page : product_page) (label : string) :
  BeautifulSoup markup = Ok soup ->
  find_product_page soup = Some product_page ->
  In label detail_labels ->
  pp_th product_page (str label) = None
  \/ pp_th product_page (str label) = Some None ->
  exists e, extract_details markup = Raise e.
Proof.
  intros Hsoup Hpage Hlabel Hmissing. unfold extract_details.
  rewrite Hsoup, Hpage.
  destruct (description_of product_page); [|eauto].
  apply th_value_missing in Hmissing as [e He].
  destruct Hlabel as [<-|[<-|[<-|[<-|[]]]]]; rewrite He;
    repeat match goal with
           | |- context [match th_value product_page ?l with _ => _ end] =>
               destruct (th_value product_page l); [|solve [eauto]]
           end; eauto.
Qed.

(** *** The structured-document writer *)

Lemma join_cons (sep x : pystr) (l : list pystr) :
  join sep (x :: l) = x ++ concat (map (fun y => sep ++ y) l).
Proof.
  revert x. induction l as [|y l IH]; intros x.
  - cbn. rewrite app_nil_r. reflexivity.
  - change (join sep (x :: y :: l)) with (x ++ sep ++ join sep (y :: l)).
    rewrite IH. cbn [map concat]. rewrite <- app_assoc. reflexivity.
Qed.

(** *** Strings of the document *)

Ltac by_character c :=
  destruct c as [|c]; [reflexivity|];
  do 7 (try (destruct c as [c|c|]; try reflexivity)).

(** The encoder escapes a character the way the grammar has it. *)
Lemma encode_char_spec_char (c : N) :
  (if Json.needs_escape c then Json.escape_char c else [c]) = Json.spec_char c.
Proof.
  destruct (N.ltb_spec c 128) as [Hc|Hc].
  - revert Hc. by_character c; lia.
  - unfold Json.needs_escape, Json.spec_char, Json.two_char_escapes,
      Json.backslash, Json.quote.
    cbn [List.find fst snd].
    repeat match goal with
           | |- context [(?a =? c)%N] =>
               destruct (N.eqb_spec a c); [lia|]
           | |- context [(c =? ?a)%N] =>
               destruct (N.eqb_spec c a); [lia|]
           end.
    destruct (N.ltb_spec c 32); [lia|]. reflexivity.
Qed.

Lemma encode_basestring_spec_string (s : pystr) :
  Json.encode_basestring s = Json.spec_string s.
Proof.
  unfold Json.encode_basestring, Json.spec_string. do 2 f_equal.
  induction s as [|c s IH]; [reflexivity|].
  cbn [flat_map]. rewrite IH, encode_char_spec_char. reflexivity.
Qed.

(** A reader of JSON gets a character back from what stands for it. *)
Lemma decode_spec_char (c : N) (r : pystr) :
  Json.decode_chars (Json.spec_char c ++ r)
  = option_map (cons c) (Json.decode_chars r).
Proof.
  destruct (N.ltb_spec c 128) as [Hc|Hc].
  - revert Hc. by_character c; lia.
  - unfold Json.spec_char, Json.two_char_escapes. cbn [List.find fst snd].
    repeat match goal with
           | |- context [(?a =? c)%N] =>
               destruct (N.eqb_spec a c); [lia|]
           end.
    destruct (N.ltb_spec c 32); [lia|].
    cbn [app Json.decode_chars]. unfold Json.quote, Json.backslash.
    destruct (N.eqb_spec c 34); [lia|]. destruct (N.eqb_spec c 92); [lia|].
    destruct (N.ltb_spec c 32); [lia|]. reflexivity.
Qed.

Lemma decode_spec_chars (s : pystr) :
  Json.decode_chars (flat_map Json.spec_char s ++ [Json.quote]) = Some s.
Proof.
  induction s as [|c s IH]; [reflexivity|].
  cbn [flat_map]. rewrite <- app_assoc, decode_spec_char, IH. reflexivity.
Qed.

Lemma decode_spec_string (s : pystr) :
  Json.decode_string (Json.spec_string s) = Some s.
Proof. unfold Json.spec_string. cbn. apply decode_spec_chars. Qed.

(** A text without control characters, double quotes and backslashes is
    written between the quotes as it is. *)
Lemma spec_string_plain (s : pystr) :
  Forall (fun c => (32 <= c)%N /\ c <> Json.quote /\ c <> Json.backslash) s ->
  Json.spec_string s = [Json.quote] ++ s ++ [Json.quote].
Proof.
  unfold Json.spec_string. intros Hs. do 2 f_equal.
  induction Hs as [|c s (Hc & Hq & Hb) _ IH]; [reflexivity|].
  cbn [flat_map]. rewrite IH. change (c :: s) with ([c] ++ s). f_equal.
  rewrite <- encode_char_spec_char. unfold Json.needs_escape.
  destruct (N.ltb_spec c 32); [lia|].
  destruct (N.eqb_spec c Json.backslash); [contradiction|].
  destruct (N.eqb_spec c Json.quote); [contradiction|]. reflexivity.
Qed.

Section JsonDocument.

Variable repr : pyfloat -> pystr.

Local Abbreviation member := (Json.member repr).

Lemma encode_value_spec_value (v : pyvalue) :
  Json.encode_value repr v = Json.spec_value repr v.
Proof.
  destruct v as [s|[|[]|]]; cbn; [apply encode_basestring_spec_string|..]; reflexivity.
Qed.

Lemma spec_member_member (kv : pystr * pyvalue) :
  Json.spec_member repr kv = repeat Json.space 8 ++ member kv.
Proof.
  unfold Json.spec_member, Json.member.
  rewrite encode_basestring_spec_string, encode_value_spec_value. reflexivity.
Qed.

Lemma iterencode_items_false (sep : pystr) (items : list (pystr * pyvalue)) :
  concat (Json.iterencode_items repr false sep items)
  = concat (map (fun kv => sep ++ member kv) items).
Proof.
  induction items as [|[key value] items IH]; [reflexivity|].
  cbn [Json.iterencode_items map concat]. rewrite !concat_app, IH.
  unfold Json.member. cbn [concat fst snd]. rewrite app_nil_r, <- !app_assoc. reflexivity.
Qed.

Lemma iterencode_items_true (sep : pystr) (items : list (pystr * pyvalue)) :
  concat (Json.iterencode_items repr true sep items) = join sep (map member items).
Proof.
  destruct items as [|[key value] items]; [reflexivity|].
  cbn [Json.iterencode_items map]. rewrite join_cons, !concat_app.
  rewrite iterencode_items_false, map_map.
  unfold Json.member at 2. cbn [concat fst snd]. rewrite app_nil_r, <- !app_assoc. reflexivity.
Qed.

Lemma iterencode_dict_spec_object (r : record) :
  repeat Json.space 4 ++ concat (Json.iterencode_dict repr r 1) = Json.spec_object repr r.
Proof.
  unfold Json.spec_object. f_equal.
  destruct r as [|kv r]; [reflexivity|].
  unfold Json.iterencode_dict. cbn zeta.
  change (concat ([str "{"; Json.newline_indent 2]
                  ++ Json.iterencode_items repr true
                       (Json.item_separator ++ Json.newline_indent 2) (kv :: r)
                  ++ [Json.newline_indent 1; str "}"])
          = str "{" ++ [Json.newline]
            ++ join (str "," ++ [Json.newline]) (map (Json.spec_member repr) (kv :: r))
            ++ [Json.newline] ++ repeat Json.space 4 ++ str "}").
  rewrite !concat_app, iterencode_items_true.
  cbn [concat]. rewrite app_nil_r, <- !app_assoc. f_equal.
  change (Json.newline_indent 2) with ([Json.newline] ++ repeat Json.space 8).
  change (Json.newline_indent 1) with ([Json.newline] ++ repeat Json.space 4).
  rewrite <- !app_assoc. f_equal.
  cbn [map]. rewrite !join_cons, !map_map, <- !app_assoc, app_nil_r.
  rewrite spec_member_member, <- !app_assoc. do 2 f_equal.
  f_equal. f_equal. apply map_ext. intros kv'. rewrite spec_member_member.
  unfold Json.item_separator. rewrite <- !app_assoc. reflexivity.
Qed.

Lemma iterencode_values_sep (sep : pystr) (lst : list record) :
  concat (Json.iterencode_values repr sep sep 1 lst)
  = concat (map (fun r => sep ++ concat (Json.iterencode_dict repr r 1)) lst).
Proof.
  induction lst as [|r lst IH]; [reflexivity|].
  cbn [Json.iterencode_values map concat]. rewrite concat_app, IH.
  rewrite <- app_assoc. reflexivity.
Qed.

(** The chunks [json.dump] writes, put end to end, are the document the
    specification describes. *)
Lemma iterencode_spec_document (books : list record) :
  concat (Json.iterencode repr books) = Json.spec_document repr books.
Proof.
  unfold Json.iterencode, Json.iterencode_list, Json.spec_document.
  destruct books as [|r books]; [reflexivity|]. cbn zeta.
  rewrite concat_app. cbn [Json.iterencode_values concat].
  rewrite concat_app, iterencode_values_sep.
  change (Json.newline_indent (Init.Nat.pred 1)) with [Json.newline].
  change (Json.newline_indent 1) with ([Json.newline] ++ repeat Json.space 4).
  assert (Hrest :
    concat (map (fun r => (Json.item_separator ++ [Json.newline] ++ repeat Json.space 4)
                          ++ concat (Json.iterencode_dict repr r 1)) books)
    = concat (map (fun x => (str "," ++ [Json.newline]) ++ Json.spec_object repr x) books)).
  { f_equal. apply map_ext. intros r'.
    rewrite <- iterencode_dict_spec_object. unfold Json.item_separator.
    rewrite <- !app_assoc. reflexivity. }
  rewrite Hrest. cbn [map]. rewrite join_cons, map_map.
  rewrite <- iterencode_dict_spec_object, app_nil_r, <- !app_assoc. reflexivity.
Qed.

End JsonDocument.

Lemma iterencode_document (books : list record) :
  concat (Json.iterencode float_repr books) = Json.spec_document float_repr books.
Proof. apply iterencode_spec_document. Qed.

(** *** Parts of a text *)

Lemma occurs_in_refl (s : pystr) : occurs_in s s.
Proof. exists [], []. rewrite app_nil_r. reflexivity. Qed.

Lemma occurs_in_app_l (part whole before : pystr) :
  occurs_in part whole -> occurs_in part (before ++ whole).
Proof.
  intros (b & a & ->). exists (before ++ b), a. rewrite <- app_assoc. reflexivity.
Qed.

Lemma occurs_in_app_r (part whole after : pystr) :
  occurs_in part whole -> occurs_in part (whole ++ after).
Proof.
  intros (b & a & ->). exists b, (a ++ after). rewrite <- !app_assoc. reflexivity.
Qed.

Lemma occurs_in_trans (a b c : pystr) :
  occurs_in a b -> occurs_in b c -> occurs_in a c.
Proof.
  intros Hab (pre & post & ->). apply occurs_in_app_l, occurs_in_app_r, Hab.
Qed.

Lemma join_occurs (sep x : pystr) (l : list pystr) :
  In x l -> occurs_in x (join sep l).
Proof.
  induction l as [|y l IH]; [intros []|].
  intros [->|Hin].
  - rewrite join_cons. apply occurs_in_app_r, occurs_in_refl.
  - destruct l as [|z l]; [destruct Hin|].
    change (join sep (y :: z :: l)) with (y ++ sep ++ join sep (z :: l)).
    apply occurs_in_app_l, occurs_in_app_l, IH, Hin.
Qed.

(** Every field of every record has its member in the document. *)
Lemma spec_document_member (repr : pyfloat -> pystr) (books : list record)
    (r : record) (key : pystr) (value : pyvalue) :
  In r books -> In (key, value) r ->
  occurs_in (Json.spec_string key ++ str ": " ++ Json.spec_value repr value)
            (Json.spec_document repr books).
Proof.
  intros Hr Hkv.
  apply occurs_in_trans with (Json.spec_member repr (key, value)).
  { unfold Json.spec_member. apply occurs_in_app_l, occurs_in_refl. }
  apply occurs_in_trans with (Json.spec_object repr r).
  { unfold Json.spec_object. destruct r as [|kv r]; [destruct Hkv|].
    apply occurs_in_app_l, occurs_in_app_l, occurs_in_app_l, occurs_in_app_r.
    apply join_occurs, in_map, Hkv. }
  unfold Json.spec_document. destruct books as [|r0 books]; [destruct Hr|].
  apply occurs_in_app_l, occurs_in_app_l, occurs_in_app_r.
  apply join_occurs, in_map, Hr.
Qed.

(** Every record of the result set has its object in the document. *)
Lemma spec_document_object (repr : pyfloat -> pystr) (books : list record)
    (r : record) :
  In r books -> occurs_in (Json.spec_object repr r) (Json.spec_document repr books).
Proof.
  intros Hr. unfold Json.spec_document. destruct books as [|r0 books]; [destruct Hr|].
  apply occurs_in_app_l, occurs_in_app_l, occurs_in_app_r.
  apply join_occurs, in_map, Hr.
Qed.

(** [save_to_json] writes every record that is in the result set when it
    is called, provided it can open its file. *)
Lemma save_to_json_record (s : state) (w : W) (r : record) :
  In r (all_books s) ->
  open_w json_path (world s) = (Ok tt, w) ->
  exists s' text,
    save_to_json s = (Ok tt, s')
    /\ files s' !! json_path = Some text
    /\ occurs_in (Json.spec_object float_repr r) text.
Proof.
  intros Hr Hopen. pose proof (save_to_json_cases s) as E. cbn zeta in E.
  rewrite Hopen, iterencode_document in E.
  eexists _, _. split; [exact E|]. split; [apply lookup_with_file|].
  apply spec_document_object, Hr.
Qed.

(** C7, as the program has it.  [scrape_book_details] never raises and
    leaves the result set and the output files alone.  When a driver call,
    the parser or a lookup raises (and a missing labelled row or value
    cell makes a lookup raise), it logs the URL and the exception, at level
    ERROR, and returns [None].  When the page has no detail container it
    returns [None] too, and logs nothing.  In every case where it returns
    [None], a block whose summary could be read is appended to the result
    set with its five summary fields and no other, and [save_to_json],
    called on a result set that has this record and with a file it can
    open, writes the object of these five fields. *)
Theorem scrape_book_details_soft (book_url : pystr) (s : state) :
  exists details s',
    scrape_book_details book_url s = (Ok details, s')
    /\ all_books s' = all_books s
    /\ files s' = files s
    /\ log_file s' = log_file s ++ logged (new_events s s')
    /\ match navigate book_url (str "product_page") (world s) with
       | (Raise e, _, t) =>
           details = None
           /\ new_events s s' = t ++ [Log (LogDetailsFailed book_url e)]
           /\ level_of (LogDetailsFailed book_url e) = ERROR
       | (Ok markup, _, t) =>
           match extract_details markup with
           | Raise e =>
               details = None
               /\ new_events s s' = t ++ [Log (LogDetailsFailed book_url e)]
               /\ level_of (LogDetailsFailed book_url e) = ERROR
           | Ok extracted =>
               details = extracted /\ new_events s s' = t
           end
           /\ (forall soup,
                 BeautifulSoup markup = Ok soup ->
                 find_product_page soup = None ->
                 details = None /\ new_events s s' = t)
           /\ (forall soup product_page label,
                 BeautifulSoup markup = Ok soup ->
                 find_product_page soup = Some product_page ->
                 In label detail_labels ->
                 pp_th product_page (str label) = None
                 \/ pp_th product_page (str label) = Some None ->
                 exists e,
                   details = None
                   /\ new_events s s' = t ++ [Log (LogDetailsFailed book_url e)])
       end
    /\ (forall page_num book summary,
          summary_of book = Ok summary ->
          link_of summary = book_url ->
          details = None ->
          scrape_book page_num book s = (Ok tt, with_books s' [summary])
          /\ Dict.keys summary = summary_keys
          /\ forall later w,
               In summary (all_books later) ->
               open_w json_path (world later) = (Ok tt, w) ->
               exists saved text,
                 save_to_json later = (Ok tt, saved)
                 /\ files saved !! json_path = Some text
                 /\ occurs_in (Json.spec_object float_repr summary) text).
Proof.
  pose proof (scrape_book_details_navigate book_url s) as E.
  assert (Happend : forall details s' page_num book summary,
            scrape_book_details book_url s = (Ok details, s') ->
            summary_of book = Ok summary ->
            link_of summary = book_url ->
            details = None ->
            scrape_book page_num book s = (Ok tt, with_books s' [summary])
            /\ Dict.keys summary = summary_keys
            /\ forall later w,
                 In summary (all_books later) ->
                 open_w json_path (world later) = (Ok tt, w) ->
                 exists saved text,
                   save_to_json later = (Ok tt, saved)
                   /\ files saved !! json_path = Some text
                   /\ occurs_in (Json.spec_object float_repr summary) text).
  { intros details s' page_num book summary E' Hsum Hlink ->.
    split; [|split; [eapply summary_of_keys; eauto|]].
    - unfold scrape_book. unfold try_except. unfold bind at 1. unfold of_res.
      rewrite Hsum. unfold bind at 1. rewrite Hlink, E'. reflexivity.
    - intros later w Hin Hopen. eapply save_to_json_record; eauto. }
  destruct (navigate book_url (str "product_page") (world s)) as [[[markup|e] w] t].
  - assert (Hcase : exists details s',
              scrape_book_details book_url s = (Ok details, s')
              /\ all_books s' = all_books s /\ files s' = files s
              /\ log_file s' = log_file s ++ logged (new_events s s')
              /\ match extract_details markup with
                 | Raise e =>
                     details = None
                     /\ new_events s s' = t ++ [Log (LogDetailsFailed book_url e)]
                     /\ level_of (LogDetailsFailed book_url e) = ERROR
                 | Ok extracted => details = extracted /\ new_events s s' = t
                 end).
    { destruct (extract_details markup) as [extracted|e];
        eexists _, _; (split; [exact E|]); (split; [reflexivity|]);
        (split; [reflexivity|]); (split; [apply log_file_extend|]);
        (split; [reflexivity|]);
        [|split; [|reflexivity]]; apply new_events_app; reflexivity. }
    destruct Hcase as (details & s' & E' & Hb & Hf & Hl & Hcase).
    exists details, s'. split; [exact E'|]. split; [exact Hb|]. split; [exact Hf|].
    split; [exact Hl|].
    split; [split; [exact Hcase|split]|].
    + intros soup Hsoup Hpage. unfold extract_details in Hcase.
      rewrite Hsoup, Hpage in Hcase. exact Hcase.
    + intros soup product_page label Hsoup Hpage Hlabel Hmissing.
      destruct (extract_details_missing_row _ _ _ _ Hsoup Hpage Hlabel Hmissing)
        as [e He].
      rewrite He in Hcase. destruct Hcase as (Hd & Hn & _). eauto.
    + intros page_num book summary. apply Happend. exact E'.
  - eexists _, _. split; [exact E|]. split; [reflexivity|]. split; [reflexivity|].
    split; [apply log_file_extend|].
    split; [split; [reflexivity|split; [apply new_events_app; reflexivity|reflexivity]]|].
    intros page_num book summary. apply Happend. exact E.
Qed.

(** C9.  When the output file can be opened, [save_to_json] does not
    raise and leaves in it the whole result set as one document: an array
    with one object per record and one member per field of that record,
    whichever fields it has, every level indented by four more spaces.  An
    empty result set gives the two characters of the empty array.  Every
    field of every record is in the document, as the string literal of its
    key, a colon and its value: a number as Python prints it, or the
    string literal of a text.  A reader of JSON gets from a string literal
    the text it was written for, and a character from U+0080 up is written
    in it as it is. *)
Theorem save_to_json_document (s : state) (w : W) :
  open_w json_path (world s) = (Ok tt, w) ->
  exists s' text,
    save_to_json s = (Ok tt, s')
    /\ files s' !! json_path = Some text
    /\ text = Json.spec_document float_repr (all_books s)
    /\ (all_books s = [] -> text = str "[]")
    /\ (forall r key value,
          In r (all_books s) -> In (key, value) r ->
          occurs_in (Json.spec_string key ++ str ": "
                     ++ Json.spec_value float_repr value) text)
    /\ new_events s s'
       = [EnterSaveToJson (all_books s); OpenW json_path; Log (LogSaved json_path)]
    /\ (forall t, Json.decode_string (Json.spec_string t) = Some t)
    /\ (forall t,
          Forall (fun c => (128 <= c)%N) t ->
          Json.spec_string t = [Json.quote] ++ t ++ [Json.quote]).
Proof.
  intros Hopen. pose proof (save_to_json_cases s) as E. cbn zeta in E.
  rewrite Hopen, iterencode_document in E.
  eexists _, _. split; [exact E|]. split; [apply lookup_with_file|].
  split; [reflexivity|].
  split; [intros ->; reflexivity|].
  split; [intros r key value; apply spec_document_member|].
  split; [apply new_events_app; reflexivity|].
  split; [exact decode_spec_string|].
  intros t Ht. apply spec_string_plain.
  eapply Forall_impl; [exact Ht|]. unfold Json.quote, Json.backslash.
  intros c Hc. cbn beta in Hc. lia.
Qed.

End Properties.

(** ** The claims on the small site *)

Ltac find_event := vm_compute; repeat first [left; reflexivity | right].

Ltac same_state :=
  apply state_eq; cbn;
  unfold logged; rewrite ?flat_map_app; cbn [flat_map app];
  rewrite ?app_nil_r, <- ?app_assoc; cbn [app];
  first [reflexivity | apply insert_insert_eq | auto].

Ltac no_such_event H :=
  vm_compute in H; repeat (destruct H as [H|H]; [discriminate H|]); destruct H.

(** C1, against the claim as written: on a machine without the lxml
    parser the first page is fetched, the parser raises, and the run ends
    without entering either writer; the driver is released all the same. *)
Lemma run_skips_writers_when_scraping_raises :
  (forall books,
     ~ In (EnterSaveToCsv books)
          (trace (@run Sample.env_without_lxml 1 1 Sample.start_without_lxml).2))
  /\ (forall books,
       ~ In (EnterSaveToJson books)
            (trace (@run Sample.env_without_lxml 1 1 Sample.start_without_lxml).2))
  /\ In DriverQuit
        (trace (@run Sample.env_without_lxml 1 1 Sample.start_without_lxml).2).
Proof.
  split; [intros books Hin; no_such_event Hin|].
  split; [intros books Hin; no_such_event Hin|].
  find_event.
Qed.


(** C3, against the claim as written.  With nothing scraped, the output
    file an earlier run left is emptied, not left unchanged.  And where the
    output file cannot be opened, no warning is logged: the one log record
    is an error. *)
Lemma save_to_csv_truncates_existing_file :
  (all_books Sample.after_earlier_run = []
   /\ files Sample.after_earlier_run !! csv_path
      = Some (str "title,price" ++ [13; 10]%N)
   /\ files (@save_to_csv Sample.env Sample.after_earlier_run).2 !! csv_path = Some []
   /\ files (@save_to_csv Sample.env Sample.after_earlier_run).2 !! csv_path
      <> files Sample.after_earlier_run !! csv_path)
  /\ (all_books Sample.start_read_only = []
      /\ logged (trace (@save_to_csv Sample.env_read_only Sample.start_read_only).2)
         = [LogCsvFailed Sample.permission_denied]
      /\ level_of (LogCsvFailed Sample.permission_denied) <> WARNING).
Proof.
  split.
  - split; [reflexivity|].
    split; [vm_compute; reflexivity|].
    split; [vm_compute; reflexivity|].
    vm_compute. discriminate.
  - split; [reflexivity|].
    split; [vm_compute; reflexivity|].
    discriminate.
Qed.

(** C3 on the small site: the output file of the earlier run ends up
    empty, and the log file has the warning as its only record. *)
Lemma save_to_csv_empty_witness :
  all_books Sample.after_earlier_run = []
  /\ exists s',
       @save_to_csv Sample.env Sample.after_earlier_run = (Ok tt, s')
       /\ all_books s' = []
       /\ files s' !! csv_path = Some []
       /\ new_events Sample.after_earlier_run s'
          = [EnterSaveToCsv []; OpenW csv_path; Log LogNoCsvData]
       /\ log_file s' = [LogNoCsvData].
Proof.
  split; [reflexivity|].
  destruct (@save_to_csv_empty Sample.env Sample.after_earlier_run eq_refl)
    as (s' & E & Hbooks & Hfile & Hnew & Hlog & _).
  exists s'. auto.
Defined.

(** C4.  The tabular writer on the result set of page 5 of the small
    site: a first record without detail fields, then a record with them.
    The claim has a row for each of the two records, the second without its
    detail fields.  The program writes the header and the row of the first
    record; then [DictWriter.writerows] raises [ValueError] at the second
    record, which is logged as a failed save, and the second record has no
    row at all.  The other writer, [save_to_json], does write both records
    of the same result set. *)
Lemma save_to_csv_stops_at_extra_fields :
  length (all_books Sample.scraped_page_5) = 2%nat
  /\ (exists first second,
        all_books Sample.scraped_page_5 = [first; second]
        /\ Dict.keys first = summary_keys
        /\ Dict.keys second
           = summary_keys ++ [str "description"; str "upc"; str "product_type";
                              str "tax"; str "reviews"]
        /\ files (@save_to_csv Sample.env Sample.scraped_page_5).2 !! csv_path
           = Some (Sample.writerow (map VStr (Dict.keys first))
                   ++ Sample.writerow (row_of (Dict.keys first) first))
        /\ @csv_dropping_extras Sample.env (all_books Sample.scraped_page_5)
           = Sample.writerow (map VStr (Dict.keys first))
             ++ Sample.writerow (row_of (Dict.keys first) first)
             ++ Sample.writerow (row_of (Dict.keys first) second))
  /\ files (@save_to_csv Sample.env Sample.scraped_page_5).2 !! csv_path
     <> Some (@csv_dropping_extras Sample.env (all_books Sample.scraped_page_5))
  /\ (exists msg,
        logged (new_events Sample.scraped_page_5
                  (@save_to_csv Sample.env Sample.scraped_page_5).2)
        = [LogCsvFailed (ValueError msg)])
  /\ files (@save_to_json Sample.env Sample.scraped_page_5).2 !! json_path
     = Some (Json.spec_document Sample.repr (all_books Sample.scraped_page_5)).
Proof.
  split; [vm_compute; reflexivity|].
  split.
  { exists Sample.summary_c,
           (Dict.update
              [(str "title", VStr (str "A Light in the Attic"));
               (str "price", VFloat (FDec false 5177 (-2)));
               (str "availability", VStr (str "In stock"));
               (str "rating", VStr (str "Three"));
               (str "url", VStr Sample.detail_a)]
              [(str "description", VStr (str "A book of poems."));
               (str "upc", VStr (str "a897fe39b1053632"));
               (str "product_type", VStr (str "Books"));
               (str "tax", VStr (pound :: str "0.00"));
               (str "reviews", VStr (str "0"))]).
    repeat split; vm_compute; reflexivity. }
  split; [vm_compute; discriminate|].
  split; [eexists; vm_compute; reflexivity|].
  vm_compute. reflexivity.
Qed.

(** On the small site: the result set of page 5. *)
Lemma save_to_csv_rows_witness :
  exists first second s' msg,
    all_books Sample.scraped_page_5 = [first; second]
    /\ @save_to_csv Sample.env Sample.scraped_page_5 = (Ok tt, s')
    /\ fitting_prefix (Dict.keys first) [first; second] = [first]
    /\ new_events Sample.scraped_page_5 s'
       = [EnterSaveToCsv [first; second]; OpenW csv_path;
          Log (LogCsvFailed (ValueError msg))].
Proof.
  assert (Hbooks : all_books Sample.scraped_page_5
                   = [Sample.summary_c;
                      Dict.update
                        [(str "title", VStr (str "A Light in the Attic"));
                         (str "price", VFloat (FDec false 5177 (-2)));
                         (str "availability", VStr (str "In stock"));
                         (str "rating", VStr (str "Three"));
                         (str "url", VStr Sample.detail_a)]
                        [(str "description", VStr (str "A book of poems."));
                         (str "upc", VStr (str "a897fe39b1053632"));
                         (str "product_type", VStr (str "Books"));
                         (str "tax", VStr (pound :: str "0.00"));
                         (str "reviews", VStr (str "0"))]])
    by (vm_compute; reflexivity).
  destruct (@save_to_csv_rows Sample.env Sample.scraped_page_5 _ _
              (world Sample.scraped_page_5) Hbooks eq_refl)
    as (s' & l & more & E & Hwritten & _ & Hnew & Hlog).
  assert (Hprefix : fitting_prefix (Dict.keys Sample.summary_c)
                      [Sample.summary_c;
                       Dict.update
                         [(str "title", VStr (str "A Light in the Attic"));
                          (str "price", VFloat (FDec false 5177 (-2)));
                          (str "availability", VStr (str "In stock"));
                          (str "rating", VStr (str "Three"));
                          (str "url", VStr Sample.detail_a)]
                         [(str "description", VStr (str "A book of poems."));
                          (str "upc", VStr (str "a897fe39b1053632"));
                          (str "product_type", VStr (str "Books"));
                          (str "tax", VStr (pound :: str "0.00"));
                          (str "reviews", VStr (str "0"))]]
                    = [Sample.summary_c])
    by (vm_compute; reflexivity).
  rewrite Hprefix in Hlog. cbn [length] in Hlog.
  rewrite decide_False in Hlog by discriminate.
  destruct Hlog as [msg ->].
  eexists _, _, s', msg. split; [exact Hbooks|]. split; [exact E|].
  split; [exact Hprefix|]. exact Hnew.
Defined.

(** C5, against the claim as written: a price text with a minus sign is
    read, and the price is negative; the block is kept. *)
Lemma negative_price_is_parsed :
  @parse_price Sample.env (pound :: str "-1.00") = Ok (FDec true 100 (-2))
  /\ PyFloat.nonneg (FDec true 100 (-2)) = false
  /\ PyFloat.value (FDec true 100 (-2)) = Some (-100 # 100)
  /\ @summary_ok Sample.env Sample.pod_d = true.
Proof. repeat split; vm_compute; reflexivity. Qed.

(** C5 on the small site: the price of the first block of page 1 is not
    negative, and the second block of page 1, whose price text is no
    number, is skipped alone.  A price written in Arabic-Indic digits, one
    two point five after the pound sign, is read as 12.5: [float] takes
    every decimal digit of Unicode. *)
Lemma price_parsing_witness :
  PyFloat.nonneg (FDec false 5177 (-2)) = true
  /\ @parse_price Sample.env [pound; 1633; 1634; 46; 1637]%N = Ok (FDec false 125 (-1))
  /\ exists w t book_data,
       for_each ([Sample.pod_a] ++ Sample.pod_b :: [Sample.pod_c])
                (@scrape_book Sample.env 1) Sample.start
       = (Ok tt, with_books (extend Sample.start w t) book_data)
       /\ Forall2 (@produced Sample.env)
                  (List.filter (@summary_ok Sample.env) ([Sample.pod_a] ++ [Sample.pod_c]))
                  book_data.
Proof.
  destruct (@price_parsing Sample.env) as (_ & _ & _ & Hnonneg & Hskip).
  split.
  - apply (Hnonneg (pound :: str "51.77")).
    + vm_compute. reflexivity.
    + vm_compute. intros Hin.
      repeat (destruct Hin as [Hin|Hin]; [discriminate Hin|]). destruct Hin.
    + discriminate.
  - split; [vm_compute; reflexivity|].
    apply (Hskip 1 [Sample.pod_a] Sample.pod_b [Sample.pod_c]
                 (pound :: str "n/a")
                 (ValueError (PyFloat.could_not_convert (str "n/a")))).
    + reflexivity.
    + vm_compute. reflexivity.
Defined.

(** C7, against the claim as written.  The detail page of the first block
    of page 5 has no container: [scrape_book_details] returns [None] and
    logs nothing.  And a run over page 8, whose third block has such a
    detail page too, ends with the record of that block in the result set
    and in the structured document, but not in the tabular file, which
    holds the header and the row of the first block only. *)
Lemma missing_container_is_not_logged_nor_always_saved :
  ((@scrape_book_details Sample.env Sample.detail_c Sample.start).1 = Ok None
   /\ forall entry,
        ~ In (Log entry)
             (trace (@scrape_book_details Sample.env Sample.detail_c Sample.start).2))
  /\ ((@scrape_book_details Sample.env Sample.detail_e Sample.start).1 = Ok None
      /\ (exists second,
            all_books Sample.ran_page_8 = [Sample.summary_c; second; Sample.summary_e])
      /\ files Sample.ran_page_8 !! csv_path
         = Some (str "title,price,availability,rating,url" ++ [13; 10]%N
                 ++ str "Soumission,50.10,In stock,Three,"
                 ++ Sample.detail_c ++ [13; 10]%N)
      /\ files Sample.ran_page_8 !! json_path
         = Some (Json.spec_document Sample.repr (all_books Sample.ran_page_8))).
Proof.
  split.
  - split; [vm_compute; reflexivity|].
    intros entry Hin. no_such_event Hin.
  - split; [vm_compute; reflexivity|].
    split; [eexists; vm_compute; reflexivity|].
    split; vm_compute; reflexivity.
Qed.

(** C7 on the small site: the third block of page 8 is appended with its
    summary fields, and [save_to_json] writes the object of these. *)
Lemma scrape_book_details_soft_witness :
  @summary_of Sample.env Sample.pod_e = Ok Sample.summary_e
  /\ link_of Sample.summary_e = Sample.detail_e
  /\ exists s',
       @scrape_book Sample.env 8 Sample.pod_e Sample.start
       = (Ok tt, with_books s' [Sample.summary_e])
       /\ Dict.keys Sample.summary_e = summary_keys
       /\ exists saved text,
            @save_to_json Sample.env Sample.ran_page_8 = (Ok tt, saved)
            /\ files saved !! json_path = Some text
            /\ occurs_in (Json.spec_object Sample.repr Sample.summary_e) text.
Proof.
  assert (Hsum : @summary_of Sample.env Sample.pod_e = Ok Sample.summary_e)
    by (vm_compute; reflexivity).
  assert (Hlink : link_of Sample.summary_e = Sample.detail_e)
    by (vm_compute; reflexivity).
  split; [exact Hsum|]. split; [exact Hlink|].
  destruct (@scrape_book_details_soft Sample.env Sample.detail_e Sample.start)
    as (details & s' & E & _ & _ & _ & _ & Happend).
  assert (Hnone : details = None).
  { assert (Hfst : (@scrape_book_details Sample.env Sample.detail_e Sample.start).1
                   = Ok None) by (vm_compute; reflexivity).
    rewrite E in Hfst. cbn [fst] in Hfst. congruence. }
  destruct (Happend 8 Sample.pod_e Sample.summary_e Hsum Hlink Hnone)
    as (Hbook & Hkeys & Hsaved).
  exists s'. split; [exact Hbook|]. split; [exact Hkeys|].
  apply (Hsaved Sample.ran_page_8 (world Sample.ran_page_8)).
  - vm_compute. right. right. left. reflexivity.
  - reflexivity.
Defined.

(** C8 on the small site: page 1 has two blocks, the second with the
    price text "n/a"; one record is appended, that of the first block. *)
Lemma scrape_page_record_count_witness :
  @unparseable Sample.env Sample.pod_a = false
  /\ @unparseable Sample.env Sample.pod_b = true
  /\ exists ok s' details,
       @scrape_page Sample.env 1 Sample.start = (Ok ok, s')
       /\ length (all_books s') = 1%nat
       /\ all_books s'
          = [merge_details
               [(str "title", VStr (str "A Light in the Attic"));
                (str "price", VFloat (FDec false 5177 (-2)));
                (str "availability", VStr (str "In stock"));
                (str "rating", VStr (str "Three"));
                (str "url", VStr Sample.detail_a)]
               details]
       /\ details
          = Some [(str "description", VStr (str "A book of poems."));
                  (str "upc", VStr (str "a897fe39b1053632"));
                  (str "product_type", VStr (str "Books"));
                  (str "tax", VStr (pound :: str "0.00"));
                  (str "reviews", VStr (str "0"))].
Proof.
  split; [vm_compute; reflexivity|]. split; [vm_compute; reflexivity|].
  destruct (@scrape_page_record_count Sample.env 1 Sample.start
              (str "<listing 1>") (page_url_of 1) Sample.to_page_1 Sample.soup_1)
    as (ok & s' & book_data & E & Hbooks & Hfields & Hlen).
  - vm_compute. reflexivity.
  - discriminate.
  - vm_compute. reflexivity.
  - assert (Hreq : omap (@required_fields Sample.env) (select_product_pod Sample.soup_1)
                   = [[(str "title", VStr (str "A Light in the Attic"));
                       (str "price", VFloat (FDec false 5177 (-2)));
                       (str "availability", VStr (str "In stock"));
                       (str "rating", VStr (str "Three"));
                       (str "url", VStr Sample.detail_a)]])
      by (vm_compute; reflexivity).
    rewrite Hreq in Hfields.
    apply Forall2_cons_inv_l in Hfields as (b & rest & _ & Hrest & ->).
    apply Forall2_nil_inv_l in Hrest as ->.
    exists ok, s'. eexists. split; [exact E|].
    rewrite Hbooks. split; [reflexivity|].
    assert (Hrun : all_books (@scrape_page Sample.env 1 Sample.start).2
                   = [merge_details
                        [(str "title", VStr (str "A Light in the Attic"));
                         (str "price", VFloat (FDec false 5177 (-2)));
                         (str "availability", VStr (str "In stock"));
                         (str "rating", VStr (str "Three"));
                         (str "url", VStr Sample.detail_a)]
                        (Some [(str "description", VStr (str "A book of poems."));
                               (str "upc", VStr (str "a897fe39b1053632"));
                               (str "product_type", VStr (str "Books"));
                               (str "tax", VStr (pound :: str "0.00"));
                               (str "reviews", VStr (str "0"))])])
      by (vm_compute; reflexivity).
    rewrite E in Hrun. cbn [snd] in Hrun. rewrite Hbooks in Hrun.
    split; [exact Hrun|reflexivity].
Defined.

(** C9 on the small site: the result set of page 5, one record with
    detail fields and one without.  The price of the second record, 51.77,
    is in the document. *)
Lemma save_to_json_document_witness :
  exists s' text,
    @save_to_json Sample.env Sample.scraped_page_5 = (Ok tt, s')
    /\ files s' !! json_path = Some text
    /\ text = Json.spec_document Sample.repr (all_books Sample.scraped_page_5)
    /\ occurs_in ([Json.quote] ++ str "price" ++ [Json.quote] ++ str ": 51.77") text
    /\ occurs_in ([Json.quote] ++ str "title" ++ [Json.quote] ++ str ": "
                  ++ [Json.quote] ++ str "Soumission" ++ [Json.quote]) text.
Proof.
  destruct (@save_to_json_document Sample.env Sample.scraped_page_5
              (world Sample.scraped_page_5) eq_refl)
    as (s' & text & E & Hfile & Htext & _ & Hmember & _).
  exists s', text. split; [exact E|]. split; [exact Hfile|]. split; [exact Htext|].
  split.
  - apply (Hmember
             (Dict.update
                [(str "title", VStr (str "A Light in the Attic"));
                 (str "price", VFloat (FDec false 5177 (-2)));
                 (str "availability", VStr (str "In stock"));
                 (str "rating", VStr (str "Three"));
                 (str "url", VStr Sample.detail_a)]
                [(str "description", VStr (str "A book of poems."));
                 (str "upc", VStr (str "a897fe39b1053632"));
                 (str "product_type", VStr (str "Books"));
                 (str "tax", VStr (pound :: str "0.00"));
                 (str "reviews", VStr (str "0"))])
             (str "price") (VFloat (FDec false 5177 (-2)))).
    + vm_compute. right. left. reflexivity.
    + vm_compute. right. left. reflexivity.
  - apply (Hmember Sample.summary_c (str "title") (VStr (str "Soumission"))).
    + vm_compute. left. reflexivity.
    + vm_compute. left. reflexivity.
Defined.

(** C10 on the small site: the only block of page 4 has an unreadable
    price; the page still counts as scraped and the loop goes on to
    page 5. *)
Lemma scrape_page_true_without_records_witness :
  exists s',
    @scrape_page Sample.env 4 Sample.start = (Ok true, s')
    /\ all_books s' = all_books Sample.start
    /\ @scrape_pages Sample.env 2 4 Sample.start = @scrape_pages Sample.env 1 (4 + 1) s'.
Proof.
  destruct (@scrape_page_true_without_records Sample.env) as [Htrue _].
  destruct (Htrue 4 Sample.start (str "<listing 4>") (page_url_of 4)
                  Sample.to_page_4 Sample.soup_4)
    as (s' & E & Hbooks & Hnext).
  - vm_compute. reflexivity.
  - discriminate.
  - vm_compute. reflexivity.
  - discriminate.
  - exists s'. split; [exact E|]. split; [|apply Hnext].
    apply Hbooks. repeat constructor.
Defined.

(** ** Further properties of the methods *)

Section MoreProperties.

Context `{Env}.
Open Scope py_scope.

#[local] Arguments str : simpl never.

(** *** The shape of the records *)

Lemma summary_of_fields (book : product_pod) (summary : record) :
  summary_of book = Ok summary ->
  exists title price availability rating url,
    summary = summary_fields title price availability rating url.
Proof.
  unfold summary_of.
  destruct (h3_a_attr book "title" a_title); [|discriminate].
  destruct (text_of (pod_price_color book)); [|discriminate].
  destruct (parse_price _); [|discriminate].
  destruct (text_of (pod_availability book)); [|discriminate].
  destruct (rating_of book); [|discriminate].
  destruct (h3_a_attr book "href" a_href); [|discriminate].
  destruct (urljoin _ _); [|discriminate].
  intros [= <-]. eexists _, _, _, _, _. reflexivity.
Qed.

Lemma extract_details_fields (markup : pystr) (details : record) :
  extract_details markup = Ok (Some details) ->
  exists description upc product_type tax reviews,
    details = detail_fields description upc product_type tax reviews.
Proof.
  unfold extract_details.
  destruct (BeautifulSoup markup) as [soup|]; [|discriminate].
  destruct (find_product_page soup) as [pp|]; [|discriminate].
  destruct (description_of pp); [|discriminate].
  do 4 (match goal with
        | |- context [match th_value pp ?l with _ => _ end] =>
            destruct (th_value pp l); [|discriminate]
        end).
  intros [= <-]. eexists _, _, _, _, _. reflexivity.
Qed.

Lemma scrape_book_details_fields (book_url : pystr) (s s' : state)
    (details : record) :
  scrape_book_details book_url s = (Ok (Some details), s') ->
  exists description upc product_type tax reviews,
    details = detail_fields description upc product_type tax reviews.
Proof.
  rewrite scrape_book_details_navigate.
  destruct (navigate _ _ _) as [[[markup|e] w] t]; [|discriminate].
  destruct (extract_details markup) as [d|e] eqn:E; [|discriminate].
  intros [= -> _]. eapply extract_details_fields, E.
Qed.

Lemma merge_details_fields title price availability rating url
    description upc product_type tax reviews :
  merge_details (summary_fields title price availability rating url)
                (Some (detail_fields description upc product_type tax reviews))
  = summary_fields title price availability rating url
    ++ detail_fields description upc product_type tax reviews.
Proof. reflexivity. Qed.

(** One turn of the loop over the blocks appends nothing or one record of
    one of the two shapes. *)
Lemma scrape_book_record (page_num : Z) (book : product_pod) (s : state) :
  exists w t book_data,
    scrape_book page_num book s = (Ok tt, with_books (extend s w t) book_data)
    /\ Forall (fun ev => item_event ev = true) t
    /\ Forall book_record book_data.
Proof.
  unfold scrape_book. unfold try_except. unfold bind at 1. unfold of_res.
  destruct (summary_of book) as [summary|e] eqn:Hsum.
  - destruct (summary_of_fields _ _ Hsum) as (ti & pr & av & ra & ur & ->).
    unfold bind at 1.
    destruct (scrape_book_details_returns (link_of (summary_fields ti pr av ra ur)) s)
      as (details & w & t & E & Ht).
    rewrite E. exists w, t, [merge_details (summary_fields ti pr av ra ur) details].
    split; [reflexivity|]. split; [exact Ht|]. constructor; [|constructor].
    destruct details as [details|]; [|constructor].
    destruct (scrape_book_details_fields _ _ _ _ E) as (de & up & pt & ta & re & ->).
    rewrite merge_details_fields. constructor.
  - exists (world s), [Log (LogBookFailed page_num e)], [].
    rewrite with_books_nil. split; [reflexivity|]. split; repeat constructor.
Qed.

Lemma scrape_books_records (page_num : Z) (books : list product_pod) (s : state) :
  exists w t book_data,
    for_each books (scrape_book page_num) s
    = (Ok tt, with_books (extend s w t) book_data)
    /\ Forall (fun ev => item_event ev = true) t
    /\ Forall book_record book_data.
Proof.
  revert s. induction books as [|book books IH]; intros s.
  - exists (world s), [], []. cbn. unfold ret.
    rewrite extend_nil, with_books_nil. auto.
  - cbn [for_each]. unfold bind.
    destruct (scrape_book_record page_num book s) as (w & t & bd & E & Ht & Hbd).
    rewrite E.
    destruct (IH (with_books (extend s w t) bd)) as (w' & t' & bd' & E' & Ht' & Hbd').
    rewrite E', with_books_extend. exists w', (t ++ t'), (bd ++ bd').
    split; [reflexivity|]. split; apply Forall_app; auto.
Qed.

Lemma item_event_follow_event (t : list event) :
  Forall (fun ev => item_event ev = true) t ->
  Forall (fun ev => follow_event ev = true) t.
Proof.
  intros Ht. eapply Forall_impl; [exact Ht|]. intros ev Hev.
  unfold follow_event. rewrite Hev. reflexivity.
Qed.

(** What one call of [scrape_page] does, in full: it logs the page, sleeps
    once, and what follows is item processing or the line of a stop; the
    records it appends have one of the two shapes; it raises only the
    exception the parser raised on the markup of the listing page. *)
Lemma scrape_page_shape (page_num : Z) (s : state) :
  exists r w t book_data,
    scrape_page page_num s
    = (r, with_books
            (extend s w (Log (LogScrapingPage page_num (page_url_of page_num))
                         :: Sleep :: t))
            book_data)
    /\ Forall (fun ev => follow_event ev = true) t
    /\ Forall book_record book_data
    /\ (forall e, r = Raise e ->
          exists markup w0 t0,
            navigate (page_url_of page_num) (str "product_pod") (world s)
            = (Ok markup, w0, t0)
            /\ BeautifulSoup markup = Raise e).
Proof.
  pose proof (scrape_page_cases page_num s) as E. cbn zeta in E.
  pose proof (navigate_events (page_url_of page_num) (str "product_pod") (world s)) as Hnav.
  destruct (navigate _ _ _) as [[[markup|e] w] t]; cbn [snd] in Hnav.
  - destruct markup as [|c markup].
    { eexists _, w, t, []. rewrite with_books_nil. split; [exact E|].
      split; [apply item_event_follow_event, Hnav|]. split; [constructor|].
      intros e [=]. }
    destruct (BeautifulSoup (c :: markup)) as [soup|e] eqn:Hsoup.
    2: { eexists _, w, t, []. rewrite with_books_nil. split; [exact E|].
         split; [apply item_event_follow_event, Hnav|]. split; [constructor|].
         intros e' [= <-]. eauto. }
    destruct (select_product_pod soup) as [|b books].
    { exists (Ok false), w, (t ++ [Log (LogNoBooks page_num)]), [].
      rewrite with_books_nil. split; [exact E|].
      split; [|split; [constructor|intros e [=]]].
      apply Forall_app. split; [apply item_event_follow_event, Hnav|].
      repeat constructor. }
    destruct (scrape_books_records page_num (b :: books) (extend s w
               ([Log (LogScrapingPage page_num (page_url_of page_num)); Sleep] ++ t)))
      as (w' & t' & recs & E' & Ht' & Hrecs).
    rewrite E' in E. rewrite extend_extend in E.
    exists (Ok true), w', (t ++ t'), recs. split; [exact E|].
    split; [apply Forall_app; split; apply item_event_follow_event; assumption|].
    split; [exact Hrecs|intros e [=]].
  - exists (Ok false), w, (t ++ [Log (LogFetchFailed (page_url_of page_num) e)]), [].
    rewrite with_books_nil. split; [exact E|].
    split; [|split; [constructor|intros e' [=]]].
    apply Forall_app. split; [apply item_event_follow_event, Hnav|].
    repeat constructor.
Qed.

Lemma follow_event_no_page (t : list event) :
  Forall (fun ev => follow_event ev = true) t ->
  page_numbers t = [] /\ List.filter is_sleep t = [].
Proof.
  induction 1 as [|ev t Hev _ [IH1 IH2]]; [split; reflexivity|].
  unfold page_numbers in *. cbn [flat_map List.filter]. rewrite IH1, IH2.
  destruct ev as [[]| | | | | | | |]; cbn in Hev; try discriminate; split; reflexivity.
Qed.

Lemma page_numbers_app (t1 t2 : list event) :
  page_numbers (t1 ++ t2) = page_numbers t1 ++ page_numbers t2.
Proof. apply flat_map_app. Qed.

Lemma consecutive_cons (p : Z) (k : nat) :
  map (fun i => p + Z.of_nat i) (seq 0 (S k))
  = p :: map (fun i => p + 1 + Z.of_nat i) (seq 0 k).
Proof.
  cbn [seq map]. f_equal; [lia|].
  rewrite <- seq_shift, map_map. apply map_ext. intros i. lia.
Qed.

(** The loop over the page numbers, in full. *)
Lemma scrape_pages_shape (count : nat) (p : Z) (s : state) :
  exists r w t book_data k,
    scrape_pages count p s = (r, with_books (extend s w t) book_data)
    /\ (k <= count)%nat
    /\ page_numbers t = map (fun i => p + Z.of_nat i) (seq 0 k)
    /\ length (List.filter is_sleep t) = k
    /\ Forall book_record book_data
    /\ (forall e, r = Raise e -> exists markup, BeautifulSoup markup = Raise e).
Proof.
  revert p s. induction count as [|count IH]; intros p s.
  - exists (Ok tt), (world s), [], [], 0%nat. cbn. unfold ret.
    rewrite extend_nil, with_books_nil.
    split; [reflexivity|]. split; [lia|]. split; [reflexivity|].
    split; [reflexivity|]. split; [constructor|]. intros e [=].
  - cbn [scrape_pages]. unfold bind.
    destruct (scrape_page_shape p s) as (r1 & w1 & t1 & b1 & E1 & Ht1 & Hb1 & Hr1).
    rewrite E1.
    destruct (follow_event_no_page t1 Ht1) as [Hp1 Hs1].
    assert (Hpage : page_numbers (Log (LogScrapingPage p (page_url_of p)) :: Sleep :: t1)
                    = [p]).
    { change (p :: page_numbers t1 = [p]). rewrite Hp1. reflexivity. }
    assert (Hsleep : List.filter is_sleep
                       (Log (LogScrapingPage p (page_url_of p)) :: Sleep :: t1)
                     = [Sleep]).
    { cbn [List.filter is_sleep]. rewrite Hs1. reflexivity. }
    destruct r1 as [[|]|e].
    + destruct (IH (p + 1) (with_books (extend s w1
                  (Log (LogScrapingPage p (page_url_of p)) :: Sleep :: t1)) b1))
        as (r & w & t & b & k & E & Hk & Hp & Hs & Hb & Hr).
      rewrite E, with_books_extend.
      eexists r, w, _, (b1 ++ b), (S k). split; [reflexivity|].
      split; [lia|]. split.
      { rewrite page_numbers_app, Hpage, Hp, consecutive_cons. reflexivity. }
      split.
      { rewrite filter_app_bool, Hsleep, length_app, Hs. reflexivity. }
      split; [apply Forall_app; auto|exact Hr].
    + eexists (Ok tt), w1, _, b1, 1%nat. split; [reflexivity|].
      split; [lia|]. split; [rewrite Hpage; cbn; f_equal; lia|].
      split; [rewrite Hsleep; reflexivity|]. split; [exact Hb1|]. intros e [=].
    + eexists (Raise e), w1, _, b1, 1%nat. split; [reflexivity|].
      split; [lia|]. split; [rewrite Hpage; cbn; f_equal; lia|].
      split; [rewrite Hsleep; reflexivity|]. split; [exact Hb1|].
      intros e' [= <-]. destruct (Hr1 e eq_refl) as (markup & _ & _ & _ & Hm). eauto.
Qed.

(** [run] as one equation: the loop, then the writers or the log line of
    the failure, then [driver.quit()], then the closing log line. *)
Lemma run_outcome (start_page end_page : Z) (s : state) :
  run start_page end_page s
  = match scrape_multiple_pages start_page end_page
            (extend s (world s) [Log LogStarting]) with
    | (Ok _, s1) => release_and_report (save_both s1).2
    | (Raise e, s1) =>
        release_and_report (extend s1 (world s1) [Log (LogScrapingFailed e)])
    end.
Proof.
  unfold run. unfold bind at 1. unfold log at 1.
  change {| world := world s; all_books := all_books s; files := files s;
            trace := trace s ++ [Log LogStarting];
            log_file := log_file s ++ [LogStarting] |}
    with (extend s (world s) [Log LogStarting]).
  unfold bind at 1. unfold try_finally. unfold try_except. unfold bind at 1.
  destruct (scrape_multiple_pages start_page end_page _) as [[[]|e] s1].
  - destruct (writers_return s1) as (s' & l1 & l2 & E & _).
    unfold save_both. rewrite E. cbn [snd]. unfold release_and_report, call.
    destruct (driver_quit (world s')) as [[[]|e] w];
      unfold bind, get_all_books, log, emit, extend; cbn; f_equal; same_state.
  - unfold log at 1. unfold release_and_report, call.
    cbn [world all_books files trace extend].
    destruct (driver_quit (world s1)) as [[[]|e'] w];
      unfold bind, get_all_books, log, emit, extend; cbn; f_equal; same_state.
Qed.

Lemma closing_event_no_page (t : list event) :
  Forall (fun ev => closing_event ev = true) t ->
  page_numbers t = [] /\ List.filter is_sleep t = [].
Proof.
  induction 1 as [|ev t Hev _ [IH1 IH2]]; [split; reflexivity|].
  unfold page_numbers in *. cbn [flat_map List.filter]. rewrite IH1, IH2.
  destruct ev as [[]| | | | | | | |]; cbn in Hev; try discriminate; split; reflexivity.
Qed.

Lemma lookup_with_file_ne (s : state) (filepath path text : pystr) :
  path <> filepath -> files (with_file s filepath text) !! path = files s !! path.
Proof. intros Hne. cbn. apply lookup_insert_ne. congruence. Qed.

(** The two writers in a row: they return, leave the result set alone,
    are entered with it, and of the output files touch only their own. *)
Lemma save_both_outcome (s : state) :
  exists s' l1 l2,
    save_both s = (Ok tt, s')
    /\ all_books s' = all_books s
    /\ trace s' = trace s ++ [EnterSaveToCsv (all_books s); OpenW csv_path; Log l1;
                              EnterSaveToJson (all_books s); OpenW json_path; Log l2]
    /\ writer_event (Log l1) = true /\ writer_event (Log l2) = true
    /\ (forall path, path <> csv_path -> path <> json_path ->
          files s' !! path = files s !! path).
Proof.
  unfold save_both, bind.
  destruct (save_to_csv_returns s) as (w1 & l1 & text1 & Hl1 & [E1|E1]); rewrite E1;
    match goal with |- context [save_to_json ?st] =>
      destruct (save_to_json_returns st) as (w2 & l2 & text2 & Hl2 & [E2|E2]); rewrite E2
    end;
    eexists _, l1, l2; (split; [reflexivity|]); (split; [reflexivity|]);
    (split; [cbn; rewrite <- !app_assoc; reflexivity|]);
    (split; [exact Hl1|]); (split; [exact Hl2|]);
    intros path Hcsv Hjson; cbn [files with_file extend];
    rewrite ?lookup_insert_ne by congruence; reflexivity.
Qed.

(** The events and the result set of a whole run. *)
Lemma run_events (start_page end_page : Z) (s : state) :
  exists r1 w t book_data k closing,
    scrape_multiple_pages start_page end_page (extend s (world s) [Log LogStarting])
    = (r1, with_books (extend (extend s (world s) [Log LogStarting]) w t) book_data)
    /\ new_events s (run start_page end_page s).2 = Log LogStarting :: t ++ closing
    /\ Forall (fun ev => closing_event ev = true) closing
    /\ all_books (run start_page end_page s).2 = all_books s ++ book_data
    /\ (forall path, path <> csv_path -> path <> json_path ->
          files (run start_page end_page s).2 !! path = files s !! path)
    /\ (k <= Z.to_nat (end_page + 1 - start_page))%nat
    /\ page_numbers t = map (fun i => start_page + Z.of_nat i) (seq 0 k)
    /\ length (List.filter is_sleep t) = k
    /\ Forall book_record book_data
    /\ match r1 with
       | Ok _ =>
           exists more,
             closing = EnterSaveToCsv (all_books s ++ book_data)
                       :: OpenW csv_path :: more
             /\ In (EnterSaveToJson (all_books s ++ book_data)) more
             /\ forall e, ~ In (Log (LogScrapingFailed e)) closing
       | Raise e =>
           (exists markup, BeautifulSoup markup = Raise e)
           /\ (forall books, ~ In (EnterSaveToCsv books) closing)
           /\ (forall books, ~ In (EnterSaveToJson books) closing)
       end.
Proof.
  rewrite run_outcome. unfold scrape_multiple_pages.
  destruct (scrape_pages_shape (Z.to_nat (end_page + 1 - start_page)) start_page
              (extend s (world s) [Log LogStarting]))
    as (r1 & w & t & bd & k & E & Hk & Hp & Hs & Hbd & Hr).
  rewrite E. exists r1, w, t, bd, k.
  destruct r1 as [[]|e].
  - destruct (save_both_outcome
                (with_books (extend (extend s (world s) [Log LogStarting]) w t) bd))
      as (s' & l1 & l2 & Eb & Hbooks & Htrace & Hl1 & Hl2 & Hfiles).
    rewrite Eb. cbn [snd]. unfold release_and_report.
    cbn [all_books files trace with_books extend] in *.
    destruct (driver_quit (world s')) as [[[]|e] w'].
    + exists ([EnterSaveToCsv (all_books s ++ bd); OpenW csv_path; Log l1;
               EnterSaveToJson (all_books s ++ bd); OpenW json_path; Log l2;
               DriverQuit] ++ [Log (LogComplete (length (all_books s')))]).
      split; [reflexivity|]. cbn [snd]. split.
      { apply new_events_app. cbn [trace extend]. rewrite Htrace.
        rewrite <- !app_assoc. reflexivity. }
      split.
      { repeat (constructor;
                [first [reflexivity
                       |unfold closing_event; rewrite Hl1; reflexivity
                       |unfold closing_event; rewrite Hl2; reflexivity]|]).
        constructor. }
      split; [exact Hbooks|]. split; [exact Hfiles|].
      do 4 (split; [assumption|]).
      eexists. split; [reflexivity|]. split; [cbn; auto 10|].
      intros e Hin.
      apply in_app_iff in Hin as [Hin|Hin]; cbn in Hin;
        repeat (destruct Hin as [Hin|Hin];
                [first [discriminate Hin
                       |injection Hin as ->;
                        first [discriminate Hl1|discriminate Hl2]]|]);
        destruct Hin.
    + exists ([EnterSaveToCsv (all_books s ++ bd); OpenW csv_path; Log l1;
               EnterSaveToJson (all_books s ++ bd); OpenW json_path; Log l2;
               DriverQuit] ++ []).
      split; [reflexivity|]. cbn [snd]. split.
      { apply new_events_app. cbn [trace extend]. rewrite Htrace.
        rewrite <- !app_assoc. reflexivity. }
      split.
      { repeat (constructor;
                [first [reflexivity
                       |unfold closing_event; rewrite Hl1; reflexivity
                       |unfold closing_event; rewrite Hl2; reflexivity]|]).
        constructor. }
      split; [exact Hbooks|]. split; [exact Hfiles|].
      do 4 (split; [assumption|]).
      eexists. split; [reflexivity|]. split; [cbn; auto 10|].
      intros e0 Hin.
      apply in_app_iff in Hin as [Hin|Hin]; cbn in Hin;
        repeat (destruct Hin as [Hin|Hin];
                [first [discriminate Hin
                       |injection Hin as ->;
                        first [discriminate Hl1|discriminate Hl2]]|]);
        destruct Hin.
  - unfold release_and_report. cbn [world all_books files trace extend with_books].
    destruct (driver_quit w) as [[[]|e'] w'].
    + exists [Log (LogScrapingFailed e); DriverQuit;
              Log (LogComplete (length (all_books s ++ bd)))].
      split; [reflexivity|]. cbn [snd]. split.
      { apply new_events_app. cbn. rewrite <- !app_assoc. reflexivity. }
      split; [repeat constructor|]. split; [reflexivity|].
      split; [reflexivity|]. do 4 (split; [assumption|]).
      split; [exact (Hr e eq_refl)|].
      split; intros books Hin; cbn in Hin;
        repeat (destruct Hin as [Hin|Hin]; [discriminate Hin|]); destruct Hin.
    + exists [Log (LogScrapingFailed e); DriverQuit].
      split; [reflexivity|]. cbn [snd]. split.
      { apply new_events_app. cbn. rewrite <- !app_assoc. reflexivity. }
      split; [repeat constructor|]. split; [reflexivity|].
      split; [reflexivity|]. do 4 (split; [assumption|]).
      split; [exact (Hr e eq_refl)|].
      split; intros books Hin; cbn in Hin;
        repeat (destruct Hin as [Hin|Hin]; [discriminate Hin|]); destruct Hin.
Qed.

(** *** The extras *)

Lemma logged_app (t1 t2 : list event) : logged (t1 ++ t2) = logged t1 ++ logged t2.
Proof. apply flat_map_app. Qed.

(** X1.  Saving the tabular file twice in a row leaves the output file as
    the first save left it, provided the first save could open the file: a
    second save rewrites the same text, also when the first one stopped at
    a record that does not fit the header, and a second save that cannot
    open the file leaves the text there.  The result set is the same after
    both, and the second save adds one record to the log file. *)
Theorem save_to_csv_twice (s : state) (w : W) :
  open_w csv_path (world s) = (Ok tt, w) ->
  files (save_to_csv (save_to_csv s).2).2 !! csv_path
  = files (save_to_csv s).2 !! csv_path
  /\ all_books (save_to_csv (save_to_csv s).2).2 = all_books s
  /\ exists entry,
       log_file (save_to_csv (save_to_csv s).2).2
       = log_file (save_to_csv s).2 ++ [entry].
Proof.
  intros Hopen. pose proof (save_to_csv_cases s) as E1. cbn zeta in E1.
  rewrite Hopen in E1. rewrite E1. cbn [snd].
  match goal with |- context [save_to_csv ?st] =>
    pose proof (save_to_csv_cases st) as E2
  end.
  cbn zeta in E2. cbn [world all_books with_file extend] in E2.
  destruct (open_w csv_path w) as [[[]|e] w2]; rewrite E2; cbn [snd];
    cbn [files all_books log_file with_file extend logged flat_map app];
    (split; [|split; [reflexivity|eexists; reflexivity]]).
  - rewrite !lookup_insert_eq. reflexivity.
  - reflexivity.
Qed.

(** X2.  Saving the structured file twice in a row leaves the output file
    as the first save left it, provided the first save could open the
    file.  The result set is the same after both, and the second save adds
    one record to the log file. *)
Theorem save_to_json_twice (s : state) (w : W) :
  open_w json_path (world s) = (Ok tt, w) ->
  files (save_to_json (save_to_json s).2).2 !! json_path
  = files (save_to_json s).2 !! json_path
  /\ all_books (save_to_json (save_to_json s).2).2 = all_books s
  /\ exists entry,
       log_file (save_to_json (save_to_json s).2).2
       = log_file (save_to_json s).2 ++ [entry].
Proof.
  intros Hopen. pose proof (save_to_json_cases s) as E1. cbn zeta in E1.
  rewrite Hopen in E1. rewrite E1. cbn [snd].
  match goal with |- context [save_to_json ?st] =>
    pose proof (save_to_json_cases st) as E2
  end.
  cbn zeta in E2. cbn [world all_books with_file extend] in E2.
  destruct (open_w json_path w) as [[[]|e] w2]; rewrite E2; cbn [snd];
    cbn [files all_books log_file with_file extend logged flat_map app];
    (split; [|split; [reflexivity|eexists; reflexivity]]).
  - rewrite !lookup_insert_eq. reflexivity.
  - reflexivity.
Qed.

(** X3.  A run only appends to the result set; the only files it opens
    for writing are the two output files; and every record it logs is
    appended to the log file, in order. *)
Theorem run_appends_and_opens_only_outputs (start_page end_page : Z) (s : state) :
  (exists book_data,
     all_books (run start_page end_page s).2 = all_books s ++ book_data)
  /\ (forall path,
        In (OpenW path) (new_events s (run start_page end_page s).2) ->
        path = csv_path \/ path = json_path)
  /\ log_file (run start_page end_page s).2
     = log_file s ++ logged (new_events s (run start_page end_page s).2).
Proof.
  rewrite run_outcome. unfold scrape_multiple_pages.
  destruct (scrape_pages_events (Z.to_nat (end_page + 1 - start_page)) start_page
              (extend s (world s) [Log LogStarting]))
    as (r1 & w & t & book_data & E & Ht).
  rewrite E.
  assert (Hopen : forall path rest,
            (forall ev, In ev rest -> ev = OpenW path ->
                        path = csv_path \/ path = json_path) ->
            In (OpenW path) ([Log LogStarting] ++ t ++ rest) ->
            path = csv_path \/ path = json_path).
  { intros path rest Hrest Hin. cbn [app] in Hin.
    destruct Hin as [Hin|Hin]; [discriminate Hin|].
    apply in_app_iff in Hin as [Hin|Hin]; [|eapply Hrest; eauto].
    rewrite Forall_forall in Ht. apply list_elem_of_In in Hin.
    destruct (Ht _ Hin) as [m Hm].
    destruct Hm as [Hm|[Hm|[Hm|[[e Hm]|Hm]]]]; discriminate Hm. }
  destruct r1 as [[]|e].
  - unfold save_both, bind.
    destruct (save_to_csv_returns
                (with_books (extend (extend s (world s) [Log LogStarting]) w t)
                            book_data))
      as (w1 & l1 & text1 & _ & [E1|E1]); rewrite E1;
      match goal with |- context [save_to_json ?st] =>
        destruct (save_to_json_returns st) as (w2 & l2 & text2 & _ & [E2|E2]);
          rewrite E2
      end;
      cbn [snd]; unfold release_and_report;
      cbn [world all_books with_books with_file extend];
      destruct (driver_quit w2) as [[[]|e] w3]; cbn [snd];
      (split; [eexists; cbn [all_books with_books with_file extend]; reflexivity|]);
      (erewrite new_events_app;
       [|cbn [trace with_books with_file extend]; rewrite <- !app_assoc;
         reflexivity]);
      (split;
       [intros path; apply Hopen; cbn [In app]; intros ev Hin Hev; subst ev;
        repeat (destruct Hin as [Hin|Hin];
                [first [discriminate Hin
                       |injection Hin as <-; auto]|]);
        destruct Hin
       |cbn [log_file with_books with_file extend];
        rewrite !logged_app; cbn [logged flat_map app];
        rewrite ?app_nil_r, <- ?app_assoc; cbn [app]; reflexivity]).
  - unfold release_and_report. cbn [world all_books with_books extend].
    destruct (driver_quit w) as [[[]|e'] w3]; cbn [snd];
      (split; [eexists; cbn [all_books with_books extend]; reflexivity|]);
      (erewrite new_events_app;
       [|cbn [trace with_books extend]; rewrite <- !app_assoc; reflexivity]);
      (split;
       [intros path; apply Hopen; cbn [In app]; intros ev Hin Hev; subst ev;
        repeat (destruct Hin as [Hin|Hin]; [discriminate Hin|]);
        destruct Hin
       |cbn [log_file with_books extend];
        rewrite !logged_app; cbn [logged flat_map app];
        rewrite ?app_nil_r, <- ?app_assoc; cbn [app]; reflexivity]).
Qed.

(** X4.  [run] raises only what [driver.quit()] raised, and [driver.quit()]
    is then the last thing it did; in every other case it returns and its
    last act is the closing log line, which counts the records of the
    result set. *)
Theorem run_raises_only_from_quit (start_page end_page : Z) (s : state) :
  match run start_page end_page s with
  | (Ok _, s') =>
      last (trace s') = Some (Log (LogComplete (length (all_books s'))))
  | (Raise e, s') =>
      (exists w w', driver_quit w = (Raise e, w'))
      /\ last (trace s') = Some DriverQuit
  end.
Proof.
  rewrite run_outcome.
  assert (Hend : forall s2,
            match release_and_report s2 with
            | (Ok _, s') =>
                last (trace s') = Some (Log (LogComplete (length (all_books s'))))
            | (Raise e, s') =>
                (exists w w', driver_quit w = (Raise e, w'))
                /\ last (trace s') = Some DriverQuit
            end).
  { intros s2. unfold release_and_report.
    destruct (driver_quit (world s2)) as [[[]|e] w'] eqn:Hquit;
      cbn [trace all_books extend].
    - rewrite last_app. reflexivity.
    - split; [eauto|]. rewrite last_app. reflexivity. }
  destruct (scrape_multiple_pages _ _ _) as [[[]|e] s1]; apply Hend.
Qed.

(** X5.  The pages a run attempts are consecutive page numbers starting
    at [start_page], each attempted once and in order, and there are at
    most [end_page + 1 - start_page] of them: none when the range is
    empty. *)
Theorem run_attempts_consecutive_pages (start_page end_page : Z) (s : state) :
  exists k,
    (k <= Z.to_nat (end_page + 1 - start_page))%nat
    /\ page_numbers (new_events s (run start_page end_page s).2)
       = map (fun i => start_page + Z.of_nat i) (seq 0 k).
Proof.
  destruct (run_events start_page end_page s)
    as (r1 & w & t & bd & k & closing & _ & -> & Hclosing & _ & _ & Hk & Hp & _).
  exists k. split; [exact Hk|].
  change (Log LogStarting :: t ++ closing) with ([Log LogStarting] ++ t ++ closing).
  rewrite !page_numbers_app, Hp.
  destruct (closing_event_no_page _ Hclosing) as [-> _].
  cbn [page_numbers flat_map app]. apply app_nil_r.
Qed.

(** X6.  A run sleeps exactly once per listing page it attempts: the
    delay of [get_page]; the requests for detail pages are made without
    any. *)
Theorem run_sleeps_once_per_page (start_page end_page : Z) (s : state) :
  length (List.filter is_sleep (new_events s (run start_page end_page s).2))
  = length (page_numbers (new_events s (run start_page end_page s).2)).
Proof.
  destruct (run_events start_page end_page s)
    as (r1 & w & t & bd & k & closing & _ & -> & Hclosing & _ & _ & _ & Hp & Hs & _).
  change (Log LogStarting :: t ++ closing) with ([Log LogStarting] ++ t ++ closing).
  rewrite !page_numbers_app, !filter_app_bool, Hp.
  destruct (closing_event_no_page _ Hclosing) as [-> ->].
  cbn [page_numbers flat_map List.filter is_sleep app].
  rewrite !app_nil_r, length_map, length_seq. exact Hs.
Qed.

(** X7.  If every record of the result set has the five summary fields,
    alone or followed by the five detail fields, in the order of the
    source, then so has every record after a run: the detail fields are
    merged all or none, after the summary fields and without replacing
    any. *)
Theorem run_keeps_record_shape (start_page end_page : Z) (s : state) :
  Forall book_record (all_books s) ->
  Forall book_record (all_books (run start_page end_page s).2).
Proof.
  intros Hs.
  destruct (run_events start_page end_page s)
    as (r1 & w & t & bd & k & closing & _ & _ & _ & -> & _ & _ & _ & _ & Hbd & _).
  apply Forall_app. auto.
Qed.

Lemma fitting_prefix_all (fieldnames : list pystr) (rowdicts : list record) :
  Forall (fun r => fits fieldnames r = true) rowdicts ->
  fitting_prefix fieldnames rowdicts = rowdicts.
Proof.
  induction 1 as [|r l Hr _ IH]; [reflexivity|].
  cbn [fitting_prefix]. rewrite Hr, IH. reflexivity.
Qed.

Lemma book_record_fits (first r : record) :
  book_record first -> book_record r ->
  has_details first = true \/ has_details r = false ->
  fits (Dict.keys first) r = true.
Proof.
  intros [] [] [Hd|Hd]; try (vm_compute in Hd; discriminate Hd);
    vm_compute; reflexivity.
Qed.

(** X8.  When the first record of the result set has the detail fields,
    or no later record has them, and the output file can be opened, the
    tabular writer writes the header and one row for every record, and
    logs the save: with records of the two shapes the writer stops early
    only when the first record lacks the detail fields and a later one has
    them. *)
Theorem save_to_csv_writes_every_record (s : state) (first : record)
    (rest : list record) (w : W) :
  all_books s = first :: rest ->
  Forall book_record (first :: rest) ->
  open_w csv_path (world s) = (Ok tt, w) ->
  has_details first = true \/ Forall (fun r => has_details r = false) rest ->
  exists s',
    save_to_csv s = (Ok tt, s')
    /\ files s' !! csv_path = Some (csv_dropping_extras (first :: rest))
    /\ new_events s s'
       = [EnterSaveToCsv (first :: rest); OpenW csv_path; Log (LogSaved csv_path)].
Proof.
  intros Hbooks Hshape Hopen Hdetails.
  pose proof (save_to_csv_cases s) as E. cbn zeta in E.
  rewrite Hbooks, Hopen in E. unfold csv_document in E.
  assert (Hfit : fitting_prefix (Dict.keys first) (first :: rest) = first :: rest).
  { apply fitting_prefix_all. inversion Hshape as [|? ? Hfirst Hrest]; subst.
    constructor; [apply fits_own_keys|].
    apply Forall_forall. intros r Hr.
    apply book_record_fits; [exact Hfirst|eapply Forall_forall; eauto|].
    destruct Hdetails as [Hd|Hd]; [left; exact Hd|right].
    eapply Forall_forall in Hd; eauto. }
  destruct (csv_rows_fitting_prefix (Dict.keys first) (first :: rest)) as [H1 H2].
  rewrite Hfit in H1, H2. rewrite decide_True in H2 by reflexivity.
  destruct (csv_rows (Dict.keys first) (first :: rest)) as [text stopped].
  cbn [fst snd] in *. subst text stopped.
  eexists. split; [exact E|]. split; [apply lookup_with_file|].
  apply new_events_app. reflexivity.
Qed.

Lemma replace1_app (old : N) (new a b : pystr) :
  replace1 old new (a ++ b) = replace1 old new a ++ replace1 old new b.
Proof. apply flat_map_app. Qed.

(** X10.  The pound sign and the A-circumflex are dropped wherever they
    stand in the price text, not only in front of it. *)
Theorem parse_price_drops_symbols (before after : pystr) :
  parse_price (before ++ pound :: after) = parse_price (before ++ after)
  /\ parse_price (before ++ a_circumflex :: after) = parse_price (before ++ after).
Proof.
  unfold parse_price. split.
  - rewrite !(replace1_app pound).
    change (replace1 pound [] (pound :: after)) with (replace1 pound [] after).
    reflexivity.
  - rewrite !(replace1_app pound).
    change (replace1 pound [] (a_circumflex :: after))
      with ([a_circumflex] ++ replace1 pound [] after).
    rewrite !(replace1_app a_circumflex).
    change (replace1 a_circumflex [] [a_circumflex]) with (@nil N).
    reflexivity.
Qed.

(** X11.  [scrape_page] raises only what [BeautifulSoup] raised on the
    markup of the listing page it fetched; the result set is then as it
    was before the call. *)
Theorem scrape_page_raises_only_from_parser (page_num : Z) (s s' : state) (e : exn) :
  scrape_page page_num s = (Raise e, s') ->
  all_books s' = all_books s
  /\ exists markup w t,
       navigate (page_url_of page_num) (str "product_pod") (world s) = (Ok markup, w, t)
       /\ markup <> []
       /\ BeautifulSoup markup = Raise e.
Proof.
  intros E0. pose proof (scrape_page_cases page_num s) as E. cbn zeta in E.
  rewrite E0 in E.
  destruct (navigate _ _ _) as [[[markup|e'] w] t]; [|discriminate].
  destruct markup as [|c markup]; [discriminate|].
  destruct (BeautifulSoup (c :: markup)) as [soup|e'] eqn:Hsoup.
  - destruct (select_product_pod soup) as [|b books]; [discriminate|].
    destruct (scrape_books_returns page_num (b :: books) (extend s w
               ([Log (LogScrapingPage page_num (page_url_of page_num)); Sleep] ++ t)))
      as (w' & t' & recs & E' & _).
    rewrite E' in E. discriminate.
  - injection E as -> ->. split; [reflexivity|].
    exists (c :: markup), w, t. split; [reflexivity|]. split; [discriminate|exact Hsoup].
Qed.

(** X12.  With a parser that never raises, every run enters both writers
    with the result set the run ends with. *)
Theorem run_saves_when_parser_is_total (start_page end_page : Z) (s : state) :
  (forall markup, exists soup, BeautifulSoup markup = Ok soup) ->
  In (EnterSaveToCsv (all_books (run start_page end_page s).2))
     (new_events s (run start_page end_page s).2)
  /\ In (EnterSaveToJson (all_books (run start_page end_page s).2))
        (new_events s (run start_page end_page s).2).
Proof.
  intros Htotal.
  destruct (run_events start_page end_page s)
    as (r1 & w & t & bd & k & closing & _ & -> & _ & -> & _ & _ & _ & _ & _ & Hr1).
  destruct r1 as [[]|e].
  - destruct Hr1 as (more & -> & Hjson & _).
    split; apply in_cons, in_app_iff; right.
    + left. reflexivity.
    + right. right. exact Hjson.
  - destruct Hr1 as ([markup Hraise] & _).
    destruct (Htotal markup) as [soup Hsoup]. congruence.
Qed.

(** X13.  [scrape_book_details] returns detail fields exactly when the
    three driver calls succeed, the markup parses, the page has its
    container, the description meta tag has a [content] attribute and each
    of the four labelled rows has its value cell; the fields are then the
    trimmed description and the four cell texts as they are. *)
Theorem scrape_book_details_some_iff (book_url : pystr) (s : state)
    (details : record) :
  (scrape_book_details book_url s).1 = Ok (Some details) <->
  exists markup w t soup product_page content upc product_type tax reviews,
    navigate book_url (str "product_page") (world s) = (Ok markup, w, t)
    /\ BeautifulSoup markup = Ok soup
    /\ find_product_page soup = Some product_page
    /\ pp_meta_description product_page = Some (Some content)
    /\ pp_th product_page (str "UPC") = Some (Some upc)
    /\ pp_th product_page (str "Product Type") = Some (Some product_type)
    /\ pp_th product_page (str "Tax") = Some (Some tax)
    /\ pp_th product_page (str "Number of reviews") = Some (Some reviews)
    /\ details = detail_fields (strip content) upc product_type tax reviews.
Proof.
  rewrite scrape_book_details_navigate.
  unfold extract_details, description_of, th_value. split.
  - destruct (navigate _ _ _) as [[[markup|e] w] t]; [|discriminate].
    destruct (BeautifulSoup markup) as [soup|] eqn:Hsoup; [|discriminate].
    destruct (find_product_page soup) as [pp|] eqn:Hpp; [|discriminate].
    destruct (pp_meta_description pp) as [[content|]|] eqn:Hmeta; try discriminate.
    destruct (pp_th pp (str "UPC")) as [[upc|]|] eqn:Hupc; try discriminate.
    destruct (pp_th pp (str "Product Type")) as [[product_type|]|] eqn:Htype;
      try discriminate.
    destruct (pp_th pp (str "Tax")) as [[tax|]|] eqn:Htax; try discriminate.
    destruct (pp_th pp (str "Number of reviews")) as [[reviews|]|] eqn:Hreviews;
      try discriminate.
    cbn [fst]. intros [= <-].
    exists markup, w, t, soup, pp, content, upc, product_type, tax, reviews.
    repeat split; first [reflexivity|assumption].
  - intros (markup & w & t & soup & pp & content & upc & product_type & tax & reviews
            & -> & -> & -> & -> & -> & -> & -> & -> & ->).
    reflexivity.
Qed.

End MoreProperties.

(** ** The extras on the small site *)

(** X1 on the small site: the result set of page 5, where the first save
    stops at the second record. *)
Lemma save_to_csv_twice_witness :
  files (@save_to_csv Sample.env (@save_to_csv Sample.env Sample.scraped_page_5).2).2
    !! csv_path
  = files (@save_to_csv Sample.env Sample.scraped_page_5).2 !! csv_path
  /\ all_books (@save_to_csv Sample.env (@save_to_csv Sample.env Sample.scraped_page_5).2).2
     = all_books Sample.scraped_page_5
  /\ exists entry,
       log_file (@save_to_csv Sample.env
                   (@save_to_csv Sample.env Sample.scraped_page_5).2).2
       = log_file (@save_to_csv Sample.env Sample.scraped_page_5).2 ++ [entry].
Proof.
  exact (@save_to_csv_twice Sample.env Sample.scraped_page_5
           (world Sample.scraped_page_5) eq_refl).
Defined.

(** X2 on the small site. *)
Lemma save_to_json_twice_witness :
  files (@save_to_json Sample.env (@save_to_json Sample.env Sample.scraped_page_5).2).2
    !! json_path
  = files (@save_to_json Sample.env Sample.scraped_page_5).2 !! json_path
  /\ all_books (@save_to_json Sample.env (@save_to_json Sample.env Sample.scraped_page_5).2).2
     = all_books Sample.scraped_page_5
  /\ exists entry,
       log_file (@save_to_json Sample.env
                   (@save_to_json Sample.env Sample.scraped_page_5).2).2
       = log_file (@save_to_json Sample.env Sample.scraped_page_5).2 ++ [entry].
Proof.
  exact (@save_to_json_twice Sample.env Sample.scraped_page_5
           (world Sample.scraped_page_5) eq_refl).
Defined.

(** X7 on the small site: a new scraper run over pages 5 and 6. *)
Lemma run_keeps_record_shape_witness :
  Forall book_record (all_books (@run Sample.env 5 6 Sample.start).2).
Proof.
  apply (@run_keeps_record_shape Sample.env 5 6 Sample.start). constructor.
Defined.

(** X8 on the small site: the first of three records has the detail
    fields, the second has not. *)
Lemma save_to_csv_writes_every_record_witness :
  has_details (List.hd [] (all_books scraped_pages_1_and_5)) = true
  /\ exists s',
       @save_to_csv Sample.env scraped_pages_1_and_5 = (Ok tt, s')
       /\ files s' !! csv_path
          = Some (@csv_dropping_extras Sample.env
                    (List.hd [] (all_books scraped_pages_1_and_5)
                     :: List.tl (all_books scraped_pages_1_and_5))).
Proof.
  split; [vm_compute; reflexivity|].
  destruct (@save_to_csv_writes_every_record Sample.env scraped_pages_1_and_5
              (List.hd [] (all_books scraped_pages_1_and_5))
              (List.tl (all_books scraped_pages_1_and_5))
              (world scraped_pages_1_and_5))
    as (s' & E & Hfile & _).
  - vm_compute. reflexivity.
  - vm_compute. repeat constructor.
  - reflexivity.
  - left. vm_compute. reflexivity.
  - exists s'. split; [exact E|exact Hfile].
Defined.

(** X11 on the small site, on the machine without lxml. *)
Lemma scrape_page_raises_only_from_parser_witness :
  all_books (@scrape_page Sample.env_without_lxml 1 Sample.start_without_lxml).2
  = all_books Sample.start_without_lxml
  /\ exists markup w t,
       @navigate Sample.env_without_lxml (page_url_of 1) (str "product_pod")
         (world Sample.start_without_lxml) = (Ok markup, w, t)
       /\ markup <> []
       /\ @BeautifulSoup Sample.env_without_lxml markup
          = Raise (OtherError (str "Couldn't find a tree builder with the features you requested: lxml.")).
Proof.
  apply (@scrape_page_raises_only_from_parser Sample.env_without_lxml 1
           Sample.start_without_lxml).
  reflexivity.
Defined.

(** X12 on the small site, whose parser accepts every markup. *)
Lemma run_saves_when_parser_is_total_witness :
  In (EnterSaveToCsv (all_books (@run Sample.env 1 2 Sample.start).2))
     (new_events Sample.start (@run Sample.env 1 2 Sample.start).2)
  /\ In (EnterSaveToJson (all_books (@run Sample.env 1 2 Sample.start).2))
        (new_events Sample.start (@run Sample.env 1 2 Sample.start).2).
Proof.
  apply (@run_saves_when_parser_is_total Sample.env 1 2 Sample.start).
  intros markup. cbn [BeautifulSoup Sample.env]. unfold Sample.parse.
  repeat (destruct (decide _); [eexists; reflexivity|]). eexists; reflexivity.
Defined.

(** X13 on the small site: the detail page of the first block of
    page 1. *)
Lemma scrape_book_details_some_iff_witness :
  (@scrape_book_details Sample.env Sample.detail_a Sample.start).1
  = Ok (Some (detail_fields (str "A book of poems.") (str "a897fe39b1053632")
                (str "Books") (pound :: str "0.00") (str "0"))).
Proof.
  apply (@scrape_book_details_some_iff Sample.env Sample.detail_a Sample.start).
  exists (str "<detail a>"), Sample.detail_a,
         [DriverGet Sample.detail_a; DriverWait (str "product_page"); DriverPageSource],
         {| select_product_pod := []; find_product_page := Some Sample.page_a |},
         Sample.page_a, (str " A book of poems. "), (str "a897fe39b1053632"),
         (str "Books"), (pound :: str "0.00"), (str "0").
  repeat split; vm_compute; reflexivity.
Defined.
